(** * Camera test harness: a shallow embedding of
      camera-test/camera_controller.py and camera-test/test_camera_output.py

    The harness drives external tools (v4l2-ctl, ffmpeg, ffprobe, OpenCV)
    and logs PASS/FAIL verdicts.  The embedding keeps every line of Python
    control flow and takes the tools, the clock and the parts of the Python
    runtime that are not modelled here as one interface, [Platform]. *)

From Stdlib Require Import ZArith QArith Qabs String Ascii List Bool Lia.
From stdpp Require Import base option strings list gmap pretty.
Import ListNotations.

Local Open Scope string_scope.
Local Open Scope Z_scope.
Local Open Scope list_scope.

(** ** Text *)

(** The newline character and the double quote, as one-character strings. *)
Definition nl : string := String "010"%char EmptyString.
Definition dq : string := String "034"%char EmptyString.

(** [s.startswith(p)]. *)
Fixpoint startswith (s p : string) {struct p} : bool :=
  match p with
  | EmptyString => true
  | String a p' =>
      match s with
      | EmptyString => false
      | String b s' => Ascii.eqb a b && startswith s' p'
      end
  end.

(** [needle in hay] of Python, on strings. *)
Fixpoint contains (needle hay : string) : bool :=
  startswith hay needle ||
  match hay with
  | EmptyString => false
  | String _ rest => contains needle rest
  end.

Fixpoint last_char (s : string) : option ascii :=
  match s with
  | EmptyString => None
  | String c EmptyString => Some c
  | String _ rest => last_char rest
  end.

Definition ends_with_sep (s : string) : bool :=
  match last_char s with
  | Some c => Ascii.eqb c "/"%char
  | None => false
  end.

(** [s.split("\n")]: the pieces between newlines, at least one piece. *)
Fixpoint split_lines (s : string) : list string :=
  match s with
  | EmptyString => [EmptyString]
  | String c rest =>
      if Ascii.eqb c "010"%char then EmptyString :: split_lines rest
      else
        match split_lines rest with
        | piece :: pieces => String c piece :: pieces
        | [] => [String c EmptyString]
        end
  end.

(** No newline inside. *)
Fixpoint single_line (s : string) : bool :=
  match s with
  | EmptyString => true
  | String c rest => negb (Ascii.eqb c "010"%char) && single_line rest
  end.

(** ASCII whitespace as [str.isspace] sees it: 9-13, 28-31 and the space. *)
Definition is_space (c : ascii) : bool :=
  let n := nat_of_ascii c in
  ((9 <=? n) && (n <=? 13))%nat || ((28 <=? n) && (n <=? 32))%nat.

Definition is_ascii_char (c : ascii) : bool := (nat_of_ascii c <? 128)%nat.

Fixpoint is_ascii (s : string) : bool :=
  match s with
  | EmptyString => true
  | String c rest => is_ascii_char c && is_ascii rest
  end.

Fixpoint lstrip (s : string) : string :=
  match s with
  | EmptyString => EmptyString
  | String c rest => if is_space c then lstrip rest else s
  end.

Definition ascii_strip (s : string) : string :=
  String.rev (lstrip (String.rev (lstrip s))).

Definition lower_char (c : ascii) : ascii :=
  let n := nat_of_ascii c in
  if ((65 <=? n) && (n <=? 90))%nat then ascii_of_nat (n + 32) else c.

(** [s.lower()] on the ASCII letters; the entry point only compares the
    result with ['all'], and no character outside ASCII lowers to one of
    its letters. *)
Fixpoint lower (s : string) : string :=
  match s with
  | EmptyString => EmptyString
  | String c rest => String (lower_char c) (lower rest)
  end.

(** ** Decimal literals *)

Definition is_digit (c : ascii) : bool :=
  let n := nat_of_ascii c in ((48 <=? n) && (n <=? 57))%nat.

Definition digit_value (c : ascii) : Z := Z.of_nat (nat_of_ascii c) - 48.

(** The value of a run of decimal digits, [None] on any other character. *)
Fixpoint digits_value (s : string) (acc : Z) : option Z :=
  match s with
  | EmptyString => Some acc
  | String c rest =>
      if is_digit c then digits_value rest (10 * acc + digit_value c) else None
  end.

(** ** os.path.join on two components (posixpath) *)
Definition os_path_join (a b : string) : string :=
  if startswith b "/" then b
  else if String.eqb a "" || ends_with_sep a then a +:+ b
  else a +:+ "/" +:+ b.

(** ** The world outside the interpreter *)

(** Regular files by path, and the wall clock in seconds.  Directories are
    not modelled: [os.makedirs(..., exist_ok=True)] is taken to succeed. *)
Record World := mkWorld {
  files : gmap string string;
  clock : nat
}.

(** The interpreter's view: the world and what was printed so far. *)
Record Machine := mkMachine {
  world : World;
  console : list string
}.

(** [subprocess.run(..., capture_output=True, text=True)]. *)
Record CompletedProcess := mkProc {
  returncode : Z;
  stdout : string;
  stderr : string
}.

(** ** Exceptions and outcomes *)

Inductive exn :=
| AssertionError (msg : string)
| JSONDecodeError
| KeyError
| IndexError
| TypeError
| ValueError
| ZeroDivisionError
| OtherException (name : string)
| SystemExit (code : Z)
| OtherBaseException (name : string).

(** [isinstance(e, Exception)]: SystemExit, KeyboardInterrupt and
    GeneratorExit derive from BaseException only. *)
Definition is_Exception (e : exn) : bool :=
  match e with
  | SystemExit _ | OtherBaseException _ => false
  | _ => true
  end.

Definition is_AssertionError (e : exn) : bool :=
  match e with AssertionError _ => true | _ => false end.

Definition is_ValueError (e : exn) : bool :=
  match e with ValueError | JSONDecodeError => true | _ => false end.

Inductive outcome (A : Type) :=
| Return (a : A)
| Raise (e : exn).
Arguments Return {A} a.
Arguments Raise {A} e.

(** Pure computations that may raise. *)
Definition obind {A B} (x : outcome A) (f : A -> outcome B) : outcome B :=
  match x with
  | Return a => f a
  | Raise e => Raise e
  end.

(** Statements: a state transformer over [Machine] that may raise. *)
Definition M (A : Type) : Type := Machine -> Machine * outcome A.

Definition ret {A} (a : A) : M A := fun m => (m, Return a).
Definition raise {A} (e : exn) : M A := fun m => (m, Raise e).
Definition bind {A B} (x : M A) (f : A -> M B) : M B :=
  fun m =>
    match x m with
    | (m1, Return a) => f a m1
    | (m1, Raise e) => (m1, Raise e)
    end.
Definition lift {A} (x : outcome A) : M A := fun m => (m, x).

(** [try: body  except <caught>: handler]. *)
Definition try_except {A} (caught : exn -> bool) (body : M A) (handler : exn -> M A) : M A :=
  fun m =>
    match body m with
    | (m1, Return a) => (m1, Return a)
    | (m1, Raise e) => if caught e then handler e m1 else (m1, Raise e)
    end.

(** The statements form a monad; programs below use stdpp's notation
    [x ← c; k] and [c;; k]. *)
#[global] Instance M_ret : MRet M := @ret.
#[global] Instance M_bind : MBind M := fun A B f x => bind x f.

(** [print(message)]. *)
Definition print (message : string) : M unit :=
  fun m => (mkMachine (world m) (console m ++ [message]), Return tt).

(** A step of the world that the interpreter only waits for. *)
Definition external {A} (f : World -> World * A) : M A :=
  fun m => let (w, a) := f (world m) in (mkMachine w (console m), Return a).

(** [os.path.exists(p)] and [os.path.getsize(p) > 0] on regular files. *)
Definition path_exists (w : World) (p : string) : bool :=
  bool_decide (is_Some (files w !! p)).

Definition nonzero_size (w : World) (p : string) : bool :=
  match files w !! p with
  | Some content => negb (String.eqb content "")
  | None => false
  end.

(** ** Values of the libraries the harness calls *)

(** What [json.loads] returns.  An object keeps the items of the decoded
    dict in a list, one per key; lookup takes the first match. *)
#[local] Unset Elimination Schemes.
Inductive json :=
| JNull
| JBool (b : bool)
| JNumber (q : Q)
| JString (s : string)
| JArray (items : list json)
| JObject (members : list (string * json)).
#[local] Set Elimination Schemes.

(** What [eval] can return, as far as [abs(fps - self.fps) <= 1] tells the
    values apart: a finite number, an infinity or NaN (every comparison
    with the tolerance is false), or an object that has no subtraction
    with an int. *)
Inductive pyval :=
| PyNumber (q : Q)
| PyNonFinite
| PyObject.

(** A decoded image: [shape[0]] rows, [shape[1]] columns and the samples
    (one per pixel for a grayscale read), each in 0..255. *)
Record ndarray := mkArray {
  shape0 : Z;
  shape1 : Z;
  samples : list Z
}.

Inductive imread_flag := IMREAD_COLOR | IMREAD_GRAYSCALE.

(** ** The platform

    Everything the two Python files call and do not define.  The tools that
    write files act on the whole [World].  The prober and the image decoder
    only read: they are functions of their arguments and of the bytes of
    the one file they are pointed at ([None] when it does not exist), and
    they are taken to be installed, so launching them does not raise. *)
Class Platform := {
  (** [datetime.now().strftime(fmt)] at a clock value *)
  strftime : string -> nat -> string;
  (** [time.sleep(seconds)]: the clock advances and other processes run *)
  time_sleep : Z -> World -> World;
  (** [subprocess.run(command, capture_output=True, text=True)] of
      v4l2-ctl and of the single-frame ffmpeg *)
  subprocess_run : list string -> World -> World * CompletedProcess;
  (** [subprocess.Popen(line, shell=True, ...).communicate()]: the
      captured stdout and stderr *)
  popen_communicate : string -> World -> World * (string * string);
  (** ffprobe with the given command line on the bytes of its input *)
  ffprobe : list string -> option string -> CompletedProcess;
  (** [cv2.imread(path, flag)] on the bytes at [path]; [None] is Python's None *)
  imread : imread_flag -> option string -> option ndarray;
  (** [json.loads]; [None] when it raises (JSONDecodeError, or another
      subclass of Exception: the decoder never exits the interpreter) *)
  json_loads : string -> option json;
  (** [eval] outside the ratio fragment evaluated by [py_eval] below *)
  eval_other : string -> outcome pyval;
  (** [int] outside the ASCII fragment parsed by [py_int] below; [None]
      when it raises ValueError *)
  int_other : string -> option Z;
  (** [str.strip] on text with characters outside ASCII *)
  strip_other : string -> string
}.

(** ** Python built-ins used by the harness *)

(** [str.strip()]. *)
Definition py_strip `{Platform} (s : string) : string :=
  if is_ascii s then ascii_strip s else strip_other s.

(** Digits with single underscores between them, as [int] accepts. *)
Fixpoint int_digits (s : string) (acc : Z) (after_digit : bool) : option Z :=
  match s with
  | EmptyString => if after_digit then Some acc else None
  | String c rest =>
      if is_digit c then int_digits rest (10 * acc + digit_value c) true
      else if Ascii.eqb c "_"%char && after_digit then int_digits rest acc false
      else None
  end.

Definition int_signed (s : string) : option Z :=
  match s with
  | String "-"%char rest => Z.opp <$> int_digits rest 0 false
  | String "+"%char rest => int_digits rest 0 false
  | _ => int_digits s 0 false
  end.

(** [int(s)] for a str: ASCII text of at most 4300 characters is parsed
    here (surrounding whitespace, a sign, digits); anything else is left to
    the platform. *)
Definition py_int `{Platform} (s : string) : outcome Z :=
  if is_ascii s && (String.length s <=? 4300)%nat then
    match int_signed (ascii_strip s) with
    | Some z => Return z
    | None => Raise ValueError
    end
  else
    match int_other s with
    | Some z => Return z
    | None => Raise ValueError
    end.

(** A decimal integer literal as the prober prints one with [%d]: an
    optional minus sign, digits without a leading zero (a lone 0 apart), and
    a value of 32 bits. *)
Definition int_literal (s : string) : option Z :=
  let body := match s with String "-"%char rest => rest | _ => s end in
  let neg := match s with String "-"%char _ => true | _ => false end in
  match body with
  | EmptyString => None
  | String c rest =>
      if Ascii.eqb c "0"%char && negb (String.eqb rest "") then None
      else
        match digits_value body 0 with
        | Some v =>
            let z := if neg then - v else v in
            if (- 2 ^ 31 <=? z) && (z <? 2 ^ 31) then Some z else None
        | None => None
        end
  end.

(** The text before and after the first slash. *)
Fixpoint split_slash (s cur : string) : option (string * string) :=
  match s with
  | EmptyString => None
  | String c rest =>
      if Ascii.eqb c "/"%char then Some (String.rev cur, rest)
      else split_slash rest (String c cur)
  end.

(** The source text [num/den] of two integer literals. *)
Definition ratio_literal (s : string) : option (Z * Z) :=
  match split_slash s EmptyString with
  | Some (a, b) =>
      match int_literal a, int_literal b with
      | Some n, Some d => Some (n, d)
      | _, _ => None
      end
  | None => None
  end.

(** [eval(src)] for a str.  A ratio of two integer literals is Python's
    true division: ZeroDivisionError on a zero denominator, otherwise the
    quotient.  The quotient is kept exact; the float that Python computes
    compares with the tolerance below the same way for operands of 32 bits
    and a target rate below 2^20. *)
Definition py_eval `{Platform} (src : string) : outcome pyval :=
  match ratio_literal src with
  | Some (n, d) =>
      if d =? 0 then Raise ZeroDivisionError
      else Return (PyNumber (Qdiv (inject_Z n) (inject_Z d)))
  | None => eval_other src
  end.

(** [json.loads(text)]. *)
Definition py_json_loads `{Platform} (text : string) : outcome json :=
  match json_loads text with
  | Some value => Return value
  | None => Raise JSONDecodeError
  end.

(** [obj[key]] for a str key. *)
Fixpoint members_get (key : string) (members : list (string * json)) : option json :=
  match members with
  | [] => None
  | (k, v) :: rest => if String.eqb k key then Some v else members_get key rest
  end.

Definition getitem_str (obj : json) (key : string) : outcome json :=
  match obj with
  | JObject members =>
      match members_get key members with
      | Some v => Return v
      | None => Raise KeyError
      end
  | _ => Raise TypeError
  end.

(** [obj[0]]: the first item of a list, the first character of a str; a
    dict decoded from JSON has no int key. *)
Definition getitem_0 (obj : json) : outcome json :=
  match obj with
  | JArray (x :: _) => Return x
  | JArray [] => Raise IndexError
  | JString (String c _) => Return (JString (String c EmptyString))
  | JString EmptyString => Raise IndexError
  | JObject _ => Raise KeyError
  | _ => Raise TypeError
  end.

(** [eval(x)] for a decoded JSON value: only a str is accepted. *)
Definition eval_json `{Platform} (x : json) : outcome pyval :=
  match x with
  | JString src => py_eval src
  | _ => Raise TypeError
  end.

(** [abs(fps - target) <= 1]. *)
Definition within_one (fps : pyval) (target : Z) : outcome bool :=
  match fps with
  | PyNumber q => Return (Qle_bool (Qabs (Qminus q (inject_Z target))) 1)
  | PyNonFinite => Return false
  | PyObject => Raise TypeError
  end.

(** [np.mean(img)]: the sum of the samples over their number, [None] for
    the NaN of an empty array.  The samples are integers in 0..255, so the
    float64 sum is exact and the quotient compares with 50 and 200 as the
    exact one does for any image of fewer than 2^45 samples. *)
Definition np_mean (img : ndarray) : option Q :=
  match samples img with
  | [] => None
  | _ => Some (Qdiv (inject_Z (fold_right Z.add 0 (samples img)))
                    (inject_Z (Z.of_nat (length (samples img)))))
  end.

(** [50 <= avg <= 200]; every comparison with NaN is false. *)
Definition in_band (avg : option Q) : bool :=
  match avg with
  | Some q => Qle_bool 50 q && Qle_bool q 200
  | None => false
  end.

(** ** Helpers for statements *)

Definition get_world : M World := fun m => (m, Return (world m)).

(** [with open(path, "w") as f: f.write(text)]: create or truncate. *)
Definition write_file (path text : string) : M unit :=
  fun m =>
    (mkMachine (mkWorld (<[path := text]> (files (world m))) (clock (world m)))
               (console m),
     Return tt).

(** [with open(path, "a") as f: f.write(text)]: create or extend. *)
Definition append_file (path text : string) : M unit :=
  fun m =>
    (mkMachine (mkWorld (<[path := default "" (files (world m) !! path) +:+ text]>
                           (files (world m)))
                        (clock (world m)))
               (console m),
     Return tt).

(** [for x in xs: body(x)]. *)
Fixpoint for_each {A} (xs : list A) (body : A -> M unit) : M unit :=
  match xs with
  | [] => mret tt
  | x :: rest => body x;; for_each rest body
  end.

(** [sep.join(parts)] and [s * n]. *)
Fixpoint str_join (sep : string) (parts : list string) : string :=
  match parts with
  | [] => ""
  | [p] => p
  | p :: rest => p +:+ sep +:+ str_join sep rest
  end.

Fixpoint str_repeat (s : string) (n : nat) : string :=
  match n with
  | O => ""
  | S k => s +:+ str_repeat s k
  end.

(** * camera_controller.py *)
Module CameraController.

Record t := mk {
  device : string;
  output_dir : string
}.

Section Methods.
Context `{Platform}.

(** [__init__]; the defaults are ['/dev/video0'] and ['captures']. *)
Definition init (device output_dir : string) : M t :=
  (* os.makedirs(self.output_dir, exist_ok=True) *)
  mret (mk device output_dir).

Definition list_cameras (self : t) : M string :=
  result ← external (subprocess_run ["v4l2-ctl"; "--list-devices"]);
  mret (stdout result).

Definition set_camera_property (self : t) (prop value : string) : M string :=
  let command := ["v4l2-ctl"; "-d"; device self; "--set-ctrl"; prop +:+ "=" +:+ value] in
  result ← external (subprocess_run command);
  mret (stdout result).

Definition get_camera_property (self : t) (prop : string) : M string :=
  let command := ["v4l2-ctl"; "-d"; device self; "--get-ctrl"; prop] in
  result ← external (subprocess_run command);
  mret (stdout result).

Definition capture_image (self : t) (filename : string) : M string :=
  let output_path := os_path_join (output_dir self) filename in
  let command :=
    ["ffmpeg"; "-y"; "-f"; "video4linux2"; "-i"; device self; "-frames:v"; "1"; output_path] in
  result ← external (subprocess_run command);
  mret (if returncode result =? 0 then output_path else stderr result).

(** The command line handed to the shell by [record_video]. *)
Definition record_command (self : t) (duration : Z) (output_path : string) : list string :=
  ["/usr/bin/ffmpeg"; "-f"; "v4l2"; "-input_format"; "mjpeg"; "-video_size"; "640x480";
   "-framerate"; "30"; "-t"; pretty duration;
   "-i"; device self; "-c:v"; "libx264"; "-preset"; "ultrafast"; "-pix_fmt"; "yuv420p";
   output_path].

(** The text returned when no usable file was produced. *)
Definition record_failure (out err : string) : string :=
  "Failed to record video. FFmpeg output:" +:+ nl +:+ "STDOUT: " +:+ out
    +:+ nl +:+ "STDERR: " +:+ err.

Definition record_video (self : t) (duration : Z) (filename : string) : M string :=
  let output_path := os_path_join (output_dir self) filename in
  let command := record_command self duration output_path in
  streams ← external (popen_communicate (str_join " " command));
  w ← get_world;
  if path_exists w output_path && nonzero_size w output_path
  then mret output_path
  else mret (record_failure streams.1 streams.2).

End Methods.
End CameraController.

(** * test_camera_output.py *)
Module CameraTests.

Record t := mk {
  camera_device : string;
  fps : Z;
  duration : Z;
  output_dir : string;
  log_dir : string;
  timestamp : string;
  image_path : string;
  video_path : string;
  log_path : string;
  camera : CameraController.t
}.

(** The first line written to a fresh log, and the rule under it. *)
Definition header_line (timestamp camera_device : string) : string :=
  "Audit Log - Test Session " +:+ timestamp +:+ " - Camera: " +:+ camera_device.

Definition header_rule : string := str_repeat "=" 50.

(** [f"PASS: {message}"] and [f"FAIL: {message}"]. *)
Definition verdict_line (condition : bool) (message : string) : string :=
  (if condition then "PASS: " else "FAIL: ") +:+ message.

Section Methods.
Context `{Platform}.

(** [__init__]; the defaults are fps=30, duration=5, output_dir="captures",
    log_dir="logs". *)
Definition init (camera_device : string) (fps duration : Z)
    (output_dir log_dir : string) : M t :=
  w ← get_world;
  let timestamp := strftime "%Y%m%d_%H%M%S" (clock w) in
  let image_path := os_path_join output_dir ("image_" +:+ timestamp +:+ ".jpg") in
  let video_path := os_path_join output_dir ("video_" +:+ timestamp +:+ ".mp4") in
  let log_path := os_path_join log_dir (timestamp +:+ "_log.txt") in
  camera ← CameraController.init camera_device output_dir;
  (* os.makedirs(self.output_dir, exist_ok=True); os.makedirs(self.log_dir, exist_ok=True) *)
  write_file log_path
    (header_line timestamp camera_device +:+ nl +:+ header_rule +:+ nl);;
  mret (mk camera_device fps duration output_dir log_dir timestamp
           image_path video_path log_path camera).

Definition log (self : t) (message : string) : M unit :=
  w ← get_world;
  append_file (log_path self)
    (strftime "%Y-%m-%d %H:%M:%S" (clock w) +:+ " - " +:+ message +:+ nl);;
  print message.

(** [assert condition, message]. *)
Definition py_assert (condition : bool) (message : string) : M unit :=
  if condition then mret tt else raise (AssertionError message).

Definition assert_test (self : t) (condition : bool) (message : string) : M unit :=
  try_except is_AssertionError
    (py_assert condition message;;
     log self ("PASS: " +:+ message))
    (fun e => log self ("FAIL: " +:+ message)).

Definition record_video (self : t) : M unit :=
  log self ("Starting video recording on " +:+ camera_device self +:+ ": "
            +:+ pretty (duration self) +:+ "s at " +:+ pretty (fps self) +:+ " FPS...");;
  _ ← CameraController.record_video (camera self) (duration self)
        ("video_" +:+ timestamp self +:+ ".mp4");
  log self "Recording complete.".

(** [os.path.exists(self.image_path) and os.path.getsize(self.image_path) > 0]. *)
Definition image_ready (self : t) (w : World) : bool :=
  path_exists w (image_path self) && nonzero_size w (image_path self).

(** The body of [for attempt in range(max_retries)] and what follows it. *)
Fixpoint poll (self : t) (attempts : list nat) : M bool :=
  match attempts with
  | [] =>
      log self "Image capture failed after retries.";;
      mret false
  | attempt :: rest =>
      external (fun w => (time_sleep 1 w, tt));;
      w ← get_world;
      if image_ready self w then
        log self "Image captured successfully.";;
        mret true
      else
        log self ("Retrying image capture... Attempt " +:+ pretty (attempt + 1)%nat);;
        poll self rest
  end.

Definition capture_image (self : t) : M bool :=
  log self ("Capturing an image on " +:+ camera_device self +:+ "...");;
  _ ← CameraController.capture_image (camera self)
        ("image_" +:+ timestamp self +:+ ".jpg");
  let max_retries := 3%nat in
  poll self (seq 0 max_retries).

(** *** Image tests *)

Definition test_image_exists (self : t) : M bool :=
  w ← get_world;
  mret (path_exists w (image_path self) && nonzero_size w (image_path self)).

Definition test_image_validity (self : t) : M bool :=
  w ← get_world;
  match imread IMREAD_COLOR (files w !! image_path self) with
  | Some img => mret true
  | None => mret false
  end.

(** The defaults are expected_width=1280 and expected_height=720. *)
Definition test_image_resolution (self : t) (expected_width expected_height : Z) : M bool :=
  w ← get_world;
  match imread IMREAD_COLOR (files w !! image_path self) with
  | None =>
      log self "Skipping resolution test: Image cannot be loaded.";;
      mret false
  | Some img =>
      mret ((shape1 img =? expected_width) && (shape0 img =? expected_height))
  end.

Definition test_image_brightness (self : t) : M bool :=
  w ← get_world;
  match imread IMREAD_GRAYSCALE (files w !! image_path self) with
  | None =>
      log self "Skipping brightness test: Image cannot be loaded.";;
      mret false
  | Some img =>
      let avg_brightness := np_mean img in
      mret (in_band avg_brightness)
  end.

(** *** Video tests *)

Definition probe_command (selector entries : string) (self : t) : list string :=
  ["ffprobe"; "-v"; "error"; "-select_streams"; selector; "-show_entries"; entries;
   "-of"; "json"; video_path self].

Definition test_video_exists (self : t) : M bool :=
  w ← get_world;
  mret (path_exists w (video_path self)).

Definition test_video_validity (self : t) : M bool :=
  w ← get_world;
  let command := probe_command "v:0" "stream=width,height" self in
  let result := ffprobe command (files w !! video_path self) in
  mret (contains (dq +:+ "width" +:+ dq) (stdout result)
        && contains (dq +:+ "height" +:+ dq) (stdout result)).

(** The first two lines of the [try] in [test_video_fps]:
    [json.loads(result.stdout)["streams"][0]["r_frame_rate"]]. *)
Definition rate_text (probe_stdout : string) : outcome json :=
  obind (py_json_loads probe_stdout) (fun output_json =>
  obind (getitem_str output_json "streams") (fun streams =>
  obind (getitem_0 streams) (fun stream =>
  getitem_str stream "r_frame_rate"))).

(** The body of the [try] in [test_video_fps], given the prober's stdout. *)
Definition fps_verdict (target : Z) (probe_stdout : string) : outcome bool :=
  obind (rate_text probe_stdout) (fun fps_str =>
  obind (eval_json fps_str) (fun fps =>
  within_one fps target)).

Definition test_video_fps (self : t) : M bool :=
  w ← get_world;
  let command := probe_command "v:0" "stream=r_frame_rate" self in
  let result := ffprobe command (files w !! video_path self) in
  try_except is_Exception
    (lift (fps_verdict (fps self) (stdout result)))
    (fun e => mret false).

Definition test_video_audio (self : t) : M bool :=
  w ← get_world;
  let command := probe_command "a:0" "stream=codec_name" self in
  let result := ffprobe command (files w !! video_path self) in
  mret (contains "codec_name" (stdout result)).

(** *** The session *)

Definition run_image_tests (self : t) : M unit :=
  log self "Running Image Tests...";;
  c ← test_image_exists self; assert_test self c "Image exists";;
  c ← test_image_validity self; assert_test self c "Image is a valid JPEG file";;
  c ← test_image_resolution self 1280 720; assert_test self c "Image resolution is correct";;
  c ← test_image_brightness self; assert_test self c "Image brightness is acceptable".

Definition run_video_tests (self : t) : M unit :=
  record_video self;;
  log self "Running Video Tests...";;
  c ← test_video_exists self; assert_test self c "Video file exists";;
  c ← test_video_validity self; assert_test self c "Video is a valid file";;
  c ← test_video_fps self; assert_test self c "Video FPS is correct";;
  c ← test_video_audio self; assert_test self c "Audio track detected in video".

Definition run_tests (self : t) : M unit :=
  log self ("Running Tests on Camera: " +:+ camera_device self);;
  captured ← capture_image self;
  (if negb captured
   then log self "Skipping image tests due to failed capture."
   else run_image_tests self);;
  run_video_tests self;;
  log self "Test session completed.".

End Methods.
End CameraTests.

(** * The entry point of test_camera_output.py *)
Section EntryPoint.
Context `{Platform}.

Definition list_cameras : M (list string) :=
  result ← external (subprocess_run ["v4l2-ctl"; "--list-devices"]);
  let devices :=
    map py_strip (filter (fun line => contains "/dev/video" line = true)
                         (split_lines (stdout result))) in
  mret devices.

(** [tester = CameraTests(camera_device=cam); tester.run_tests()]. *)
Definition test_camera (cam : string) : M unit :=
  tester ← CameraTests.init cam 30 5 "captures" "logs";
  CameraTests.run_tests tester.

(** [os.getenv(name)] read as a condition: unset and empty are both false. *)
Definition getenv_truthy (environ : gmap string string) (name : string) : option string :=
  match environ !! name with
  | Some v => if String.eqb v "" then None else Some v
  | None => None
  end.

(** Raised by [input] when stdin is at its end; derives from Exception. *)
Definition EOFError : exn := OtherException "EOFError".

(** [input(prompt)]: the prompt goes to stdout, then a line is read from
    stdin: [Some line] is the line entered, without its newline, and
    [None] is a stdin at its end, on which [input] raises EOFError. *)
Definition input (prompt : string) (stdin : option string) : M string :=
  print prompt;;
  match stdin with
  | Some line => mret line
  | None => raise EOFError
  end.

(** [for i, cam in enumerate(cameras): print(f"{i + 1}. {cam}")]. *)
Definition print_menu (cameras : list string) : M unit :=
  for_each (imap (fun i cam => pretty (i + 1)%nat +:+ ". " +:+ cam) cameras) print.

(** The [__main__] block, with the two lines that construct and run a
    session taken as [session]; [environ] is the process environment and
    [stdin] what the prompt finds to read, if the user is asked. *)
Definition main_with (session : string -> M unit)
    (environ : gmap string string) (stdin : option string) : M unit :=
  cameras ← list_cameras;
  (if bool_decide (cameras = [])
   then print "No cameras detected.";; raise (SystemExit 1)
   else mret tt);;
  print "Available Cameras:";;
  print_menu cameras;;
  camera_device ←
    match getenv_truthy environ "CAMERA_DEVICE" with
    | Some dev =>
        print ("Using camera from environment variable: " +:+ dev);;
        mret dev
    | None =>
        match getenv_truthy environ "RUNNING_IN_DOCKER" with
        | Some _ =>
            let dev := default "" (head cameras) in
            print ("Running in Docker: Auto-selected " +:+ dev);;
            mret dev
        | None =>
            line ← input "Select a camera (enter number) or type 'all' to test all: " stdin;
            let choice := py_strip line in
            if String.eqb (lower choice) "all" then
              for_each cameras session;;
              raise (SystemExit 0)
            else
              try_except is_ValueError
                (n ← lift (py_int choice);
                 let cam_index := n - 1 in
                 if (cam_index <? 0) || (cam_index >=? Z.of_nat (length cameras)) then
                   print "Invalid selection.";;
                   raise (SystemExit 1)
                 else
                   mret (default "" (cameras !! Z.to_nat cam_index)))
                (fun e =>
                   print "Invalid input.";;
                   raise (SystemExit 1))
        end
    end;
  session camera_device.

Definition main : gmap string string -> option string -> M unit := main_with test_camera.

(** The status the process ends with: the code of a SystemExit, 1 after
    any other uncaught exception, 0 when the script runs off its end. *)
Definition exit_status (r : outcome unit) : Z :=
  match r with
  | Return _ => 0
  | Raise (SystemExit code) => code
  | Raise _ => 1
  end.

End EntryPoint.

(** * Reading the console *)

(** A line is a verdict when it starts with [PASS: ] or [FAIL: ]. *)
Definition is_verdict (line : string) : bool :=
  startswith line "PASS: " || startswith line "FAIL: ".

(** A line that opens an audit log. *)
Definition is_header_line (line : string) : bool :=
  startswith line "Audit Log - Test Session ".

(** [x] started in [m] returns [a] in [m'] after printing exactly [lines]. *)
Definition emits {A} (x : M A) (m : Machine) (lines : list string) (a : A) (m' : Machine) : Prop :=
  x m = (m', Return a) /\ console m' = console m ++ lines.

Section Polling.
Context `{Platform}.

(** The world after [log] wrote one entry. *)
Definition log_world (self : CameraTests.t) (message : string) (w : World) : World :=
  mkWorld
    (<[CameraTests.log_path self :=
         default "" (files w !! CameraTests.log_path self)
         +:+ (strftime "%Y-%m-%d %H:%M:%S" (clock w) +:+ " - " +:+ message +:+ nl)]>
       (files w))
    (clock w).

Definition retry_line (attempt : nat) : string :=
  "Retrying image capture... Attempt " +:+ pretty (attempt + 1)%nat.

(** Every poll of [attempts], each one second after the last, finds the
    image file missing or empty. *)
Fixpoint never_ready (self : CameraTests.t) (attempts : list nat) (w : World) : bool :=
  match attempts with
  | [] => true
  | attempt :: rest =>
      let w1 := time_sleep 1 w in
      negb (CameraTests.image_ready self w1)
      && never_ready self rest (log_world self (retry_line attempt) w1)
  end.

(** The machine in which [run_tests] starts to poll: two entries are
    logged and the controller's single-frame capture has returned. *)
Definition triggered (self : CameraTests.t) (m : Machine) : Machine :=
  let m1 := (CameraTests.log self
               ("Running Tests on Camera: " +:+ CameraTests.camera_device self) m).1 in
  let m2 := (CameraTests.log self
               ("Capturing an image on " +:+ CameraTests.camera_device self +:+ "...") m1).1 in
  (CameraController.capture_image (CameraTests.camera self)
     ("image_" +:+ CameraTests.timestamp self +:+ ".jpg") m2).1.

(** Evaluating what the prober prints for the frame rate of the session's
    video raises nothing outside [Exception], whatever the file holds.
    ffprobe prints the rate as two integers, see [prober_prints_ratios]. *)
Definition fps_probe_contained (self : CameraTests.t) : Prop :=
  forall content e,
    CameraTests.fps_verdict (CameraTests.fps self)
      (stdout (ffprobe (CameraTests.probe_command "v:0" "stream=r_frame_rate" self) content))
    = Raise e ->
    is_Exception e = true.

(** The prober's contract: a frame rate is reported as [num/den]. *)
Definition prober_prints_ratios : Prop :=
  forall command content src,
    CameraTests.rate_text (stdout (ffprobe command content)) = Return (JString src) ->
    is_Some (ratio_literal src).

End Polling.

(** * Vocabulary of the statements *)

Section Vocabulary.
Context `{Platform}.
Implicit Types (self : CameraTests.t) (cc : CameraController.t) (m : Machine).
Implicit Types (cameras : list string).

(** A step that prints nothing that reads as a verdict. *)
Definition silent (lines : list string) : Prop := List.filter is_verdict lines = [].

(** What the transcoder left behind: the world when the process has
    exited, and its captured stdout and stderr. *)
Definition transcoded cc (duration : Z) (filename : string) (w : World)
    : World * (string * string) :=
  popen_communicate
    (str_join " "
       (CameraController.record_command cc duration
          (os_path_join (CameraController.output_dir cc) filename)))
    w.

(** What [CameraController.record_video] returns in that world. *)
Definition recording_result cc (duration : Z) (filename : string) (w : World) : string :=
  let output_path := os_path_join (CameraController.output_dir cc) filename in
  let after := transcoded cc duration filename w in
  if path_exists after.1 output_path && nonzero_size after.1 output_path
  then output_path
  else CameraController.record_failure after.2.1 after.2.2.

Definition start_line self : string :=
  "Starting video recording on " +:+ CameraTests.camera_device self +:+ ": "
    +:+ pretty (CameraTests.duration self) +:+ "s at "
    +:+ pretty (CameraTests.fps self) +:+ " FPS...".

Definition video_file self : string := "video_" +:+ CameraTests.timestamp self +:+ ".mp4".

Definition video_phase self (v1 v2 v3 v4 : bool) : list string :=
  [start_line self; "Recording complete."; "Running Video Tests...";
   CameraTests.verdict_line v1 "Video file exists";
   CameraTests.verdict_line v2 "Video is a valid file";
   CameraTests.verdict_line v3 "Video FPS is correct";
   CameraTests.verdict_line v4 "Audio track detected in video"].

Definition image_verdicts (i1 i2 i3 i4 : bool) : list string :=
  [CameraTests.verdict_line i1 "Image exists";
   CameraTests.verdict_line i2 "Image is a valid JPEG file";
   CameraTests.verdict_line i3 "Image resolution is correct";
   CameraTests.verdict_line i4 "Image brightness is acceptable"].

(** The entry [log] writes for the completion of a session. *)
Definition completion_entry (w : World) : string :=
  strftime "%Y-%m-%d %H:%M:%S" (clock w) +:+ " - " +:+ "Test session completed." +:+ nl.

(** The prober's answer to the frame-rate query for the session's video. *)
Definition rate_report self m : string :=
  stdout (ffprobe (CameraTests.probe_command "v:0" "stream=r_frame_rate" self)
            (files (world m) !! CameraTests.video_path self)).

(** The run of v4l2-ctl that [list_cameras] starts, and the devices it
    reads off its output. *)
Definition detection m : World * CompletedProcess :=
  subprocess_run ["v4l2-ctl"; "--list-devices"] (world m).

Definition detected m : list string :=
  map py_strip (filter (fun line => contains "/dev/video" line = true)
                       (split_lines (stdout (detection m).2))).

(** The numbered list printed for the user. *)
Definition menu cameras : list string :=
  imap (fun i cam => pretty (i + 1)%nat +:+ ". " +:+ cam) cameras.

Definition prompt : string := "Select a camera (enter number) or type 'all' to test all: ".

(** Neither CAMERA_DEVICE nor RUNNING_IN_DOCKER selects a device. *)
Definition interactive (environ : gmap string string) : Prop :=
  getenv_truthy environ "CAMERA_DEVICE" = None
  /\ getenv_truthy environ "RUNNING_IN_DOCKER" = None.

(** The typed choice is not [all] and is no number of a listed camera:
    [int] raises ValueError on it, or the index is out of range. *)
Definition invalid_choice cameras (choice : string) : Prop :=
  lower choice <> "all"
  /\ match py_int choice with
     | Return n => n - 1 < 0 \/ Z.of_nat (length cameras) <= n - 1
     | Raise e => is_ValueError e = true
     end.

(** No device was found, or the user is asked and answers badly. *)
Definition startup_refused cameras (environ : gmap string string) (typed : string) : Prop :=
  cameras = []
  \/ (interactive environ /\ invalid_choice cameras (py_strip typed)).

(** The same on what stdin holds: at its end nothing is typed, and only an
    empty list of devices refuses. *)
Definition refused cameras (environ : gmap string string) (stdin : option string) : Prop :=
  match stdin with
  | Some typed => startup_refused cameras environ typed
  | None => cameras = []
  end.

(** The user is asked for a camera and stdin is at its end. *)
Definition prompt_at_eof cameras (environ : gmap string string) (stdin : option string)
    : Prop :=
  cameras <> [] /\ interactive environ /\ stdin = None.

Definition refusals : list string :=
  ["No cameras detected."; "Invalid selection."; "Invalid input."].

(** The message a bad answer is refused with. *)
Definition refusal_of (choice : string) : string :=
  match py_int choice with
  | Return _ => "Invalid selection."
  | Raise _ => "Invalid input."
  end.

(** The paths and the controller of a session are those [__init__]
    derives from its directories and its timestamp. *)
Definition as_constructed self : Prop :=
  CameraTests.image_path self
  = os_path_join (CameraTests.output_dir self)
      ("image_" +:+ CameraTests.timestamp self +:+ ".jpg")
  /\ CameraTests.video_path self
     = os_path_join (CameraTests.output_dir self)
         ("video_" +:+ CameraTests.timestamp self +:+ ".mp4")
  /\ CameraTests.log_path self
     = os_path_join (CameraTests.log_dir self) (CameraTests.timestamp self +:+ "_log.txt")
  /\ CameraTests.camera self
     = CameraController.mk (CameraTests.camera_device self) (CameraTests.output_dir self).

(** *** The audit log beside the console *)

(** The text of the session's log file, empty while the file is missing. *)
Definition log_text self (w : World) : string :=
  default "" (files w !! CameraTests.log_path self).

(** One entry as [log] formats it at clock value [stamp]. *)
Definition log_entry (stamp : nat) (message : string) : string :=
  strftime "%Y-%m-%d %H:%M:%S" stamp +:+ " - " +:+ message +:+ nl.

(** The entries of [messages], stamped in order. *)
Fixpoint log_entries (stamps : list nat) (messages : list string) : string :=
  match stamps, messages with
  | stamp :: stamps', message :: messages' =>
      log_entry stamp message +:+ log_entries stamps' messages'
  | _, _ => ""
  end.

(** The argument list of the single-frame capture. *)
Definition capture_command cc (output_path : string) : list string :=
  ["ffmpeg"; "-y"; "-f"; "video4linux2"; "-i"; CameraController.device cc;
   "-frames:v"; "1"; output_path].

Definition image_file self : string := "image_" +:+ CameraTests.timestamp self +:+ ".jpg".

(** Sleeping and the two transcoder runs of a session leave the session's
    log file as it is. *)
Definition tools_spare_log self : Prop :=
  (forall w, files (time_sleep 1 w) !! CameraTests.log_path self
             = files w !! CameraTests.log_path self)
  /\ (forall w,
        files (subprocess_run
                 (capture_command (CameraTests.camera self)
                    (os_path_join (CameraController.output_dir (CameraTests.camera self))
                       (image_file self))) w).1
        !! CameraTests.log_path self
        = files w !! CameraTests.log_path self)
  /\ (forall w,
        files (transcoded (CameraTests.camera self) (CameraTests.duration self)
                 (video_file self) w).1
        !! CameraTests.log_path self
        = files w !! CameraTests.log_path self).

(** From [m] to [m'] the console gained some lines and the log file gained
    one entry for each of them, in the same order. *)
Definition mirrored self (m m' : Machine) : Prop :=
  exists stamps lines,
    length stamps = length lines
    /\ console m' = console m ++ lines
    /\ log_text self (world m') = log_text self (world m) +:+ log_entries stamps lines.

(** A statement that keeps log and console in step from every machine. *)
Definition in_step self {A} (x : M A) : Prop :=
  forall m, mirrored self m (x m).1.

(** *** The image checks as functions of the image bytes *)

(** [cv2.imread(path)] gave an array. *)
Definition decodes (bytes : option string) : bool :=
  match imread IMREAD_COLOR bytes with
  | Some _ => true
  | None => false
  end.

Definition resolution_verdict (bytes : option string) : bool :=
  match imread IMREAD_COLOR bytes with
  | Some img => (shape1 img =? 1280) && (shape0 img =? 720)
  | None => false
  end.

Definition brightness_verdict (bytes : option string) : bool :=
  match imread IMREAD_GRAYSCALE bytes with
  | Some img => in_band (np_mean img)
  | None => false
  end.

(** *** The entry point after the device list *)

(** The machine once the numbered list of cameras is on the console. *)
Definition listed m : Machine :=
  mkMachine (detection m).1 (console m ++ ["Available Cameras:"] ++ menu (detected m)).

(** The same machine with one more line printed. *)
Definition said (line : string) m : Machine :=
  mkMachine (world m) (console m ++ [line]).

(** *** The video checks as functions of the video bytes *)

Definition video_validity_verdict self (bytes : option string) : bool :=
  contains (dq +:+ "width" +:+ dq)
    (stdout (ffprobe (CameraTests.probe_command "v:0" "stream=width,height" self) bytes))
  && contains (dq +:+ "height" +:+ dq)
       (stdout (ffprobe (CameraTests.probe_command "v:0" "stream=width,height" self) bytes)).

(** The answer of [test_video_fps] when nothing leaves its [try]. *)
Definition video_fps_verdict self (bytes : option string) : bool :=
  match CameraTests.fps_verdict (CameraTests.fps self)
          (stdout (ffprobe (CameraTests.probe_command "v:0" "stream=r_frame_rate" self)
                     bytes)) with
  | Return verdict => verdict
  | Raise _ => false
  end.

Definition video_audio_verdict self (bytes : option string) : bool :=
  contains "codec_name"
    (stdout (ffprobe (CameraTests.probe_command "a:0" "stream=codec_name" self) bytes)).

(** *** A whole run, phase by phase *)

(** What the polling loop prints when it starts in world [w]. *)
Fixpoint poll_lines self (attempts : list nat) (w : World) : list string :=
  match attempts with
  | [] => ["Image capture failed after retries."]
  | attempt :: rest =>
      let w1 := time_sleep 1 w in
      if CameraTests.image_ready self w1 then ["Image captured successfully."]
      else retry_line attempt
           :: poll_lines self rest (log_world self (retry_line attempt) w1)
  end.

(** The lines of the capture phase of a run started in [m]. *)
Definition capture_phase self m : list string :=
  ("Capturing an image on " +:+ CameraTests.camera_device self +:+ "...")
  :: poll_lines self (seq 0 3) (world (triggered self m)).

(** One of the three polls of the run found the image. *)
Definition captured self m : bool :=
  negb (never_ready self (seq 0 3) (world (triggered self m))).

(** The machine in which the capture phase of the run ends. *)
Definition after_capture self m : Machine :=
  (CameraTests.capture_image self
     (CameraTests.log self
        ("Running Tests on Camera: " +:+ CameraTests.camera_device self) m).1).1.

(** [cv2.imread(path, cv2.IMREAD_GRAYSCALE)] gave an array. *)
Definition gray_decodes (bytes : option string) : bool :=
  match imread IMREAD_GRAYSCALE bytes with
  | Some _ => true
  | None => false
  end.

(** The lines of the image phase on the bytes of the image, [ready] being
    the answer of the first check. *)
Definition image_phase (ready : bool) (image : option string) : list string :=
  ["Running Image Tests...";
   CameraTests.verdict_line ready "Image exists";
   CameraTests.verdict_line (decodes image) "Image is a valid JPEG file"]
  ++ (if decodes image then []
      else ["Skipping resolution test: Image cannot be loaded."])
  ++ [CameraTests.verdict_line (resolution_verdict image) "Image resolution is correct"]
  ++ (if gray_decodes image then []
      else ["Skipping brightness test: Image cannot be loaded."])
  ++ [CameraTests.verdict_line (brightness_verdict image) "Image brightness is acceptable"].

(** The machine in which the video phase of the run starts. *)
Definition after_images self m : Machine :=
  ((if captured self m then CameraTests.run_image_tests self
    else CameraTests.log self "Skipping image tests due to failed capture.")
     (after_capture self m)).1.

(** What the transcoder leaves when the run records its video. *)
Definition recording self m : World * (string * string) :=
  transcoded (CameraTests.camera self) (CameraTests.duration self) (video_file self)
    (world (CameraTests.log self (start_line self) (after_images self m)).1).

End Vocabulary.

(** * A test bench:
    a concrete platform on which the harness runs inside Rocq: a camera
    and a recorder that either work or produce nothing, a prober that
    reports a 640x480 stream at 30/1 with an aac track for any file that
    exists, and a decoder that reads the camera's frame as 1280x720 at
    brightness 128. *)

Definition tab : string := String "009"%char EmptyString.

Fixpoint last_word_go (s cur : string) : string :=
  match s with
  | EmptyString => String.rev cur
  | String c rest =>
      if Ascii.eqb c " "%char then last_word_go rest EmptyString
      else last_word_go rest (String c cur)
  end.

Definition last_word (s : string) : string := last_word_go s EmptyString.

Definition bench_frame : string := "JFIF-frame".
Definition bench_clip : string := "ftyp-clip".

Definition json_field (key value : string) : string := dq +:+ key +:+ dq +:+ ": " +:+ value.

Definition bench_streams (fields : string) : string :=
  "{" +:+ dq +:+ "streams" +:+ dq +:+ ": [{" +:+ fields +:+ "}]}".

Definition bench_size_report : string :=
  bench_streams (json_field "width" "640" +:+ ", " +:+ json_field "height" "480").
Definition bench_rate_report : string :=
  bench_streams (json_field "r_frame_rate" (dq +:+ "30/1" +:+ dq)).
Definition bench_audio_report : string :=
  bench_streams (json_field "codec_name" (dq +:+ "aac" +:+ dq)).

Definition bench_ffprobe (command : list string) (content : option string) : CompletedProcess :=
  match content with
  | None => mkProc 1 "{}" "No such file or directory"
  | Some _ =>
      match command !! 6%nat with
      | Some "stream=width,height" => mkProc 0 bench_size_report ""
      | Some "stream=r_frame_rate" => mkProc 0 bench_rate_report ""
      | Some "stream=codec_name" => mkProc 0 bench_audio_report ""
      | _ => mkProc 0 "{}" ""
      end
  end.

Definition bench_json_loads (s : string) : option json :=
  if String.eqb s bench_rate_report
  then Some (JObject [("streams", JArray [JObject [("r_frame_rate", JString "30/1")]])])
  else if String.eqb s "{}" then Some (JObject [])
  else None.

Definition bench_subprocess_run (camera_works : bool) (command : list string) (w : World)
    : World * CompletedProcess :=
  match command with
  | "ffmpeg" :: _ =>
      if camera_works
      then (mkWorld (<[default "" (last command) := bench_frame]> (files w)) (clock w + 1),
            mkProc 0 "" "")
      else (w, mkProc 1 "" "No such device")
  | _ =>
      (w, mkProc 0 ("USB Camera (usb-0000:00:14.0-1):" +:+ nl
                    +:+ tab +:+ "/dev/video0" +:+ nl
                    +:+ tab +:+ "/dev/video1" +:+ nl) "")
  end.

Definition bench_popen (recorder_works : bool) (line : string) (w : World)
    : World * (string * string) :=
  if recorder_works
  then (mkWorld (<[last_word line := bench_clip]> (files w)) (clock w + 5), ("", "frame= 150"))
  else (w, ("", "Cannot open video device")).

Definition bench_imread (flag : imread_flag) (content : option string) : option ndarray :=
  match content with
  | Some bytes =>
      if String.eqb bytes bench_frame
      then Some (mkArray 720 1280 [128; 128; 128; 128])
      else None
  | None => None
  end.

Definition bench (camera_works recorder_works : bool) : Platform := {|
  strftime := fun fmt t => pretty t;
  time_sleep := fun seconds w => mkWorld (files w) (clock w + Z.to_nat seconds);
  subprocess_run := bench_subprocess_run camera_works;
  popen_communicate := bench_popen recorder_works;
  ffprobe := bench_ffprobe;
  imread := bench_imread;
  json_loads := bench_json_loads;
  eval_other := fun src => Raise (OtherException "SyntaxError");
  int_other := fun s => None;
  strip_other := fun s => s
|}.

(** A session as [__init__] builds it at clock 0 with the defaults, and an
    empty machine. *)
Definition bench_session : CameraTests.t :=
  CameraTests.mk "/dev/video0" 30 5 "captures" "logs" "0"
    "captures/image_0.jpg" "captures/video_0.mp4" "logs/0_log.txt"
    (CameraController.mk "/dev/video0" "captures").

Definition power_on : Machine := mkMachine (mkWorld ∅ 0) [].

(** A machine whose camera frame is on disk. *)
Definition framed : Machine :=
  mkMachine (mkWorld {["captures/image_0.jpg" := bench_frame]} 0) [].

(** The same frame later, beside a log, with lines on the console. *)
Definition framed_later : Machine :=
  mkMachine
    (mkWorld (<["logs/0_log.txt" := "Audit Log"]> {["captures/image_0.jpg" := bench_frame]}) 42)
    ["Running Image Tests..."].

(** The bench's prober keeps to its contract. *)
Ltac bench_contained :=
  let content := fresh "content" in
  let e := fresh "e" in
  intros content e; destruct content; vm_compute; intros Hraise;
  first [discriminate Hraise | injection Hraise as <-; reflexivity].

(** A machine whose recorded clip is on disk. *)
Definition clipped : Machine :=
  mkMachine (mkWorld {["captures/video_0.mp4" := bench_clip]} 5) [].

(** The bench with a recorder that leaves an empty file behind. *)
Definition bench_empty_recorder : Platform := {|
  strftime := @strftime (bench true true);
  time_sleep := @time_sleep (bench true true);
  subprocess_run := @subprocess_run (bench true true);
  popen_communicate := fun line w =>
    (mkWorld (<[last_word line := ""]> (files w)) (clock w + 5), ("", "Output file is empty"));
  ffprobe := @ffprobe (bench true true);
  imread := @imread (bench true true);
  json_loads := @json_loads (bench true true);
  eval_other := @eval_other (bench true true);
  int_other := @int_other (bench true true);
  strip_other := @strip_other (bench true true)
|}.

(** The bench with a prober that reports the frame rate to every query. *)
Definition bench_rate_only : Platform := {|
  strftime := @strftime (bench true true);
  time_sleep := @time_sleep (bench true true);
  subprocess_run := @subprocess_run (bench true true);
  popen_communicate := @popen_communicate (bench true true);
  ffprobe := fun command content =>
    match content with
    | Some _ => mkProc 0 bench_rate_report ""
    | None => mkProc 1 "{}" "No such file or directory"
    end;
  imread := @imread (bench true true);
  json_loads := @json_loads (bench true true);
  eval_other := @eval_other (bench true true);
  int_other := @int_other (bench true true);
  strip_other := @strip_other (bench true true)
|}.

(** The bench on a machine without video devices: v4l2-ctl fails and
    prints to stderr only. *)
Definition bench_no_devices : Platform := {|
  strftime := @strftime (bench true true);
  time_sleep := @time_sleep (bench true true);
  subprocess_run := fun command w => (w, mkProc 1 "" "Cannot open device /dev/video0");
  popen_communicate := @popen_communicate (bench true true);
  ffprobe := @ffprobe (bench true true);
  imread := @imread (bench true true);
  json_loads := @json_loads (bench true true);
  eval_other := @eval_other (bench true true);
  int_other := @int_other (bench true true);
  strip_other := @strip_other (bench true true)
|}.

(** * Facts *)

Section Traces.
Context `{Platform}.
Implicit Types (self : CameraTests.t) (m : Machine).

Lemma emits_ret {A} (a : A) m : emits (mret a) m [] a m.
Proof. split; [reflexivity | by rewrite app_nil_r]. Qed.

Lemma emits_bind {A B} (x : M A) (f : A -> M B) m l1 a m1 l2 b m2 :
  emits x m l1 a m1 -> emits (f a) m1 l2 b m2 -> emits (x ≫= f) m (l1 ++ l2) b m2.
Proof.
  intros [Hx Hc1] [Hf Hc2]. split.
  - unfold mbind, M_bind, bind. by rewrite Hx.
  - by rewrite Hc2, Hc1, app_assoc.
Qed.

Lemma emits_lines {A} (x : M A) m l l' a m' :
  emits x m l a m' -> l = l' -> emits x m l' a m'.
Proof. by intros E <-. Qed.

Lemma emits_get_world m : emits get_world m [] (world m) m.
Proof. split; [reflexivity | by rewrite app_nil_r]. Qed.

Lemma emits_print line m :
  emits (print line) m [line] tt (mkMachine (world m) (console m ++ [line])).
Proof. by split. Qed.

Lemma emits_external {A} (f : World -> World * A) m :
  emits (external f) m [] (f (world m)).2 (mkMachine (f (world m)).1 (console m)).
Proof.
  unfold emits, external. destruct (f (world m)) as [w a]; simpl.
  split; [reflexivity | by rewrite app_nil_r].
Qed.

Lemma log_run self message m :
  CameraTests.log self message m
  = (mkMachine (log_world self message (world m)) (console m ++ [message]), Return tt).
Proof. reflexivity. Qed.

Lemma emits_log self message m :
  emits (CameraTests.log self message) m [message] tt
        (mkMachine (log_world self message (world m)) (console m ++ [message])).
Proof. by split. Qed.

(** A failed assertion is caught inside [assert_test]: both verdicts end
    in one call of [log]. *)
Lemma assert_test_run self condition message m :
  CameraTests.assert_test self condition message m
  = CameraTests.log self (CameraTests.verdict_line condition message) m.
Proof. by destruct condition. Qed.

Lemma emits_assert_test self condition message m :
  emits (CameraTests.assert_test self condition message) m
        [CameraTests.verdict_line condition message] tt
        (mkMachine (log_world self (CameraTests.verdict_line condition message) (world m))
                   (console m ++ [CameraTests.verdict_line condition message])).
Proof. unfold emits. rewrite assert_test_run. by split. Qed.

End Traces.

Section Checks.
Context `{Platform}.
Implicit Types (self : CameraTests.t) (m : Machine).

Lemma is_verdict_verdict_line condition message :
  is_verdict (CameraTests.verdict_line condition message) = true.
Proof. destruct condition; reflexivity. Qed.

(** Everything raised before [eval] is an [Exception]. *)
Lemma rate_text_raises probe_stdout e :
  CameraTests.rate_text probe_stdout = Raise e -> is_Exception e = true.
Proof.
  unfold CameraTests.rate_text, py_json_loads.
  destruct (json_loads probe_stdout) as [j|]; simpl; [|by intros [= <-]].
  unfold getitem_str at 2.
  destruct j as [| | | |items|members]; simpl; try (by intros [= <-]).
  destruct (members_get "streams" members) as [streams|]; simpl; [|by intros [= <-]].
  destruct streams as [| | |s|[|x items]|ms]; simpl; try (by intros [= <-]).
  - destruct s as [|c s]; simpl; by intros [= <-].
  - unfold getitem_str. destruct x; try (by intros [= <-]).
    destruct (members_get _ _); by intros [= <-].
Qed.

Lemma within_one_raises v target e :
  within_one v target = Raise e -> is_Exception e = true.
Proof. destruct v; simpl; by intros [= <-]. Qed.

Lemma prober_contract_contains self :
  prober_prints_ratios ->
  fps_probe_contained self.
Proof.
  intros Hfmt content e. unfold CameraTests.fps_verdict.
  set (out := stdout _).
  destruct (CameraTests.rate_text out) as [v|e0] eqn:Hrate; simpl.
  2:{ intros [= <-]. by eapply rate_text_raises. }
  destruct v as [| | |src| |]; simpl; try (by intros [= <-]).
  destruct (Hfmt _ _ _ Hrate) as [[n d] Hlit].
  unfold py_eval. rewrite Hlit.
  destruct (d =? 0); simpl; [by intros [= <-]|by intros [= <-]].
Qed.

Lemma test_video_exists_run self m :
  CameraTests.test_video_exists self m
  = (m, Return (path_exists (world m) (CameraTests.video_path self))).
Proof. reflexivity. Qed.

Lemma test_video_fps_run self m :
  fps_probe_contained self ->
  exists verdict, CameraTests.test_video_fps self m = (m, Return verdict).
Proof.
  intros Hc. unfold CameraTests.test_video_fps, mbind, M_bind, bind, get_world, try_except, lift.
  simpl.
  destruct (CameraTests.fps_verdict _ _) as [b|e] eqn:Hv.
  - by exists b.
  - rewrite (Hc _ _ Hv). by exists false.
Qed.

End Checks.

Section Session.
Context `{Platform}.
Implicit Types (self : CameraTests.t) (m : Machine).

Lemma silent_nil : silent [].
Proof. reflexivity. Qed.

Lemma silent_app l1 l2 : silent l1 -> silent l2 -> silent (l1 ++ l2).
Proof. unfold silent. intros H1 H2. by rewrite List.filter_app, H1, H2. Qed.

Lemma test_image_exists_emits self m :
  emits (CameraTests.test_image_exists self) m [] (CameraTests.image_ready self (world m)) m.
Proof. split; [reflexivity | by rewrite app_nil_r]. Qed.

Lemma test_image_validity_emits self m :
  exists verdict, emits (CameraTests.test_image_validity self) m [] verdict m.
Proof.
  unfold emits, CameraTests.test_image_validity, mbind, M_bind, bind, get_world; simpl.
  destruct (imread IMREAD_COLOR _); eexists; (split; [reflexivity | by rewrite app_nil_r]).
Qed.

Lemma test_image_resolution_emits self width height m :
  exists lines verdict m',
    emits (CameraTests.test_image_resolution self width height) m lines verdict m'
    /\ silent lines.
Proof.
  unfold emits, CameraTests.test_image_resolution, mbind, M_bind, bind, get_world; simpl.
  destruct (imread IMREAD_COLOR _).
  - exists [], ((shape1 n =? width) && (shape0 n =? height)), m.
    repeat split; by rewrite ?app_nil_r.
  - do 3 eexists. split; [split; [reflexivity|simpl; reflexivity]|reflexivity].
Qed.

Lemma test_image_brightness_emits self m :
  exists lines verdict m',
    emits (CameraTests.test_image_brightness self) m lines verdict m' /\ silent lines.
Proof.
  unfold emits, CameraTests.test_image_brightness, mbind, M_bind, bind, get_world; simpl.
  destruct (imread IMREAD_GRAYSCALE _).
  - exists [], (in_band (np_mean n)), m. repeat split; by rewrite ?app_nil_r.
  - do 3 eexists. split; [split; [reflexivity|simpl; reflexivity]|reflexivity].
Qed.

(** The four image checks: four verdict lines, in the order of the source. *)
Lemma run_image_tests_emits self m :
  exists lines m' i1 i2 i3 i4,
    emits (CameraTests.run_image_tests self) m lines tt m'
    /\ List.filter is_verdict lines
       = [CameraTests.verdict_line i1 "Image exists";
          CameraTests.verdict_line i2 "Image is a valid JPEG file";
          CameraTests.verdict_line i3 "Image resolution is correct";
          CameraTests.verdict_line i4 "Image brightness is acceptable"].
Proof.
  pose proof (emits_log self "Running Image Tests..." m) as E0.
  set (m0 := mkMachine _ _) in E0.
  pose proof (test_image_exists_emits self m0) as E1.
  pose proof (emits_assert_test self (CameraTests.image_ready self (world m0)) "Image exists" m0) as A1.
  set (m1 := mkMachine _ _) in A1.
  destruct (test_image_validity_emits self m1) as [i2 E2].
  pose proof (emits_assert_test self i2 "Image is a valid JPEG file" m1) as A2.
  set (m2 := mkMachine _ _) in A2.
  destruct (test_image_resolution_emits self 1280 720 m2) as (l3 & i3 & m3 & E3 & S3).
  pose proof (emits_assert_test self i3 "Image resolution is correct" m3) as A3.
  set (m3' := mkMachine _ _) in A3.
  destruct (test_image_brightness_emits self m3') as (l4 & i4 & m4 & E4 & S4).
  pose proof (emits_assert_test self i4 "Image brightness is acceptable" m4) as A4.
  set (m4' := mkMachine _ _) in A4.
  eexists _, m4', _, i2, i3, i4. split.
  - unfold CameraTests.run_image_tests.
    eapply emits_bind; [exact E0|].
    eapply emits_bind; [exact E1|]. eapply emits_bind; [exact A1|].
    eapply emits_bind; [exact E2|]. eapply emits_bind; [exact A2|].
    eapply emits_bind; [exact E3|]. eapply emits_bind; [exact A3|].
    eapply emits_bind; [exact E4|]. exact A4.
  - rewrite !List.filter_app. unfold silent in S3, S4. rewrite S3, S4. simpl.
    rewrite !is_verdict_verdict_line. reflexivity.
Qed.

Lemma retry_line_silent attempt : is_verdict (retry_line attempt) = false.
Proof. reflexivity. Qed.

(** The polling loop: what it prints is never a verdict, and it answers
    False exactly when every poll found no image. *)
Lemma poll_emits self attempts m :
  exists lines m',
    emits (CameraTests.poll self attempts) m lines
          (negb (never_ready self attempts (world m))) m'
    /\ silent lines.
Proof.
  revert m. induction attempts as [|attempt rest IH]; intros m.
  - do 2 eexists. split; [|shelve].
    simpl. eapply emits_bind; [apply emits_log|apply emits_ret].
    Unshelve. reflexivity.
  - simpl CameraTests.poll.
    pose proof (emits_external (fun w => (time_sleep 1 w, tt)) m) as E0.
    simpl in E0. set (m0 := mkMachine _ _) in E0.
    simpl never_ready. change (time_sleep 1 (world m)) with (world m0).
    destruct (CameraTests.image_ready self (world m0)) eqn:Hready; simpl negb; simpl andb.
    + do 2 eexists. split; [|shelve].
      eapply emits_bind; [exact E0|].
      eapply emits_bind; [apply emits_get_world|]. rewrite Hready.
      eapply emits_bind; [apply emits_log|apply emits_ret].
      Unshelve. reflexivity.
    + pose proof (emits_log self (retry_line attempt) m0) as E1.
      set (m1 := mkMachine _ _) in E1.
      destruct (IH m1) as (lines & m' & E2 & S2).
      exists ([] ++ [] ++ [retry_line attempt] ++ lines), m'. split.
      * eapply emits_bind; [exact E0|].
        eapply emits_bind; [apply emits_get_world|]. rewrite Hready.
        eapply emits_bind; [exact E1|]. exact E2.
      * apply (silent_app [retry_line attempt] lines); [reflexivity|exact S2].
Qed.

(** When every poll fails the loop prints one retry line per attempt and
    the failure line. *)
Lemma poll_never_ready self attempts m :
  never_ready self attempts (world m) = true ->
  exists m',
    emits (CameraTests.poll self attempts) m
          (map retry_line attempts ++ ["Image capture failed after retries."]) false m'.
Proof.
  revert m. induction attempts as [|attempt rest IH]; intros m Hnever.
  - eexists. simpl. eapply emits_lines.
    + eapply emits_bind; [apply emits_log|apply emits_ret].
    + reflexivity.
  - simpl in Hnever. apply andb_prop in Hnever as [Hready Hrest].
    apply negb_true_iff in Hready.
    pose proof (emits_external (fun w => (time_sleep 1 w, tt)) m) as E0.
    simpl in E0. set (m0 := mkMachine _ _) in E0.
    pose proof (emits_log self (retry_line attempt) m0) as E1.
    set (m1 := mkMachine _ _) in E1.
    destruct (IH m1 Hrest) as (m' & E2).
    exists m'. simpl CameraTests.poll.
    change (map retry_line (attempt :: rest) ++ ["Image capture failed after retries."])
      with ([] ++ [] ++ [retry_line attempt]
            ++ (map retry_line rest ++ ["Image capture failed after retries."])).
    eapply emits_bind; [exact E0|].
    eapply emits_bind; [apply emits_get_world|].
    change (world m0) with (time_sleep 1 (world m)). rewrite Hready.
    eapply emits_bind; [exact E1|]. exact E2.
Qed.

End Session.

Section Recording.
Context `{Platform}.
Implicit Types (self : CameraTests.t) (cc : CameraController.t) (m : Machine).

Lemma controller_record_video_run cc duration filename m :
  CameraController.record_video cc duration filename m
  = (mkMachine (transcoded cc duration filename (world m)).1 (console m),
     Return (recording_result cc duration filename (world m))).
Proof.
  unfold CameraController.record_video, recording_result, transcoded,
    mbind, M_bind, bind, external, get_world.
  destruct (popen_communicate _ (world m)) as [w [out err]]; simpl.
  by destruct (path_exists w _ && nonzero_size w _).
Qed.

Lemma controller_capture_image_emits cc filename m :
  exists result,
    emits (CameraController.capture_image cc filename) m [] result
          (CameraController.capture_image cc filename m).1.
Proof.
  unfold emits, CameraController.capture_image, mbind, M_bind, bind, external.
  destruct (subprocess_run _ (world m)) as [w r]; simpl.
  eexists. split; [reflexivity | by rewrite app_nil_r].
Qed.

Lemma record_video_emits self m :
  exists m',
    emits (CameraTests.record_video self) m [start_line self; "Recording complete."] tt m'.
Proof.
  pose proof (emits_log self (start_line self) m) as E0.
  set (m0 := mkMachine _ _) in E0.
  pose proof (controller_record_video_run (CameraTests.camera self)
                (CameraTests.duration self) (video_file self) m0) as Hrun.
  set (m1 := mkMachine _ (console m0)) in Hrun.
  eexists. unfold CameraTests.record_video. eapply emits_lines.
  - eapply emits_bind; [exact E0|].
    eapply emits_bind; [split; [exact Hrun|symmetry; apply (app_nil_r (console m0))]|].
    apply emits_log.
  - reflexivity.
Qed.

Lemma capture_image_emits self m :
  let m1 := (CameraTests.log self
               ("Capturing an image on " +:+ CameraTests.camera_device self +:+ "...") m).1 in
  let m2 := (CameraController.capture_image (CameraTests.camera self)
               ("image_" +:+ CameraTests.timestamp self +:+ ".jpg") m1).1 in
  exists lines m',
    emits (CameraTests.capture_image self) m lines
          (negb (never_ready self (seq 0 3) (world m2))) m'
    /\ silent lines
    /\ (never_ready self (seq 0 3) (world m2) = true ->
        lines = ["Capturing an image on " +:+ CameraTests.camera_device self +:+ "...";
                 retry_line 0; retry_line 1; retry_line 2;
                 "Image capture failed after retries."]).
Proof.
  intros m1 m2.
  pose proof (emits_log self
    ("Capturing an image on " +:+ CameraTests.camera_device self +:+ "...") m) as E0.
  destruct (controller_capture_image_emits (CameraTests.camera self)
              ("image_" +:+ CameraTests.timestamp self +:+ ".jpg") m1) as [r E1].
  fold m2 in E1.
  destruct (never_ready self (seq 0 3) (world m2)) eqn:Hnever.
  - destruct (poll_never_ready self (seq 0 3) m2 Hnever) as [m' E2].
    do 2 eexists. split; [|split].
    + unfold CameraTests.capture_image.
      eapply emits_bind; [exact E0|]. eapply emits_bind; [exact E1|]. exact E2.
    + reflexivity.
    + reflexivity.
  - destruct (poll_emits self (seq 0 3) m2) as (lines & m' & E2 & S2).
    rewrite Hnever in E2.
    do 2 eexists. split; [|split].
    + unfold CameraTests.capture_image.
      eapply emits_bind; [exact E0|]. eapply emits_bind; [exact E1|]. exact E2.
    + apply (silent_app [_] lines); [reflexivity|exact S2].
    + discriminate.
Qed.

(** Recording and the four video checks. *)
Lemma run_video_tests_emits self m :
  fps_probe_contained self ->
  exists m' v1 v2 v3 v4,
    emits (CameraTests.run_video_tests self) m
      [start_line self; "Recording complete."; "Running Video Tests...";
       CameraTests.verdict_line v1 "Video file exists";
       CameraTests.verdict_line v2 "Video is a valid file";
       CameraTests.verdict_line v3 "Video FPS is correct";
       CameraTests.verdict_line v4 "Audio track detected in video"] tt m'
    /\ v1 = path_exists
              (log_world self "Running Video Tests..."
                 (world (CameraTests.record_video self m).1))
              (CameraTests.video_path self).
Proof.
  intros Hc.
  destruct (record_video_emits self m) as [m0 E0].
  assert (m0 = (CameraTests.record_video self m).1) as Hm0
    by (destruct E0 as [-> _]; reflexivity).
  pose proof (emits_log self "Running Video Tests..." m0) as E1.
  set (m1 := mkMachine _ _) in E1.
  pose proof (emits_assert_test self (path_exists (world m1) (CameraTests.video_path self))
                "Video file exists" m1) as A1.
  set (m2 := mkMachine _ _) in A1.
  set (v2 := contains (dq +:+ "width" +:+ dq)
               (stdout (ffprobe (CameraTests.probe_command "v:0" "stream=width,height" self)
                          (files (world m2) !! CameraTests.video_path self)))
             && contains (dq +:+ "height" +:+ dq)
               (stdout (ffprobe (CameraTests.probe_command "v:0" "stream=width,height" self)
                          (files (world m2) !! CameraTests.video_path self)))).
  pose proof (emits_assert_test self v2 "Video is a valid file" m2) as A2.
  set (m3 := mkMachine _ _) in A2.
  destruct (test_video_fps_run self m3 Hc) as [v3 E3].
  pose proof (emits_assert_test self v3 "Video FPS is correct" m3) as A3.
  set (m4 := mkMachine _ _) in A3.
  set (v4 := contains "codec_name"
               (stdout (ffprobe (CameraTests.probe_command "a:0" "stream=codec_name" self)
                          (files (world m4) !! CameraTests.video_path self)))).
  pose proof (emits_assert_test self v4 "Audio track detected in video" m4) as A4.
  set (m5 := mkMachine _ _) in A4.
  exists m5, (path_exists (world m1) (CameraTests.video_path self)), v2, v3, v4.
  split; [|by rewrite <- Hm0].
  unfold CameraTests.run_video_tests. eapply emits_lines.
  - eapply emits_bind; [exact E0|]. eapply emits_bind; [exact E1|].
    eapply emits_bind; [apply (emits_ret _ m1)|]. eapply emits_bind; [exact A1|].
    eapply emits_bind; [apply (emits_ret v2 m2)|]. eapply emits_bind; [exact A2|].
    eapply emits_bind; [split; [exact E3|symmetry; apply app_nil_r]|].
    eapply emits_bind; [exact A3|].
    eapply emits_bind; [apply (emits_ret v4 m4)|]. exact A4.
  - reflexivity.
Qed.

End Recording.

Section RunTests.
Context `{Platform}.
Implicit Types (self : CameraTests.t) (m : Machine).

(** The shape of every run: it returns, the image phase prints four
    verdicts or none, and recording, the four video verdicts and the
    completion line follow. *)
Lemma run_tests_emits self m :
  fps_probe_contained self ->
  exists m' before i1 i2 i3 i4 v1 v2 v3 v4,
    let captured := negb (never_ready self (seq 0 3) (world (triggered self m))) in
    emits (CameraTests.run_tests self) m
      (before ++ video_phase self v1 v2 v3 v4 ++ ["Test session completed."]) tt m'
    /\ List.filter is_verdict before
       = (if captured then image_verdicts i1 i2 i3 i4 else [])
    /\ (captured = false ->
        before = ["Running Tests on Camera: " +:+ CameraTests.camera_device self;
                  "Capturing an image on " +:+ CameraTests.camera_device self +:+ "...";
                  retry_line 0; retry_line 1; retry_line 2;
                  "Image capture failed after retries.";
                  "Skipping image tests due to failed capture."])
    /\ exists earlier,
         files (world m') !! CameraTests.log_path self
         = Some (earlier +:+ completion_entry (world m')).
Proof.
  intros Hc.
  pose proof (emits_log self
    ("Running Tests on Camera: " +:+ CameraTests.camera_device self) m) as E0.
  set (m0 := mkMachine _ _) in E0.
  destruct (capture_image_emits self m0) as (cap & m1 & E1 & S1 & X1).
  change (CameraController.capture_image _ _ _).1 with (triggered self m) in E1, X1.
  set (never := never_ready self (seq 0 3) (world (triggered self m))) in *.
  assert (exists m2 phase i1 i2 i3 i4,
    emits (if negb (negb never)
           then CameraTests.log self "Skipping image tests due to failed capture."
           else CameraTests.run_image_tests self) m1 phase tt m2
    /\ List.filter is_verdict phase = (if negb never then image_verdicts i1 i2 i3 i4 else [])
    /\ (never = true -> phase = ["Skipping image tests due to failed capture."]))
    as (m2 & phase & i1 & i2 & i3 & i4 & E2 & F2 & X2).
  { destruct never; simpl.
    - eexists _, _, true, true, true, true. split; [apply emits_log|by split].
    - destruct (run_image_tests_emits self m1) as (l & m2 & i1 & i2 & i3 & i4 & E & F).
      exists m2, l, i1, i2, i3, i4. split; [exact E|]. split; [exact F|discriminate]. }
  destruct (run_video_tests_emits self m2 Hc) as (m3 & v1 & v2 & v3 & v4 & E3 & _).
  pose proof (emits_log self "Test session completed." m3) as E4.
  set (m4 := mkMachine _ _) in E4.
  exists m4, (["Running Tests on Camera: " +:+ CameraTests.camera_device self] ++ cap ++ phase),
    i1, i2, i3, i4, v1, v2, v3, v4.
  cbv zeta. split; [|split; [|split]].
  - unfold CameraTests.run_tests. eapply emits_lines.
    + eapply emits_bind; [exact E0|]. eapply emits_bind; [exact E1|].
      eapply emits_bind; [exact E2|]. eapply emits_bind; [exact E3|]. exact E4.
    + unfold video_phase. by rewrite <- !app_assoc.
  - rewrite !List.filter_app, F2. unfold silent in S1. by rewrite S1.
  - intros Hcap. apply negb_false_iff in Hcap.
    by rewrite (X1 Hcap), (X2 Hcap).
  - eexists. unfold m4, completion_entry; simpl. apply lookup_insert_eq.
Qed.

End RunTests.

(** * The controller reports by string *)

(** C7.  [CameraController.record_video]: when the transcoder has exited,
    the result is the output path if that file exists with a size above
    zero, and otherwise the text that embeds the captured stdout and
    stderr; the call returns in both cases. *)
Theorem record_video_reports_by_string `{Platform}
    (cc : CameraController.t) (duration : Z) (filename : string) (m : Machine) :
  let output_path := os_path_join (CameraController.output_dir cc) filename in
  let after := transcoded cc duration filename (world m) in
  CameraController.record_video cc duration filename m
  = (mkMachine after.1 (console m),
     Return (if path_exists after.1 output_path && nonzero_size after.1 output_path
             then output_path
             else "Failed to record video. FFmpeg output:" +:+ nl
                  +:+ "STDOUT: " +:+ after.2.1 +:+ nl +:+ "STDERR: " +:+ after.2.2)).
Proof. cbv zeta. rewrite controller_record_video_run. reflexivity. Qed.

(** * The checks *)

Section CheckRuns.
Context `{Platform}.
Implicit Types (self : CameraTests.t) (m : Machine).

Lemma test_video_fps_unfold self m :
  CameraTests.test_video_fps self m
  = match CameraTests.fps_verdict (CameraTests.fps self) (rate_report self m) with
    | Return verdict => (m, Return verdict)
    | Raise e => if is_Exception e then (m, Return false) else (m, Raise e)
    end.
Proof.
  unfold CameraTests.test_video_fps, rate_report, mbind, M_bind, bind, get_world,
    try_except, lift; simpl.
  by destruct (CameraTests.fps_verdict _ _).
Qed.

Lemma fps_verdict_ratio target probe_stdout src n d :
  CameraTests.rate_text probe_stdout = Return (JString src) ->
  ratio_literal src = Some (n, d) ->
  CameraTests.fps_verdict target probe_stdout
  = if d =? 0 then Raise ZeroDivisionError
    else Return (Qle_bool (Qabs (Qminus (Qdiv (inject_Z n) (inject_Z d)) (inject_Z target))) 1).
Proof.
  intros Hrate Hlit. unfold CameraTests.fps_verdict. rewrite Hrate. simpl.
  unfold py_eval. rewrite Hlit. by destruct (d =? 0).
Qed.

End CheckRuns.

(** C3.  The frame-rate check evaluates the rate text of the first video
    stream.  A ratio [n/d] of integer literals with [d] not zero passes
    exactly when [n/d] is within 1 of the target; "30/1" evaluates to 30;
    a zero denominator such as "0/0", a failed decode or lookup (a missing
    field among them), a rate that is no text, and any text whose
    evaluation raises an Exception all make the check return False, and
    the check returns in each of these cases. *)
Theorem video_fps_check_by_ratio `{Platform} (self : CameraTests.t) (m : Machine) :
  let report := rate_report self m in
  let target := CameraTests.fps self in
  py_eval "30/1" = Return (PyNumber (inject_Z 30))
  /\ ratio_literal "0/0" = Some (0, 0)
  /\ (forall src n d,
        CameraTests.rate_text report = Return (JString src) ->
        ratio_literal src = Some (n, d) -> d <> 0 ->
        exists verdict,
          CameraTests.test_video_fps self m = (m, Return verdict)
          /\ (verdict = true
              <-> Qle (Qabs (Qminus (Qdiv (inject_Z n) (inject_Z d)) (inject_Z target))) 1))
  /\ (forall src n,
        CameraTests.rate_text report = Return (JString src) ->
        ratio_literal src = Some (n, 0) ->
        CameraTests.test_video_fps self m = (m, Return false))
  /\ (forall e,
        CameraTests.rate_text report = Raise e ->
        CameraTests.test_video_fps self m = (m, Return false))
  /\ (forall value,
        CameraTests.rate_text report = Return value ->
        (forall src, value <> JString src) ->
        CameraTests.test_video_fps self m = (m, Return false))
  /\ (forall src e,
        CameraTests.rate_text report = Return (JString src) ->
        ratio_literal src = None ->
        eval_other src = Raise e -> is_Exception e = true ->
        CameraTests.test_video_fps self m = (m, Return false)).
Proof.
  cbv zeta. split; [reflexivity|]. split; [reflexivity|].
  split; [|split; [|split; [|split]]].
  - intros src n d Hrate Hlit Hd. eexists. split.
    + rewrite test_video_fps_unfold, (fps_verdict_ratio _ _ _ _ _ Hrate Hlit).
      apply Z.eqb_neq in Hd. rewrite Hd. reflexivity.
    + apply Qle_bool_iff.
  - intros src n Hrate Hlit.
    rewrite test_video_fps_unfold, (fps_verdict_ratio _ _ _ _ _ Hrate Hlit). reflexivity.
  - intros e Hrate. rewrite test_video_fps_unfold. unfold CameraTests.fps_verdict.
    rewrite Hrate. simpl. by rewrite (rate_text_raises _ _ Hrate).
  - intros value Hrate Hno. rewrite test_video_fps_unfold. unfold CameraTests.fps_verdict.
    rewrite Hrate. simpl. destruct value; try reflexivity. by destruct (Hno s).
  - intros src e Hrate Hlit Heval Hexc. rewrite test_video_fps_unfold.
    unfold CameraTests.fps_verdict. rewrite Hrate. simpl. unfold py_eval.
    rewrite Hlit, Heval. simpl. by rewrite Hexc.
Qed.

(** C5.  For a decodable image the brightness check returns True exactly
    when the mean of the grayscale samples lies between 50 and 200, both
    ends included: a mean of 50 or of 200 passes, a mean of 49 or of 201
    fails. *)
Theorem brightness_band_inclusive `{Platform}
    (self : CameraTests.t) (m : Machine) (img : ndarray) :
  imread IMREAD_GRAYSCALE (files (world m) !! CameraTests.image_path self) = Some img ->
  exists verdict,
    CameraTests.test_image_brightness self m = (m, Return verdict)
    /\ (verdict = true
        <-> exists mean, np_mean img = Some mean /\ Qle 50 mean /\ Qle mean 200)
    /\ (forall mean, np_mean img = Some mean ->
          (Qeq mean 50 -> verdict = true) /\ (Qeq mean 200 -> verdict = true)
          /\ (Qeq mean 49 -> verdict = false) /\ (Qeq mean 201 -> verdict = false)).
Proof.
  intros Himg. exists (in_band (np_mean img)). split; [|split].
  - unfold CameraTests.test_image_brightness, mbind, M_bind, bind, get_world; simpl.
    by rewrite Himg.
  - unfold in_band. destruct (np_mean img) as [q|].
    + rewrite andb_true_iff, !Qle_bool_iff. split.
      * intros [Hlo Hhi]. by exists q.
      * by intros (mean & [= <-] & Hlo & Hhi).
    + split; [discriminate|]. by intros (mean & Hno & _).
  - intros mean Hmean. rewrite Hmean. unfold in_band.
    repeat split; intros Heq.
    + apply andb_true_iff. rewrite !Qle_bool_iff, Heq. split; discriminate.
    + apply andb_true_iff. rewrite !Qle_bool_iff, Heq. split; discriminate.
    + apply andb_false_iff. left. apply not_true_iff_false.
      rewrite Qle_bool_iff, Heq. intros Hle. by apply Hle.
    + apply andb_false_iff. right. apply not_true_iff_false.
      rewrite Qle_bool_iff, Heq. intros Hle. by apply Hle.
Qed.

(** C6.  The resolution check, called with its defaults, returns True
    exactly when the image decodes and is 1280 wide and 720 high; any
    other size of a decodable image, and an image that does not decode,
    give False. *)
Theorem resolution_exact_1280_720 `{Platform} (self : CameraTests.t) (m : Machine) :
  exists m' verdict,
    CameraTests.test_image_resolution self 1280 720 m = (m', Return verdict)
    /\ (verdict = true
        <-> exists img,
              imread IMREAD_COLOR (files (world m) !! CameraTests.image_path self) = Some img
              /\ shape1 img = 1280 /\ shape0 img = 720).
Proof.
  unfold CameraTests.test_image_resolution, mbind, M_bind, bind, get_world; simpl.
  destruct (imread IMREAD_COLOR _) as [img|].
  - exists m, ((shape1 img =? 1280) && (shape0 img =? 720)). split; [reflexivity|].
    rewrite andb_true_iff, !Z.eqb_eq. split.
    + intros [Hw Hh]. by exists img.
    + by intros (? & [= <-] & Hw & Hh).
  - do 2 eexists. split; [reflexivity|]. split; [discriminate|].
    by intros (? & Hno & _).
Qed.

(** * The log header *)

Lemma single_line_app a b : single_line (a +:+ b) = single_line a && single_line b.
Proof.
  induction a as [|c a IH]; simpl; [reflexivity|].
  rewrite IH. by destruct (negb (Ascii.eqb c "010")).
Qed.

Lemma split_lines_first a rest :
  single_line a = true -> split_lines (a +:+ nl +:+ rest) = a :: split_lines rest.
Proof.
  induction a as [|c a IH]; simpl; [reflexivity|].
  intros Hline. apply andb_prop in Hline as [Hc Ha].
  apply negb_true_iff in Hc. rewrite Hc.
  change (a +:+ String "010" rest) with (a +:+ nl +:+ rest). by rewrite (IH Ha).
Qed.

Lemma header_line_single timestamp device :
  single_line timestamp = true -> single_line device = true ->
  single_line (CameraTests.header_line timestamp device) = true.
Proof.
  intros Ht Hd. unfold CameraTests.header_line.
  rewrite !single_line_app, Ht, Hd. reflexivity.
Qed.

(** C2.  Right after [CameraTests(...)] returns, the log file of the
    session exists and holds the header line, a newline, a rule of fifty
    [=] and a newline: of its lines exactly one is a header line, and it
    is the first; nothing has been printed or logged besides.  The device
    name and the timestamp are taken to be free of newlines. *)
Theorem init_writes_one_header `{Platform}
    (camera_device : string) (fps duration : Z) (output_dir log_dir : string) (m : Machine) :
  single_line camera_device = true ->
  single_line (strftime "%Y%m%d_%H%M%S" (clock (world m))) = true ->
  exists self m' text,
    CameraTests.init camera_device fps duration output_dir log_dir m = (m', Return self)
    /\ files (world m') !! CameraTests.log_path self = Some text
    /\ text = CameraTests.header_line (CameraTests.timestamp self) camera_device +:+ nl
              +:+ CameraTests.header_rule +:+ nl
    /\ split_lines text
       = [CameraTests.header_line (CameraTests.timestamp self) camera_device;
          CameraTests.header_rule; ""]
    /\ List.filter is_header_line (split_lines text)
       = [CameraTests.header_line (CameraTests.timestamp self) camera_device]
    /\ console m' = console m.
Proof.
  intros Hdev Hts.
  assert (split_lines
            (CameraTests.header_line (strftime "%Y%m%d_%H%M%S" (clock (world m))) camera_device
             +:+ nl +:+ CameraTests.header_rule +:+ nl)
          = [CameraTests.header_line (strftime "%Y%m%d_%H%M%S" (clock (world m))) camera_device;
             CameraTests.header_rule; ""]) as Hsplit.
  { rewrite split_lines_first by by apply header_line_single.
    change (CameraTests.header_rule +:+ nl) with (CameraTests.header_rule +:+ nl +:+ "").
    rewrite split_lines_first by reflexivity. reflexivity. }
  set (ts := strftime "%Y%m%d_%H%M%S" (clock (world m))) in *.
  set (text := CameraTests.header_line ts camera_device +:+ nl
               +:+ CameraTests.header_rule +:+ nl) in *.
  exists (CameraTests.mk camera_device fps duration output_dir log_dir ts
            (os_path_join output_dir ("image_" +:+ ts +:+ ".jpg"))
            (os_path_join output_dir ("video_" +:+ ts +:+ ".mp4"))
            (os_path_join log_dir (ts +:+ "_log.txt"))
            (CameraController.mk camera_device output_dir)),
    (mkMachine
       (mkWorld (<[os_path_join log_dir (ts +:+ "_log.txt") := text]> (files (world m)))
                (clock (world m)))
       (console m)),
    text.
  split; [reflexivity|]. cbn [CameraTests.log_path CameraTests.timestamp world files console].
  split; [apply lookup_insert_eq|]. split; [reflexivity|]. split; [exact Hsplit|].
  split; [|reflexivity]. rewrite Hsplit. reflexivity.
Qed.

(** * Verdicts are functions of the artifact *)

(** C9.  Each of the eight checks gives the same result in two machines
    of one session whose image file, respectively video file, holds the
    same bytes or is missing in both: the rest of the file system, the
    clock and the console have no part in the verdict. *)
Theorem verdicts_depend_on_artifact_only `{Platform}
    (self : CameraTests.t) (m1 m2 : Machine) :
  files (world m1) !! CameraTests.image_path self
  = files (world m2) !! CameraTests.image_path self ->
  files (world m1) !! CameraTests.video_path self
  = files (world m2) !! CameraTests.video_path self ->
  (CameraTests.test_image_exists self m1).2 = (CameraTests.test_image_exists self m2).2
  /\ (CameraTests.test_image_validity self m1).2 = (CameraTests.test_image_validity self m2).2
  /\ (CameraTests.test_image_resolution self 1280 720 m1).2
     = (CameraTests.test_image_resolution self 1280 720 m2).2
  /\ (CameraTests.test_image_brightness self m1).2
     = (CameraTests.test_image_brightness self m2).2
  /\ (CameraTests.test_video_exists self m1).2 = (CameraTests.test_video_exists self m2).2
  /\ (CameraTests.test_video_validity self m1).2 = (CameraTests.test_video_validity self m2).2
  /\ (CameraTests.test_video_fps self m1).2 = (CameraTests.test_video_fps self m2).2
  /\ (CameraTests.test_video_audio self m1).2 = (CameraTests.test_video_audio self m2).2.
Proof.
  intros Himage Hvideo.
  repeat split.
  - unfold CameraTests.test_image_exists, mbind, M_bind, bind, get_world,
      path_exists, nonzero_size; simpl. by rewrite Himage.
  - unfold CameraTests.test_image_validity, mbind, M_bind, bind, get_world; simpl.
    rewrite Himage. by destruct (imread IMREAD_COLOR _).
  - unfold CameraTests.test_image_resolution, mbind, M_bind, bind, get_world; simpl.
    rewrite Himage. by destruct (imread IMREAD_COLOR _).
  - unfold CameraTests.test_image_brightness, mbind, M_bind, bind, get_world; simpl.
    rewrite Himage. by destruct (imread IMREAD_GRAYSCALE _).
  - unfold CameraTests.test_video_exists, mbind, M_bind, bind, get_world, path_exists; simpl.
    by rewrite Hvideo.
  - unfold CameraTests.test_video_validity, mbind, M_bind, bind, get_world; simpl.
    by rewrite Hvideo.
  - rewrite !test_video_fps_unfold. unfold rate_report. rewrite Hvideo.
    destruct (CameraTests.fps_verdict _ _) as [b|e]; [reflexivity|].
    by destruct (is_Exception e).
  - unfold CameraTests.test_video_audio, mbind, M_bind, bind, get_world; simpl.
    by rewrite Hvideo.
Qed.

(** * Startup *)

Section Startup.
Context `{Platform}.
Implicit Types (m : Machine) (cameras : list string).

Lemma bind_return {A B} (x : M A) (f : A -> M B) m m1 a :
  x m = (m1, Return a) -> (x ≫= f) m = f a m1.
Proof. intros Hx. unfold mbind, M_bind, bind. by rewrite Hx. Qed.

Lemma bind_raise {A B} (x : M A) (f : A -> M B) m m1 e :
  x m = (m1, Raise e) -> (x ≫= f) m = (m1, Raise e).
Proof. intros Hx. unfold mbind, M_bind, bind. by rewrite Hx. Qed.

Lemma list_cameras_run m :
  list_cameras m = (mkMachine (detection m).1 (console m), Return (detected m)).
Proof.
  unfold list_cameras, detected, detection, mbind, M_bind, bind, external.
  by destruct (subprocess_run _ (world m)) as [w r].
Qed.

Lemma for_each_print lines m :
  for_each lines print m = (mkMachine (world m) (console m ++ lines), Return tt).
Proof.
  revert m. induction lines as [|line lines IH]; intros m; simpl.
  - rewrite app_nil_r. by destruct m.
  - erewrite bind_return by reflexivity. rewrite IH. simpl.
    by rewrite <- app_assoc.
Qed.

(** The interactive branch on a bad answer. *)
Lemma bad_choice_exits (session : string -> M unit) cameras typed m :
  invalid_choice cameras (py_strip typed) ->
  (line ← input prompt (Some typed);
   let choice := py_strip line in
   if String.eqb (lower choice) "all" then
     for_each cameras session;;
     raise (SystemExit 0)
   else
     try_except is_ValueError
       (n ← lift (py_int choice);
        let cam_index := n - 1 in
        if (cam_index <? 0) || (cam_index >=? Z.of_nat (length cameras)) then
          print "Invalid selection.";;
          raise (SystemExit 1)
        else
          mret (default "" (cameras !! Z.to_nat cam_index)))
       (fun e =>
          print "Invalid input.";;
          raise (SystemExit 1))) m
  = (mkMachine (world m) (console m ++ [prompt; refusal_of (py_strip typed)]),
     Raise (SystemExit 1)).
Proof.
  intros [Hall Hparse].
  assert (String.eqb (lower (py_strip typed)) "all" = false) as Hneq
    by by apply String.eqb_neq.
  unfold input. erewrite bind_return; cycle 1.
  { erewrite bind_return by reflexivity. reflexivity. }
  cbv zeta. rewrite Hneq. unfold try_except, lift, refusal_of.
  destruct (py_int (py_strip typed)) as [n|e].
  - assert ((n - 1 <? 0) || (n - 1 >=? Z.of_nat (length cameras)) = true) as Hout.
    { apply orb_true_iff. destruct Hparse as [Hlow|Hhigh];
        [left; by apply Z.ltb_lt|right; apply Z.geb_le; lia]. }
    unfold mbind, M_bind, bind. rewrite Hout. simpl.
    by rewrite <- app_assoc.
  - unfold mbind, M_bind, bind. rewrite Hparse. unfold raise. simpl.
    by rewrite <- app_assoc.
Qed.

End Startup.

(** C8.  When no device is detected, or when the user is asked (no
    CAMERA_DEVICE, no RUNNING_IN_DOCKER) and types something that is not
    [all] and is no number of a listed camera, the script ends in
    [exit(1)] after printing one of its three refusal messages; the
    session procedure is never entered, whatever it is, and the world is
    the one the device listing left. *)
Theorem invalid_startup_exits_nonzero `{Platform}
    (environ : gmap string string) (typed : string) (m : Machine) :
  startup_refused (detected m) environ typed ->
  exists printed message,
    message ∈ refusals
    /\ (forall session,
          main_with session environ (Some typed) m
          = (mkMachine (detection m).1 (console m ++ printed ++ [message]),
             Raise (SystemExit 1)))
    /\ (main environ (Some typed) m).2 = Raise (SystemExit 1)
    /\ exit_status (main environ (Some typed) m).2 <> 0.
Proof.
  intros Hrefused.
  assert (exists printed message,
            message ∈ refusals
            /\ forall session,
                 main_with session environ (Some typed) m
                 = (mkMachine (detection m).1 (console m ++ printed ++ [message]),
                    Raise (SystemExit 1))) as (printed & message & Hmsg & Hmain).
  { destruct Hrefused as [Hnone|[[Hdev Hdocker] Hbad]].
    - exists [], "No cameras detected.". split; [unfold refusals; set_solver|].
      intros session. unfold main_with.
      erewrite bind_return by apply list_cameras_run. rewrite Hnone.
      erewrite bind_raise; [reflexivity|].
      rewrite bool_decide_eq_true_2 by reflexivity.
      erewrite bind_return by reflexivity. reflexivity.
    - destruct (decide (detected m = [])) as [Hnone|Hsome].
      + exists [], "No cameras detected.". split; [unfold refusals; set_solver|].
        intros session. unfold main_with.
        erewrite bind_return by apply list_cameras_run. rewrite Hnone.
        erewrite bind_raise; [reflexivity|].
        rewrite bool_decide_eq_true_2 by reflexivity.
        erewrite bind_return by reflexivity. reflexivity.
      + set (m2 := mkMachine (detection m).1
                     (console m ++ ["Available Cameras:"] ++ menu (detected m))).
        exists (["Available Cameras:"] ++ menu (detected m) ++ [prompt]),
          (refusal_of (py_strip typed)).
        split.
        { unfold refusals, refusal_of. destruct (py_int _); set_solver. }
        intros session.
        pose proof (bad_choice_exits session (detected m) typed m2 Hbad) as Hrun.
        unfold main_with.
        erewrite bind_return by apply list_cameras_run.
        rewrite bool_decide_eq_false_2 by exact Hsome.
        erewrite bind_return by reflexivity.
        erewrite bind_return by reflexivity.
        erewrite bind_return; cycle 1.
        { unfold print_menu. apply for_each_print. }
        rewrite Hdev, Hdocker.
        erewrite bind_raise; cycle 1.
        { cbn [world console]. fold (menu (detected m)).
          rewrite <- app_assoc. exact Hrun. }
        unfold m2. cbn [world console]. by rewrite <- !app_assoc. }
  exists printed, message. split; [exact Hmsg|]. split; [exact Hmain|].
  unfold main. rewrite Hmain. split; [reflexivity|]. simpl. lia.
Qed.

(** * Recording failures *)

Section Surfacing.
Context `{Platform}.
Implicit Types (self : CameraTests.t) (m : Machine).

Lemma init_as_constructed camera_device fps duration output_dir log_dir m m' self :
  CameraTests.init camera_device fps duration output_dir log_dir m = (m', Return self) ->
  as_constructed self.
Proof. intros [= _ <-]. by repeat split. Qed.

Lemma last_char_app a b : b <> "" -> last_char (a +:+ b) = last_char b.
Proof.
  intros Hb. induction a as [|c a IH]; [reflexivity|].
  simpl. rewrite IH. destruct (a +:+ b) eqn:Hab; [|reflexivity].
  destruct a; [by destruct b|discriminate].
Qed.

Lemma last_char_join a b : b <> "" -> last_char (os_path_join a b) = last_char b.
Proof.
  intros Hb. unfold os_path_join.
  destruct (startswith b "/"); [reflexivity|].
  destruct (_ || _); [by apply last_char_app|].
  rewrite last_char_app by (by destruct b). by apply last_char_app.
Qed.

Lemma last_char_suffix a c b : last_char (a +:+ String c b) = last_char (String c b).
Proof. by apply last_char_app. Qed.

(** The log never is one of the two artifacts. *)
Lemma constructed_paths_distinct self :
  as_constructed self ->
  CameraTests.log_path self <> CameraTests.video_path self
  /\ CameraTests.log_path self <> CameraTests.image_path self.
Proof.
  intros (Himage & Hvideo & Hlog & _).
  assert (forall ext, ext <> "" -> CameraTests.timestamp self +:+ ext <> "") as Hne
    by (intros ext Hext; by destruct (CameraTests.timestamp self)).
  assert (last_char (CameraTests.log_path self) = Some "t"%char) as Hl.
  { rewrite Hlog, last_char_join by by apply Hne. apply last_char_suffix. }
  assert (last_char (CameraTests.video_path self) = Some "4"%char) as Hv.
  { rewrite Hvideo, last_char_join by discriminate.
    rewrite last_char_app by by apply Hne. apply last_char_suffix. }
  assert (last_char (CameraTests.image_path self) = Some "g"%char) as Hi.
  { rewrite Himage, last_char_join by discriminate.
    rewrite last_char_app by by apply Hne. apply last_char_suffix. }
  split; intros Heq; rewrite Heq in Hl; congruence.
Qed.

Lemma log_world_other self message w path :
  CameraTests.log_path self <> path ->
  files (log_world self message w) !! path = files w !! path.
Proof. intros Hne. unfold log_world; simpl. by apply lookup_insert_ne. Qed.

End Surfacing.

(** C10.  The runner's [record_video] does not look at what the controller
    returned: whatever that string is, the wrapper ends with the entry
    "Recording complete." logged in the state the controller left, prints
    exactly the start line and that line, and returns None.  When the
    controller reported a failure because no file was produced, the first
    trace of it is the FAIL line of the first video check. *)
Theorem record_video_result_discarded `{Platform} (self : CameraTests.t) (m : Machine) :
  let m1 := (CameraTests.log self (start_line self) m).1 in
  let recorded :=
    CameraController.record_video (CameraTests.camera self) (CameraTests.duration self)
      (video_file self) m1 in
  recorded.2
  = Return (recording_result (CameraTests.camera self) (CameraTests.duration self)
              (video_file self) (world m1))
  /\ CameraTests.record_video self m = CameraTests.log self "Recording complete." recorded.1
  /\ (CameraTests.record_video self m).2 = Return tt
  /\ console (CameraTests.record_video self m).1
     = console m ++ [start_line self; "Recording complete."]
  /\ (as_constructed self -> fps_probe_contained self ->
      files (world recorded.1) !! CameraTests.video_path self = None ->
      (exists out err, recorded.2 = Return (CameraController.record_failure out err))
      /\ exists m' v2 v3 v4,
           emits (CameraTests.run_video_tests self) m (video_phase self false v2 v3 v4) tt m').
Proof.
  cbv zeta. rewrite controller_record_video_run. cbn [fst snd].
  split; [reflexivity|].
  set (m1 := (CameraTests.log self (start_line self) m).1).
  set (after := transcoded (CameraTests.camera self) (CameraTests.duration self)
                  (video_file self) (world m1)).
  assert (CameraTests.record_video self m
          = CameraTests.log self "Recording complete." (mkMachine after.1 (console m1)))
    as Heq.
  { unfold CameraTests.record_video. fold (start_line self). fold (video_file self).
    unfold mbind at 1, M_bind at 1, bind at 1. rewrite (log_run self (start_line self) m).
    unfold mbind at 1, M_bind at 1, bind at 1. rewrite controller_record_video_run.
    reflexivity. }
  split; [exact Heq|]. split; [by rewrite Heq|].
  split; [rewrite Heq, log_run; unfold m1; rewrite log_run; cbn [fst console];
          by rewrite <- app_assoc|].
  intros Hself Hc Hmissing. cbn [world] in Hmissing.
  destruct (constructed_paths_distinct self Hself) as [Hne _].
  destruct Hself as (_ & Hvideo & _ & Hcam).
  split.
  - exists after.2.1, after.2.2. f_equal. unfold recording_result. fold after.
    assert (os_path_join (CameraController.output_dir (CameraTests.camera self))
              (video_file self) = CameraTests.video_path self) as ->
      by (rewrite Hvideo, Hcam; reflexivity).
    unfold path_exists. rewrite Hmissing.
    rewrite bool_decide_eq_false_2 by (by intros [? ?]). reflexivity.
  - destruct (run_video_tests_emits self m Hc) as (m' & v1 & v2 & v3 & v4 & E & Hv1).
    exists m', v2, v3, v4.
    assert (v1 = false) as <-; [|exact E].
    rewrite Hv1, Heq, log_run. cbn [fst world]. unfold path_exists.
    rewrite !log_world_other by exact Hne. rewrite Hmissing.
    apply bool_decide_eq_false_2. by intros [? ?].
Qed.

(** * The theorems at work on the test bench *)

(** C2 on the bench. *)
Lemma init_header_on_bench :
  single_line "/dev/video0" = true
  /\ single_line (@strftime (bench true true) "%Y%m%d_%H%M%S" (clock (world power_on))) = true
  /\ exists self m',
       @CameraTests.init (bench true true) "/dev/video0" 30 5 "captures" "logs" power_on
       = (m', Return self)
       /\ List.filter is_header_line
            (split_lines (default "" (files (world m') !! CameraTests.log_path self)))
          = ["Audit Log - Test Session 0 - Camera: /dev/video0"].
Proof.
  assert (single_line "/dev/video0" = true) as Hdev by reflexivity.
  assert (single_line (@strftime (bench true true) "%Y%m%d_%H%M%S" (clock (world power_on)))
          = true) as Hts by (vm_compute; reflexivity).
  split; [exact Hdev|]. split; [exact Hts|].
  destruct (@init_writes_one_header (bench true true) "/dev/video0" 30 5 "captures" "logs"
              power_on Hdev Hts)
    as (self & m' & text & Hrun & Hfile & Htext & Hsplit & Hheader & Hconsole).
  exists self, m'. split; [exact Hrun|].
  rewrite Hfile. simpl. rewrite Hheader.
  injection Hrun as _ <-. vm_compute. reflexivity.
Defined.

(** C5 on the bench: a frame of brightness 128 passes. *)
Lemma brightness_on_bench :
  @imread (bench true true) IMREAD_GRAYSCALE
    (files (world framed) !! CameraTests.image_path bench_session)
  = Some (mkArray 720 1280 [128; 128; 128; 128])
  /\ @CameraTests.test_image_brightness (bench true true) bench_session framed
     = (framed, Return true).
Proof.
  assert (@imread (bench true true) IMREAD_GRAYSCALE
            (files (world framed) !! CameraTests.image_path bench_session)
          = Some (mkArray 720 1280 [128; 128; 128; 128])) as Himg by (vm_compute; reflexivity).
  split; [exact Himg|].
  destruct (@brightness_band_inclusive (bench true true) bench_session framed _ Himg)
    as (verdict & Hrun & Hiff & _).
  rewrite Hrun. f_equal. f_equal. apply Hiff.
  eexists. split; [reflexivity|]. split; vm_compute; discriminate.
Defined.

(** C9 on the bench: the same frame in two machines. *)
Lemma same_frame_same_verdicts :
  files (world framed) !! CameraTests.image_path bench_session
  = files (world framed_later) !! CameraTests.image_path bench_session
  /\ files (world framed) !! CameraTests.video_path bench_session
     = files (world framed_later) !! CameraTests.video_path bench_session
  /\ (@CameraTests.test_image_brightness (bench true true) bench_session framed).2
     = (@CameraTests.test_image_brightness (bench true true) bench_session framed_later).2
  /\ (@CameraTests.test_video_fps (bench true true) bench_session framed).2
     = (@CameraTests.test_video_fps (bench true true) bench_session framed_later).2.
Proof.
  assert (files (world framed) !! CameraTests.image_path bench_session
          = files (world framed_later) !! CameraTests.image_path bench_session) as Himage
    by (vm_compute; reflexivity).
  assert (files (world framed) !! CameraTests.video_path bench_session
          = files (world framed_later) !! CameraTests.video_path bench_session) as Hvideo
    by (vm_compute; reflexivity).
  split; [exact Himage|]. split; [exact Hvideo|].
  destruct (@verdicts_depend_on_artifact_only (bench true true) bench_session
              framed framed_later Himage Hvideo)
    as (_ & _ & _ & Hbright & _ & _ & Hfps & _).
  split; [exact Hbright|exact Hfps].
Defined.

(** C8 on the bench: two cameras are listed and the user types 7. *)
Lemma seventh_camera_is_refused :
  @startup_refused (bench true true) (@detected (bench true true) power_on) ∅ "7"
  /\ (@main (bench true true) ∅ (Some "7") power_on).2 = Raise (SystemExit 1).
Proof.
  assert (@startup_refused (bench true true) (@detected (bench true true) power_on) ∅ "7")
    as Hrefused.
  { right. split; [split; vm_compute; reflexivity|]. split.
    - vm_compute. discriminate.
    - vm_compute. right. discriminate. }
  split; [exact Hrefused|].
  destruct (@invalid_startup_exits_nonzero (bench true true) ∅ "7" power_on Hrefused)
    as (printed & message & _ & _ & Hexit & _).
  exact Hexit.
Defined.

(** C3 on the bench: a clip reported at 30/1 passes against the target 30,
    and a missing clip, for which the prober reports no stream, fails. *)
Lemma fps_check_on_bench :
  @CameraTests.test_video_fps (bench true true) bench_session clipped = (clipped, Return true)
  /\ @CameraTests.test_video_fps (bench true true) bench_session power_on
     = (power_on, Return false).
Proof.
  destruct (@video_fps_check_by_ratio (bench true true) bench_session clipped)
    as (_ & _ & Hratio & _).
  destruct (@video_fps_check_by_ratio (bench true true) bench_session power_on)
    as (_ & _ & _ & _ & Hlookup & _).
  split.
  - destruct (Hratio "30/1" 30 1) as (verdict & Hrun & Hiff).
    + vm_compute. reflexivity.
    + vm_compute. reflexivity.
    + discriminate.
    + rewrite Hrun. f_equal. f_equal. apply Hiff. vm_compute. discriminate.
  - apply (Hlookup KeyError). vm_compute. reflexivity.
Defined.

(** C10 on the bench: the recorder produces nothing, the controller says
    so, and the wrapper logs "Recording complete." all the same. *)
Lemma failed_recording_on_bench :
  (@CameraController.record_video (bench true false) (CameraTests.camera bench_session) 5
     "video_0.mp4"
     (@CameraTests.log (bench true false) bench_session (start_line bench_session) power_on).1).2
  = Return ("Failed to record video. FFmpeg output:" +:+ nl +:+ "STDOUT: " +:+ nl
            +:+ "STDERR: Cannot open video device")
  /\ console (@CameraTests.record_video (bench true false) bench_session power_on).1
     = ["Starting video recording on /dev/video0: 5s at 30 FPS..."; "Recording complete."]
  /\ exists m' v2 v3 v4,
       emits (@CameraTests.run_video_tests (bench true false) bench_session) power_on
         (video_phase bench_session false v2 v3 v4) tt m'.
Proof.
  destruct (@record_video_result_discarded (bench true false) bench_session power_on)
    as (Hresult & _ & _ & Hconsole & Hsurface).
  split; [|split].
  - vm_compute. reflexivity.
  - rewrite Hconsole. vm_compute. reflexivity.
  - apply Hsurface.
    + by repeat split.
    + bench_contained.
    + vm_compute. reflexivity.
Defined.

(** The whole session on a healthy bench: a 1280x720 frame of brightness
    128 and a clip at 30/1 with an audio track pass all eight checks, and
    the run ends with the completion line. *)
Example healthy_camera_passes_everything :
  console (@CameraTests.run_tests (bench true true) bench_session power_on).1
  = ["Running Tests on Camera: /dev/video0";
     "Capturing an image on /dev/video0...";
     "Image captured successfully.";
     "Running Image Tests...";
     "PASS: Image exists";
     "PASS: Image is a valid JPEG file";
     "PASS: Image resolution is correct";
     "PASS: Image brightness is acceptable";
     "Starting video recording on /dev/video0: 5s at 30 FPS...";
     "Recording complete.";
     "Running Video Tests...";
     "PASS: Video file exists";
     "PASS: Video is a valid file";
     "PASS: Video FPS is correct";
     "PASS: Audio track detected in video";
     "Test session completed."].
Proof. vm_compute. reflexivity. Qed.

(** A frame of another size decodes and fails the resolution check only. *)
Example small_frame_fails_resolution :
  let small := {|
    strftime := @strftime (bench true true);
    time_sleep := @time_sleep (bench true true);
    subprocess_run := @subprocess_run (bench true true);
    popen_communicate := @popen_communicate (bench true true);
    ffprobe := @ffprobe (bench true true);
    imread := fun flag content =>
      match content with Some _ => Some (mkArray 480 640 [128]) | None => None end;
    json_loads := @json_loads (bench true true);
    eval_other := @eval_other (bench true true);
    int_other := @int_other (bench true true);
    strip_other := @strip_other (bench true true)
  |} in
  List.filter is_verdict (console (@CameraTests.run_image_tests small bench_session framed).1)
  = ["PASS: Image exists";
     "PASS: Image is a valid JPEG file";
     "FAIL: Image resolution is correct";
     "PASS: Image brightness is acceptable"].
Proof. vm_compute. reflexivity. Qed.

(** * The log mirrors the console *)

Lemma append_cons (ch : ascii) (a b : string) : String ch a +:+ b = String ch (a +:+ b).
Proof. reflexivity. Qed.

Lemma append_assoc (a b c : string) : (a +:+ b) +:+ c = a +:+ b +:+ c.
Proof. induction a as [|ch a IH]; [reflexivity|]. by rewrite !append_cons, IH. Qed.

Lemma append_nil_r (a : string) : a +:+ "" = a.
Proof. induction a as [|ch a IH]; [reflexivity|]. by rewrite append_cons, IH. Qed.

Section Mirror.
Context `{Platform}.
Implicit Types (self : CameraTests.t) (m : Machine).

Lemma log_entries_app stamps1 lines1 stamps2 lines2 :
  length stamps1 = length lines1 ->
  log_entries (stamps1 ++ stamps2) (lines1 ++ lines2)
  = log_entries stamps1 lines1 +:+ log_entries stamps2 lines2.
Proof.
  revert lines1. induction stamps1 as [|t ts IH]; intros [|l ls] Hlen; try discriminate.
  - reflexivity.
  - simpl. rewrite IH by (simpl in Hlen; lia). by rewrite append_assoc.
Qed.

Lemma mirrored_refl self m : mirrored self m m.
Proof. exists [], []. simpl. by rewrite app_nil_r, append_nil_r. Qed.

Lemma mirrored_trans self m1 m2 m3 :
  mirrored self m1 m2 -> mirrored self m2 m3 -> mirrored self m1 m3.
Proof.
  intros (s1 & l1 & Hlen1 & Hc1 & Ht1) (s2 & l2 & Hlen2 & Hc2 & Ht2).
  exists (s1 ++ s2), (l1 ++ l2). split; [|split].
  - rewrite !length_app. lia.
  - by rewrite Hc2, Hc1, app_assoc.
  - by rewrite Ht2, Ht1, append_assoc, log_entries_app.
Qed.

Lemma in_step_ret self {A} (a : A) : in_step self (mret a : M A).
Proof. intros m. apply mirrored_refl. Qed.

Lemma in_step_lift self {A} (r : outcome A) : in_step self (lift r).
Proof. intros m. apply mirrored_refl. Qed.

Lemma in_step_get_world self : in_step self get_world.
Proof. intros m. apply mirrored_refl. Qed.

Lemma in_step_bind self {A B} (x : M A) (f : A -> M B) :
  in_step self x -> (forall a, in_step self (f a)) -> in_step self (x ≫= f).
Proof.
  intros Hx Hf m. specialize (Hx m). unfold mbind, M_bind, bind.
  destruct (x m) as [m1 [a|e]]; simpl in *; [|exact Hx].
  eapply mirrored_trans; [exact Hx|apply Hf].
Qed.

Lemma in_step_try_except self {A} caught (body : M A) (handler : exn -> M A) :
  in_step self body -> (forall e, in_step self (handler e)) ->
  in_step self (try_except caught body handler).
Proof.
  intros Hb Hh m. specialize (Hb m). unfold try_except.
  destruct (body m) as [m1 [a|e]]; simpl in *; [exact Hb|].
  destruct (caught e); [|exact Hb].
  eapply mirrored_trans; [exact Hb|apply Hh].
Qed.

Lemma in_step_external self {A} (f : World -> World * A) :
  (forall w, files (f w).1 !! CameraTests.log_path self
             = files w !! CameraTests.log_path self) ->
  in_step self (external f).
Proof.
  intros Hf m. unfold external. specialize (Hf (world m)).
  destruct (f (world m)) as [w a]; simpl in *.
  exists [], []. simpl. unfold log_text. simpl.
  by rewrite Hf, app_nil_r, append_nil_r.
Qed.

Lemma in_step_log self message : in_step self (CameraTests.log self message).
Proof.
  intros m. rewrite log_run. exists [clock (world m)], [message]. simpl.
  split; [reflexivity|]. split; [reflexivity|].
  unfold log_text, log_world, log_entry. simpl.
  by rewrite lookup_insert_eq, append_nil_r.
Qed.

End Mirror.

Section MirrorRun.
Context `{Platform}.
Implicit Types (self : CameraTests.t) (m : Machine).

Lemma in_step_assert_test self condition message :
  in_step self (CameraTests.assert_test self condition message).
Proof.
  unfold CameraTests.assert_test, CameraTests.py_assert.
  apply in_step_try_except; [|intros e; apply in_step_log].
  apply in_step_bind; [|intros; apply in_step_log].
  destruct condition; [apply in_step_ret|intros m; apply mirrored_refl].
Qed.

Ltac in_step_go :=
  repeat first
    [ match goal with
      | |- forall _, in_step _ _ => intro
      | |- in_step _ (mbind _ _) => apply in_step_bind
      | |- in_step _ (CameraTests.assert_test _ _ _) => apply in_step_assert_test
      | |- in_step _ (CameraTests.log _ _) => apply in_step_log
      | |- in_step _ (mret _) => apply in_step_ret
      | |- in_step _ get_world => apply in_step_get_world
      | |- in_step _ (lift _) => apply in_step_lift
      | |- in_step _ (try_except _ _ _) => apply in_step_try_except
      | |- in_step _ (match ?x with _ => _ end) => destruct x
      end
    | progress cbv beta zeta ].

Lemma in_step_controller_capture self :
  tools_spare_log self ->
  in_step self (CameraController.capture_image (CameraTests.camera self) (image_file self)).
Proof.
  intros (_ & Hcapture & _). unfold CameraController.capture_image.
  apply in_step_bind; [|intros; apply in_step_ret].
  apply in_step_external. exact Hcapture.
Qed.

Lemma in_step_controller_record self :
  tools_spare_log self ->
  in_step self (CameraController.record_video (CameraTests.camera self)
                  (CameraTests.duration self) (video_file self)).
Proof.
  intros (_ & _ & Hrecord). unfold CameraController.record_video.
  apply in_step_bind; [apply in_step_external; exact Hrecord|].
  intros streams. apply in_step_bind; [apply in_step_get_world|].
  intros w. destruct (_ && _); apply in_step_ret.
Qed.

Lemma in_step_poll self attempts :
  tools_spare_log self -> in_step self (CameraTests.poll self attempts).
Proof.
  intros Htools. induction attempts as [|attempt rest IH]; simpl.
  - in_step_go.
  - apply in_step_bind.
    { apply in_step_external. intros w. simpl. apply Htools. }
    intros _. apply in_step_bind; [apply in_step_get_world|].
    intros w. destruct (CameraTests.image_ready self w).
    + in_step_go.
    + apply in_step_bind; [apply in_step_log|intros; exact IH].
Qed.

Lemma in_step_capture_image self :
  tools_spare_log self -> in_step self (CameraTests.capture_image self).
Proof.
  intros Htools. unfold CameraTests.capture_image.
  apply in_step_bind; [apply in_step_log|]. intros _.
  apply in_step_bind; [by apply in_step_controller_capture|]. intros _.
  by apply in_step_poll.
Qed.

Lemma in_step_run_image_tests self : in_step self (CameraTests.run_image_tests self).
Proof.
  unfold CameraTests.run_image_tests, CameraTests.test_image_exists,
    CameraTests.test_image_validity, CameraTests.test_image_resolution,
    CameraTests.test_image_brightness.
  in_step_go.
Qed.

Lemma in_step_record_video self :
  tools_spare_log self -> in_step self (CameraTests.record_video self).
Proof.
  intros Htools. unfold CameraTests.record_video.
  apply in_step_bind; [apply in_step_log|]. intros _.
  apply in_step_bind; [by apply in_step_controller_record|]. intros _.
  apply in_step_log.
Qed.

Lemma in_step_run_video_tests self :
  tools_spare_log self -> in_step self (CameraTests.run_video_tests self).
Proof.
  intros Htools.
  unfold CameraTests.run_video_tests, CameraTests.test_video_exists,
    CameraTests.test_video_validity, CameraTests.test_video_fps,
    CameraTests.test_video_audio.
  apply in_step_bind; [by apply in_step_record_video|]. intros _.
  in_step_go.
Qed.

End MirrorRun.

Lemma in_step_run_tests `{Platform} (self : CameraTests.t) :
  tools_spare_log self -> in_step self (CameraTests.run_tests self).
Proof.
  intros Htools. unfold CameraTests.run_tests.
  apply in_step_bind; [apply in_step_log|]. intros _.
  apply in_step_bind; [by apply in_step_capture_image|]. intros captured.
  apply in_step_bind.
  { destruct (negb captured); [apply in_step_log|apply in_step_run_image_tests]. }
  intros _. apply in_step_bind; [by apply in_step_run_video_tests|]. intros _.
  apply in_step_log.
Qed.

(** X1.  Through a whole run of [run_tests] the audit log and the console
    stay in step: the console gains some lines and the log file gains, after
    what it held, exactly one stamped entry per line in the same order;
    nothing of the log is rewritten.  The sleeps and the two transcoder runs
    of the session are taken to leave the log file alone. *)
Theorem run_tests_log_mirrors_console `{Platform} (self : CameraTests.t) (m : Machine) :
  tools_spare_log self ->
  exists stamps lines,
    length stamps = length lines
    /\ console (CameraTests.run_tests self m).1 = console m ++ lines
    /\ log_text self (world (CameraTests.run_tests self m).1)
       = log_text self (world m) +:+ log_entries stamps lines.
Proof.
  intros Htools. exact (in_step_run_tests self Htools m).
Qed.

(** X1 on the bench. *)
Lemma bench_log_mirrors_console :
  @tools_spare_log (bench true true) bench_session
  /\ exists stamps lines,
       length stamps = length lines
       /\ console (@CameraTests.run_tests (bench true true) bench_session power_on).1 = lines
       /\ @log_text bench_session
            (world (@CameraTests.run_tests (bench true true) bench_session power_on).1)
          = @log_entries (bench true true) stamps lines.
Proof.
  assert (@tools_spare_log (bench true true) bench_session) as Htools.
  { split; [|split]; intros w.
    - reflexivity.
    - simpl. apply lookup_insert_ne. discriminate.
    - unfold transcoded. simpl. unfold bench_popen. simpl.
      apply lookup_insert_ne. vm_compute. discriminate. }
  split; [exact Htools|].
  destruct (@run_tests_log_mirrors_console (bench true true) bench_session power_on Htools)
    as (stamps & lines & Hlen & Hconsole & Hlog).
  exists stamps, lines. split; [exact Hlen|]. split; [exact Hconsole|exact Hlog].
Defined.

(** * Sessions and their files *)

(** X2.  The three paths of a session are built from the directories and
    the second of construction only, not from the device: two sessions
    constructed within one second, for whatever cameras, share their image,
    video and log paths, and the later constructor replaces whatever the log
    held by its own header. *)
Theorem sessions_of_one_second_collide `{Platform}
    (dev1 dev2 : string) (fps1 duration1 fps2 duration2 : Z)
    (output_dir log_dir : string) (m1 m2 : Machine) :
  clock (world m1) = clock (world m2) ->
  exists s1 s2 m1' m2',
    CameraTests.init dev1 fps1 duration1 output_dir log_dir m1 = (m1', Return s1)
    /\ CameraTests.init dev2 fps2 duration2 output_dir log_dir m2 = (m2', Return s2)
    /\ CameraTests.image_path s1 = CameraTests.image_path s2
    /\ CameraTests.video_path s1 = CameraTests.video_path s2
    /\ CameraTests.log_path s1 = CameraTests.log_path s2
    /\ files (world m2') !! CameraTests.log_path s1
       = Some (CameraTests.header_line (CameraTests.timestamp s2) dev2 +:+ nl
               +:+ CameraTests.header_rule +:+ nl).
Proof.
  intros Hclock.
  destruct (CameraTests.init dev1 fps1 duration1 output_dir log_dir m1) as [m1' r1] eqn:H1.
  destruct (CameraTests.init dev2 fps2 duration2 output_dir log_dir m2) as [m2' r2] eqn:H2.
  injection H1 as <- <-. injection H2 as <- <-.
  do 4 eexists. split; [reflexivity|]. split; [reflexivity|].
  cbn [CameraTests.image_path CameraTests.video_path CameraTests.log_path
       CameraTests.timestamp world files].
  rewrite Hclock. repeat split. apply lookup_insert_eq.
Qed.

(** X2 on the bench: a second session at the same clock value. *)
Lemma bench_sessions_collide :
  clock (world power_on) = clock (world framed)
  /\ exists s1 s2 m1' m2',
       @CameraTests.init (bench true true) "/dev/video0" 30 5 "captures" "logs" power_on
       = (m1', Return s1)
       /\ @CameraTests.init (bench true true) "/dev/video1" 30 5 "captures" "logs" framed
          = (m2', Return s2)
       /\ CameraTests.log_path s1 = CameraTests.log_path s2.
Proof.
  assert (clock (world power_on) = clock (world framed)) as Hclock by reflexivity.
  split; [exact Hclock|].
  destruct (@sessions_of_one_second_collide (bench true true) "/dev/video0" "/dev/video1"
              30 5 30 5 "captures" "logs" power_on framed Hclock)
    as (s1 & s2 & m1' & m2' & H1 & H2 & _ & _ & Hlog & _).
  by exists s1, s2, m1', m2'.
Defined.

(** X3.  A session as the constructor returns it keeps its three files
    apart (the log is neither artifact, and the image is not the video),
    and the controller checks and returns the paths the runner polls and
    probes.  The image path is the last argument of the argument list
    ffmpeg is started with; the video path is the last text of the command
    line handed to the shell, appended as it is, without quoting. *)
Theorem constructed_session_paths `{Platform}
    (camera_device : string) (fps duration : Z) (output_dir log_dir : string) (m : Machine) :
  exists self m',
    CameraTests.init camera_device fps duration output_dir log_dir m = (m', Return self)
    /\ CameraTests.log_path self <> CameraTests.image_path self
    /\ CameraTests.log_path self <> CameraTests.video_path self
    /\ CameraTests.image_path self <> CameraTests.video_path self
    /\ (forall m0,
          let ran :=
            subprocess_run
              ["ffmpeg"; "-y"; "-f"; "video4linux2"; "-i"; CameraTests.camera_device self;
               "-frames:v"; "1"; CameraTests.image_path self] (world m0) in
          CameraController.capture_image (CameraTests.camera self) (image_file self) m0
          = (mkMachine ran.1 (console m0),
             Return (if returncode ran.2 =? 0
                     then CameraTests.image_path self else stderr ran.2)))
    /\ (forall m0,
          let after :=
            popen_communicate
              ("/usr/bin/ffmpeg -f v4l2 -input_format mjpeg -video_size 640x480"
               +:+ " -framerate 30 -t " +:+ pretty (CameraTests.duration self)
               +:+ " -i " +:+ CameraTests.camera_device self
               +:+ " -c:v libx264 -preset ultrafast -pix_fmt yuv420p "
               +:+ CameraTests.video_path self) (world m0) in
          CameraController.record_video (CameraTests.camera self)
            (CameraTests.duration self) (video_file self) m0
          = (mkMachine after.1 (console m0),
             Return (if path_exists after.1 (CameraTests.video_path self)
                        && nonzero_size after.1 (CameraTests.video_path self)
                     then CameraTests.video_path self
                     else CameraController.record_failure after.2.1 after.2.2))).
Proof.
  destruct (CameraTests.init camera_device fps duration output_dir log_dir m)
    as [m' r] eqn:Hinit.
  pose proof Hinit as Hrun. injection Hinit as <- <-.
  do 2 eexists. split; [reflexivity|].
  match goal with |- ?lp <> _ /\ _ =>
    match lp with CameraTests.log_path ?s => set (self := s) end end.
  assert (as_constructed self) as Hself by (by repeat split).
  destruct (constructed_paths_distinct self Hself) as [Hvideo Himage].
  split; [exact Himage|]. split; [exact Hvideo|]. split; [|split].
  - destruct Hself as (Hi & Hv & _ & _).
    assert (forall ext, ext <> "" -> CameraTests.timestamp self +:+ ext <> "") as Hne
      by (intros ext Hext; by destruct (CameraTests.timestamp self)).
    intros Heq.
    assert (last_char (CameraTests.image_path self) = Some "g"%char) as Hg.
    { rewrite Hi, last_char_join by discriminate.
      rewrite last_char_app by by apply Hne. apply last_char_suffix. }
    assert (last_char (CameraTests.video_path self) = Some "4"%char) as H4.
    { rewrite Hv, last_char_join by discriminate.
      rewrite last_char_app by by apply Hne. apply last_char_suffix. }
    rewrite Heq in Hg. congruence.
  - intros m0. cbv zeta.
    unfold CameraController.capture_image, mbind, M_bind, bind, external.
    change (os_path_join (CameraController.output_dir (CameraTests.camera self))
              (image_file self)) with (CameraTests.image_path self).
    change (CameraController.device (CameraTests.camera self))
      with (CameraTests.camera_device self).
    by destruct (subprocess_run _ (world m0)) as [w ran].
  - intros m0. cbv zeta. rewrite controller_record_video_run.
    unfold recording_result, transcoded.
    change (os_path_join (CameraController.output_dir (CameraTests.camera self))
              (video_file self)) with (CameraTests.video_path self).
    reflexivity.
Qed.

Section ImagePhase.
Context `{Platform}.
Implicit Types (self : CameraTests.t) (m : Machine).

Lemma image_ready_log_world self message w :
  CameraTests.log_path self <> CameraTests.image_path self ->
  CameraTests.image_ready self (log_world self message w) = CameraTests.image_ready self w.
Proof.
  intros Hne. unfold CameraTests.image_ready, path_exists, nonzero_size.
  by rewrite log_world_other.
Qed.

Lemma test_image_validity_run self m :
  CameraTests.test_image_validity self m
  = (m, Return (decodes (files (world m) !! CameraTests.image_path self))).
Proof.
  unfold CameraTests.test_image_validity, decodes, mbind, M_bind, bind, get_world; simpl.
  by destruct (imread IMREAD_COLOR _).
Qed.

(** A check that may log one line before it answers. *)
Lemma test_image_resolution_by_bytes self m :
  exists lines w,
    emits (CameraTests.test_image_resolution self 1280 720) m lines
      (resolution_verdict (files (world m) !! CameraTests.image_path self))
      (mkMachine w (console m ++ lines))
    /\ silent lines
    /\ (w = world m
        \/ w = log_world self "Skipping resolution test: Image cannot be loaded." (world m))
    /\ (decodes (files (world m) !! CameraTests.image_path self) = false ->
        lines = ["Skipping resolution test: Image cannot be loaded."]).
Proof.
  unfold emits, CameraTests.test_image_resolution, resolution_verdict, decodes,
    mbind, M_bind, bind, get_world; simpl.
  destruct (imread IMREAD_COLOR _).
  - exists [], (world m). rewrite app_nil_r. destruct m; simpl.
    split; [by split|]. split; [reflexivity|]. split; [by left|discriminate].
  - exists ["Skipping resolution test: Image cannot be loaded."],
      (log_world self "Skipping resolution test: Image cannot be loaded." (world m)).
    split; [by split|]. split; [reflexivity|]. split; [by right|reflexivity].
Qed.

Lemma test_image_brightness_by_bytes self m :
  exists lines w,
    emits (CameraTests.test_image_brightness self) m lines
      (brightness_verdict (files (world m) !! CameraTests.image_path self))
      (mkMachine w (console m ++ lines))
    /\ silent lines.
Proof.
  unfold emits, CameraTests.test_image_brightness, brightness_verdict,
    mbind, M_bind, bind, get_world; simpl.
  destruct (imread IMREAD_GRAYSCALE _).
  - exists [], (world m). rewrite app_nil_r. destruct m; simpl. by split.
  - do 2 eexists. split; [by split|reflexivity].
Qed.

(** The image phase, verdict by verdict, from the bytes it starts with. *)
Lemma run_image_tests_by_bytes self m :
  CameraTests.log_path self <> CameraTests.image_path self ->
  let bytes := files (world m) !! CameraTests.image_path self in
  exists lines m',
    emits (CameraTests.run_image_tests self) m lines tt m'
    /\ List.filter is_verdict lines
       = image_verdicts (CameraTests.image_ready self (world m)) (decodes bytes)
           (resolution_verdict bytes) (brightness_verdict bytes)
    /\ (decodes bytes = false ->
        "Skipping resolution test: Image cannot be loaded." ∈ lines).
Proof.
  intros Hne bytes.
  pose proof (emits_log self "Running Image Tests..." m) as E0.
  set (m0 := mkMachine _ _) in E0.
  assert (files (world m0) !! CameraTests.image_path self = bytes) as B0
    by (unfold m0; cbn [world]; by rewrite log_world_other).
  pose proof (test_image_exists_emits self m0) as E1.
  assert (CameraTests.image_ready self (world m0) = CameraTests.image_ready self (world m))
    as R0 by (unfold m0; cbn [world]; by apply image_ready_log_world).
  rewrite R0 in E1.
  pose proof (emits_assert_test self (CameraTests.image_ready self (world m))
                "Image exists" m0) as A1.
  set (m1 := mkMachine _ _) in A1.
  assert (files (world m1) !! CameraTests.image_path self = bytes) as B1
    by (unfold m1; cbn [world]; by rewrite log_world_other).
  assert (emits (CameraTests.test_image_validity self) m1 [] (decodes bytes) m1) as E2.
  { split; [by rewrite test_image_validity_run, B1|by rewrite app_nil_r]. }
  pose proof (emits_assert_test self (decodes bytes) "Image is a valid JPEG file" m1) as A2.
  set (m2 := mkMachine _ _) in A2.
  assert (files (world m2) !! CameraTests.image_path self = bytes) as B2
    by (unfold m2; cbn [world]; by rewrite log_world_other).
  destruct (test_image_resolution_by_bytes self m2) as (l3 & w3 & E3 & S3 & W3 & X3).
  rewrite B2 in E3, X3. set (m3 := mkMachine w3 _) in E3.
  assert (files (world m3) !! CameraTests.image_path self = bytes) as B3.
  { unfold m3; cbn [world]. destruct W3 as [Hw|Hw]; rewrite Hw; [exact B2|by rewrite log_world_other]. }
  pose proof (emits_assert_test self (resolution_verdict bytes)
                "Image resolution is correct" m3) as A3.
  set (m3' := mkMachine _ _) in A3.
  assert (files (world m3') !! CameraTests.image_path self = bytes) as B3'
    by (unfold m3'; cbn [world]; by rewrite log_world_other).
  destruct (test_image_brightness_by_bytes self m3') as (l4 & w4 & E4 & S4).
  rewrite B3' in E4. set (m4 := mkMachine w4 _) in E4.
  pose proof (emits_assert_test self (brightness_verdict bytes)
                "Image brightness is acceptable" m4) as A4.
  set (m4' := mkMachine _ _) in A4.
  eexists _, m4'. split; [|split].
  - unfold CameraTests.run_image_tests.
    eapply emits_bind; [exact E0|].
    eapply emits_bind; [exact E1|]. eapply emits_bind; [exact A1|].
    eapply emits_bind; [exact E2|]. eapply emits_bind; [exact A2|].
    eapply emits_bind; [exact E3|]. eapply emits_bind; [exact A3|].
    eapply emits_bind; [exact E4|]. exact A4.
  - rewrite !List.filter_app. unfold silent in S3, S4. rewrite S3, S4. simpl.
    rewrite !is_verdict_verdict_line. reflexivity.
  - intros Hno. rewrite (X3 Hno), !elem_of_app, !elem_of_cons. tauto.
Qed.

End ImagePhase.

(** X4.  For a session whose log is not its image file, the four image
    verdicts of one image phase are functions of the bytes of the image file
    at its start: non-empty, decodable, 1280x720, brightness in band.  Hence
    a PASS for the resolution never follows a FAIL for validity, and an
    image that does not decode also leaves the line that the resolution
    test was skipped. *)
Theorem image_phase_verdicts_by_bytes `{Platform} (self : CameraTests.t) (m : Machine) :
  as_constructed self ->
  let bytes := files (world m) !! CameraTests.image_path self in
  exists lines m',
    CameraTests.run_image_tests self m = (m', Return tt)
    /\ console m' = console m ++ lines
    /\ List.filter is_verdict lines
       = image_verdicts (CameraTests.image_ready self (world m)) (decodes bytes)
           (resolution_verdict bytes) (brightness_verdict bytes)
    /\ (resolution_verdict bytes = true -> decodes bytes = true)
    /\ (decodes bytes = false ->
        "Skipping resolution test: Image cannot be loaded." ∈ lines).
Proof.
  intros Hself bytes.
  destruct (constructed_paths_distinct self Hself) as [_ Hne].
  destruct (run_image_tests_by_bytes self m Hne) as (lines & m' & [Hrun Hout] & Hf & Hskip).
  exists lines, m'. split; [exact Hrun|]. split; [exact Hout|]. split; [exact Hf|].
  split; [|exact Hskip].
  unfold resolution_verdict, decodes. fold bytes. by destruct (imread IMREAD_COLOR bytes).
Qed.

(** X4 on the bench: the frame on disk passes all four. *)
Lemma bench_image_phase :
  as_constructed bench_session
  /\ List.filter is_verdict
       (console (@CameraTests.run_image_tests (bench true true) bench_session framed).1)
     = image_verdicts true true true true.
Proof.
  assert (as_constructed bench_session) as Hself by (by repeat split).
  split; [exact Hself|].
  destruct (@image_phase_verdicts_by_bytes (bench true true) bench_session framed Hself)
    as (lines & m' & Hrun & Hout & Hf & _).
  rewrite Hrun. simpl. rewrite Hout. simpl. rewrite Hf. vm_compute. reflexivity.
Defined.

Section PollResult.
Context `{Platform}.
Implicit Types (self : CameraTests.t) (m : Machine).

(** One turn of the loop. *)
Lemma poll_step self attempt rest m :
  let m0 := mkMachine (time_sleep 1 (world m)) (console m) in
  CameraTests.poll self (attempt :: rest) m
  = if CameraTests.image_ready self (world m0)
    then (mkMachine (log_world self "Image captured successfully." (world m0))
            (console m0 ++ ["Image captured successfully."]), Return true)
    else CameraTests.poll self rest
           (mkMachine (log_world self (retry_line attempt) (world m0))
              (console m0 ++ [retry_line attempt])).
Proof.
  cbv zeta. cbn [CameraTests.poll].
  unfold mbind at 1, M_bind at 1, bind at 1, external at 1. cbn [fst snd world console].
  unfold mbind at 1, M_bind at 1, bind at 1, get_world at 1. cbn [world].
  destruct (CameraTests.image_ready self (time_sleep 1 (world m))); reflexivity.
Qed.

(** A loop that answers True leaves the image in place. *)
Lemma poll_true_ready self attempts m :
  CameraTests.log_path self <> CameraTests.image_path self ->
  (CameraTests.poll self attempts m).2 = Return true ->
  CameraTests.image_ready self (world (CameraTests.poll self attempts m).1) = true.
Proof.
  intros Hne. revert m. induction attempts as [|attempt rest IH]; intros m.
  - cbn [CameraTests.poll]. unfold mbind at 1, M_bind at 1, bind at 1.
    rewrite log_run. discriminate.
  - rewrite poll_step. cbv zeta. cbn [world].
    destruct (CameraTests.image_ready self (time_sleep 1 (world m))) eqn:Hready.
    + intros _. cbn [fst world]. by rewrite image_ready_log_world.
    + apply IH.
Qed.

Lemma capture_image_run self m :
  CameraTests.capture_image self m
  = CameraTests.poll self (seq 0 3)
      (CameraController.capture_image (CameraTests.camera self) (image_file self)
         (CameraTests.log self
            ("Capturing an image on " +:+ CameraTests.camera_device self +:+ "...") m).1).1.
Proof.
  unfold CameraTests.capture_image.
  erewrite bind_return by apply log_run. cbn [fst].
  destruct (controller_capture_image_emits (CameraTests.camera self) (image_file self)
              (mkMachine
                 (log_world self
                    ("Capturing an image on " +:+ CameraTests.camera_device self +:+ "...")
                    (world m))
                 (console m
                  ++ ["Capturing an image on " +:+ CameraTests.camera_device self +:+ "..."])))
    as [r [Hrun _]].
  erewrite bind_return by exact Hrun. reflexivity.
Qed.

End PollResult.

(** X5.  Whether [capture_image] of the runner answers True is decided by
    the three polls alone: the string the controller returned (a path or
    ffmpeg's stderr) is not looked at.  When the first poll already finds
    the file, the method sleeps once and prints the capture line and the
    success line only. *)
Theorem capture_image_decided_by_polls `{Platform} (self : CameraTests.t) (m : Machine) :
  let m1 := (CameraTests.log self
               ("Capturing an image on " +:+ CameraTests.camera_device self +:+ "...") m).1 in
  let captured := CameraController.capture_image (CameraTests.camera self)
                    (image_file self) m1 in
  (CameraTests.capture_image self m).2
  = Return (negb (never_ready self (seq 0 3) (world captured.1)))
  /\ (CameraTests.image_ready self (time_sleep 1 (world captured.1)) = true ->
      CameraTests.capture_image self m
      = (mkMachine
           (log_world self "Image captured successfully." (time_sleep 1 (world captured.1)))
           (console m
            ++ ["Capturing an image on " +:+ CameraTests.camera_device self +:+ "...";
                "Image captured successfully."]),
         Return true)).
Proof.
  cbv zeta. split.
  - destruct (capture_image_emits self m) as (lines & m' & [Hrun _] & _).
    by rewrite Hrun.
  - intros Hready. rewrite capture_image_run. cbn [seq]. rewrite poll_step.
    cbv zeta. cbn [world].
    rewrite Hready. f_equal. f_equal. cbn [console].
    destruct (controller_capture_image_emits (CameraTests.camera self) (image_file self)
                (CameraTests.log self
                   ("Capturing an image on " +:+ CameraTests.camera_device self +:+ "...")
                   m).1) as [r [_ Hconsole]].
    rewrite Hconsole, app_nil_r, log_run. cbn [fst console]. by rewrite <- app_assoc.
Qed.

(** X5 on the bench: the camera exits with status 0 and the frame is there
    at the first poll. *)
Lemma bench_first_poll_succeeds :
  @CameraTests.capture_image (bench true true) bench_session power_on
  = ((@CameraTests.capture_image (bench true true) bench_session power_on).1, Return true)
  /\ console (@CameraTests.capture_image (bench true true) bench_session power_on).1
     = ["Capturing an image on /dev/video0..."; "Image captured successfully."].
Proof.
  destruct (@capture_image_decided_by_polls (bench true true) bench_session power_on)
    as [_ Hfirst].
  rewrite Hfirst by (vm_compute; reflexivity).
  split; reflexivity.
Defined.

(** X6.  In a run of a session as the constructor builds it, the check
    "Image exists" cannot fail: it is only reached after a poll found the
    file, and only log entries are written in between.  The verdict lines
    of a run are the four image verdicts with a PASS first, or none, then
    the four video verdicts. *)
Theorem image_exists_never_fails `{Platform} (self : CameraTests.t) (m : Machine) :
  as_constructed self ->
  fps_probe_contained self ->
  exists m' lines captured i2 i3 i4 v1 v2 v3 v4,
    CameraTests.run_tests self m = (m', Return tt)
    /\ console m' = console m ++ lines
    /\ List.filter is_verdict lines
       = (if captured : bool then image_verdicts true i2 i3 i4 else [])
         ++ [CameraTests.verdict_line v1 "Video file exists";
             CameraTests.verdict_line v2 "Video is a valid file";
             CameraTests.verdict_line v3 "Video FPS is correct";
             CameraTests.verdict_line v4 "Audio track detected in video"]
    /\ "FAIL: Image exists" ∉ lines.
Proof.
  intros Hself Hc.
  destruct (constructed_paths_distinct self Hself) as [_ Hne].
  pose proof (emits_log self
    ("Running Tests on Camera: " +:+ CameraTests.camera_device self) m) as E0.
  set (m0 := mkMachine _ _) in E0.
  destruct (capture_image_emits self m0) as (cap & m1 & E1 & S1 & _).
  set (captured := negb _) in E1.
  assert (captured = true -> CameraTests.image_ready self (world m1) = true) as Hready.
  { intros Hcap. destruct E1 as [Hrun _]. rewrite Hcap in Hrun.
    assert (m1 = (CameraTests.capture_image self m0).1) as -> by by rewrite Hrun.
    rewrite capture_image_run. apply poll_true_ready; [exact Hne|].
    rewrite <- capture_image_run. by rewrite Hrun. }
  assert (exists m2 phase i2 i3 i4,
    emits (if negb captured
           then CameraTests.log self "Skipping image tests due to failed capture."
           else CameraTests.run_image_tests self) m1 phase tt m2
    /\ List.filter is_verdict phase = (if captured then image_verdicts true i2 i3 i4 else []))
    as (m2 & phase & i2 & i3 & i4 & E2 & F2).
  { destruct captured; simpl.
    - destruct (run_image_tests_by_bytes self m1 Hne) as (l & m2 & E & F & _).
      rewrite (Hready eq_refl) in F. eexists m2, l, _, _, _. split; [exact E|exact F].
    - eexists _, _, true, true, true. split; [apply emits_log|reflexivity]. }
  destruct (run_video_tests_emits self m2 Hc) as (m3 & v1 & v2 & v3 & v4 & E3 & _).
  pose proof (emits_log self "Test session completed." m3) as E4.
  set (m4 := mkMachine _ _) in E4.
  assert (emits (CameraTests.run_tests self) m
            (["Running Tests on Camera: " +:+ CameraTests.camera_device self]
             ++ cap ++ phase ++ video_phase self v1 v2 v3 v4 ++ ["Test session completed."])
            tt m4) as [Hrun Hout].
  { unfold CameraTests.run_tests.
    eapply emits_bind; [exact E0|]. eapply emits_bind; [exact E1|].
    eapply emits_bind; [exact E2|]. eapply emits_bind; [exact E3|]. exact E4. }
  assert (List.filter is_verdict
            (["Running Tests on Camera: " +:+ CameraTests.camera_device self]
             ++ cap ++ phase ++ video_phase self v1 v2 v3 v4 ++ ["Test session completed."])
          = (if captured then image_verdicts true i2 i3 i4 else [])
            ++ [CameraTests.verdict_line v1 "Video file exists";
                CameraTests.verdict_line v2 "Video is a valid file";
                CameraTests.verdict_line v3 "Video FPS is correct";
                CameraTests.verdict_line v4 "Audio track detected in video"]) as Hfilter.
  { rewrite !List.filter_app, F2. unfold silent in S1. rewrite S1.
    unfold video_phase. cbn [List.filter app].
    rewrite !is_verdict_verdict_line. cbn. by rewrite app_nil_r. }
  eexists m4, _, captured, i2, i3, i4, v1, v2, v3, v4.
  split; [exact Hrun|]. split; [exact Hout|]. split; [exact Hfilter|].
  intros Hin.
  assert ("FAIL: Image exists" ∈ List.filter is_verdict
            (["Running Tests on Camera: " +:+ CameraTests.camera_device self]
             ++ cap ++ phase ++ video_phase self v1 v2 v3 v4 ++ ["Test session completed."]))
    as Hin'.
  { apply list_elem_of_In, List.filter_In. split; [by apply list_elem_of_In|reflexivity]. }
  rewrite Hfilter in Hin'. clear -Hin'.
  destruct captured, i2, i3, i4, v1, v2, v3, v4;
    vm_compute in Hin'; repeat (apply elem_of_cons in Hin' as [Hin'|Hin']; [discriminate|]);
    by apply elem_of_nil in Hin'.
Qed.

(** X6 on the bench. *)
Lemma bench_image_exists_passes :
  as_constructed bench_session
  /\ @fps_probe_contained (bench true false) bench_session
  /\ "FAIL: Image exists"
     ∉ console (@CameraTests.run_tests (bench true false) bench_session power_on).1.
Proof.
  assert (as_constructed bench_session) as Hself by (by repeat split).
  assert (@fps_probe_contained (bench true false) bench_session) as Hc by bench_contained.
  split; [exact Hself|]. split; [exact Hc|].
  destruct (@image_exists_never_fails (bench true false) bench_session power_on Hself Hc)
    as (m' & lines & captured & i2 & i3 & i4 & v1 & v2 & v3 & v4 & Hrun & Hout & _ & Hnot).
  rewrite Hrun. cbn [fst]. rewrite Hout. exact Hnot.
Defined.

Section RecordRun.
Context `{Platform}.

(** The wrapper is the start entry, the controller's run and the final
    entry, in that order. *)
Lemma record_video_result_run (self : CameraTests.t) (m : Machine) :
  CameraTests.record_video self m
  = CameraTests.log self "Recording complete."
      (mkMachine
         (transcoded (CameraTests.camera self) (CameraTests.duration self) (video_file self)
            (world (CameraTests.log self (start_line self) m).1)).1
         (console (CameraTests.log self (start_line self) m).1))
  /\ (CameraTests.record_video self m).2 = Return tt.
Proof.
  assert (CameraTests.record_video self m
          = CameraTests.log self "Recording complete."
              (mkMachine
                 (transcoded (CameraTests.camera self) (CameraTests.duration self)
                    (video_file self)
                    (world (CameraTests.log self (start_line self) m).1)).1
                 (console (CameraTests.log self (start_line self) m).1))) as Heq.
  { unfold CameraTests.record_video. fold (start_line self). fold (video_file self).
    unfold mbind at 1, M_bind at 1, bind at 1. rewrite (log_run self (start_line self) m).
    unfold mbind at 1, M_bind at 1, bind at 1. rewrite controller_record_video_run.
    reflexivity. }
  split; [exact Heq|]. by rewrite Heq.
Qed.

End RecordRun.

(** X7.  The existence checks differ: "Image exists" wants a file of
    non-zero size, "Video file exists" only a file.  When the transcoder
    leaves an empty file the controller reports a failure, the runner logs
    "Recording complete." and the first video check still passes; an empty
    image fails its check. *)
Theorem empty_recording_passes_existence `{Platform} (self : CameraTests.t) (m : Machine) :
  as_constructed self ->
  fps_probe_contained self ->
  let m1 := (CameraTests.log self (start_line self) m).1 in
  let recorded :=
    CameraController.record_video (CameraTests.camera self) (CameraTests.duration self)
      (video_file self) m1 in
  files (world recorded.1) !! CameraTests.video_path self = Some "" ->
  (exists out err, recorded.2 = Return (CameraController.record_failure out err))
  /\ (exists m' v2 v3 v4,
        emits (CameraTests.run_video_tests self) m (video_phase self true v2 v3 v4) tt m')
  /\ (forall m0,
        files (world m0) !! CameraTests.image_path self = Some "" ->
        CameraTests.test_image_exists self m0 = (m0, Return false)).
Proof.
  intros Hself Hc. cbv zeta. rewrite controller_record_video_run. cbn [fst snd world].
  set (m1 := (CameraTests.log self (start_line self) m).1).
  set (after := transcoded (CameraTests.camera self) (CameraTests.duration self)
                  (video_file self) (world m1)).
  intros Hempty.
  destruct (constructed_paths_distinct self Hself) as [Hne _].
  destruct Hself as (_ & Hvideo & _ & Hcam).
  split; [|split].
  - exists after.2.1, after.2.2. f_equal. unfold recording_result. fold after.
    assert (os_path_join (CameraController.output_dir (CameraTests.camera self))
              (video_file self) = CameraTests.video_path self) as ->
      by (rewrite Hvideo, Hcam; reflexivity).
    unfold nonzero_size. rewrite Hempty. by rewrite andb_false_r.
  - destruct (run_video_tests_emits self m Hc) as (m' & v1 & v2 & v3 & v4 & E & Hv1).
    exists m', v2, v3, v4.
    assert (v1 = true) as <-; [|exact E].
    destruct (record_video_result_run self m) as [Heq _].
    rewrite Hv1, Heq, log_run. cbn [fst world]. unfold path_exists.
    rewrite !log_world_other by exact Hne. fold m1. fold after. rewrite Hempty.
    by apply bool_decide_eq_true_2.
  - intros m0 Himage.
    unfold CameraTests.test_image_exists, mbind, M_bind, bind, get_world, nonzero_size.
    cbn [fst snd]. rewrite Himage. by rewrite andb_false_r.
Qed.

(** X7 on the bench: a recorder that writes nothing into its file. *)
Lemma bench_empty_recording :
  as_constructed bench_session
  /\ @fps_probe_contained bench_empty_recorder bench_session
  /\ exists m' v2 v3 v4,
       emits (@CameraTests.run_video_tests bench_empty_recorder bench_session) power_on
         (video_phase bench_session true v2 v3 v4) tt m'.
Proof.
  assert (as_constructed bench_session) as Hself by (by repeat split).
  assert (@fps_probe_contained bench_empty_recorder bench_session) as Hc by bench_contained.
  split; [exact Hself|]. split; [exact Hc|].
  destruct (@empty_recording_passes_existence bench_empty_recorder bench_session power_on
              Hself Hc) as (_ & Hpass & _).
  - vm_compute. reflexivity.
  - exact Hpass.
Defined.

(** * The ways into a session *)

Section Selection.
Context `{Platform}.
Implicit Types (m : Machine) (session : string -> M unit).

(** Up to the choice of a device. *)
Lemma main_lists_first session environ stdin m :
  detected m <> [] ->
  main_with session environ stdin m
  = ((match getenv_truthy environ "CAMERA_DEVICE" with
      | Some dev =>
          print ("Using camera from environment variable: " +:+ dev);;
          mret dev
      | None =>
          match getenv_truthy environ "RUNNING_IN_DOCKER" with
          | Some _ =>
              let dev := default "" (head (detected m)) in
              print ("Running in Docker: Auto-selected " +:+ dev);;
              mret dev
          | None =>
              line ← input prompt stdin;
              let choice := py_strip line in
              if String.eqb (lower choice) "all" then
                for_each (detected m) session;;
                raise (SystemExit 0)
              else
                try_except is_ValueError
                  (n ← lift (py_int choice);
                   let cam_index := n - 1 in
                   if (cam_index <? 0) || (cam_index >=? Z.of_nat (length (detected m))) then
                     print "Invalid selection.";;
                     raise (SystemExit 1)
                   else
                     mret (default "" (detected m !! Z.to_nat cam_index)))
                  (fun e =>
                     print "Invalid input.";;
                     raise (SystemExit 1))
          end
      end) ≫= session) (listed m).
Proof.
  intros Hsome. unfold main_with.
  erewrite bind_return by apply list_cameras_run.
  rewrite bool_decide_eq_false_2 by exact Hsome.
  erewrite bind_return by reflexivity.
  erewrite bind_return by reflexivity.
  erewrite bind_return; cycle 1.
  { unfold print_menu. apply for_each_print. }
  cbn [world console]. fold (menu (detected m)). rewrite <- app_assoc. reflexivity.
Qed.

Lemma main_override session environ stdin m dev :
  detected m <> [] ->
  getenv_truthy environ "CAMERA_DEVICE" = Some dev ->
  main_with session environ stdin m
  = session dev (said ("Using camera from environment variable: " +:+ dev) (listed m)).
Proof.
  intros Hsome Hdev. rewrite main_lists_first by exact Hsome. rewrite Hdev.
  erewrite bind_return; [reflexivity|].
  erewrite bind_return by reflexivity. reflexivity.
Qed.

Lemma main_docker session environ stdin m flag :
  detected m <> [] ->
  getenv_truthy environ "CAMERA_DEVICE" = None ->
  getenv_truthy environ "RUNNING_IN_DOCKER" = Some flag ->
  main_with session environ stdin m
  = session (default "" (head (detected m)))
      (said ("Running in Docker: Auto-selected " +:+ default "" (head (detected m)))
         (listed m)).
Proof.
  intros Hsome Hdev Hdocker. rewrite main_lists_first by exact Hsome.
  rewrite Hdev, Hdocker. cbv zeta.
  erewrite bind_return; [reflexivity|].
  erewrite bind_return by reflexivity. reflexivity.
Qed.

Lemma main_all session environ typed m :
  detected m <> [] ->
  interactive environ ->
  lower (py_strip typed) = "all" ->
  main_with session environ (Some typed) m
  = (for_each (detected m) session;; raise (SystemExit 0)) (said prompt (listed m)).
Proof.
  intros Hsome [Hdev Hdocker] Hall. rewrite main_lists_first by exact Hsome.
  rewrite Hdev, Hdocker. unfold input.
  assert (String.eqb (lower (py_strip typed)) "all" = true) as Heq by by apply String.eqb_eq.
  unfold mbind at 1, M_bind at 1, bind at 1.
  erewrite bind_return; cycle 1.
  { erewrite bind_return by reflexivity. reflexivity. }
  cbv zeta. rewrite Heq.
  change ({| world := world (listed m); console := console (listed m) ++ [prompt] |})
    with (said prompt (listed m)).
  unfold mbind, M_bind, bind, raise.
  destruct (for_each (detected m) session (said prompt (listed m))) as [m1 [[]|e]];
    reflexivity.
Qed.

Lemma main_numbered session environ typed m n :
  detected m <> [] ->
  interactive environ ->
  lower (py_strip typed) <> "all" ->
  py_int (py_strip typed) = Return n ->
  1 <= n <= Z.of_nat (length (detected m)) ->
  main_with session environ (Some typed) m
  = session (default "" (detected m !! Z.to_nat (n - 1))) (said prompt (listed m)).
Proof.
  intros Hsome [Hdev Hdocker] Hall Hparse Hrange. rewrite main_lists_first by exact Hsome.
  rewrite Hdev, Hdocker. unfold input.
  assert (String.eqb (lower (py_strip typed)) "all" = false) as Hneq
    by by apply String.eqb_neq.
  erewrite bind_return; [reflexivity|].
  erewrite bind_return; cycle 1.
  { erewrite bind_return by reflexivity. reflexivity. }
  cbv zeta. rewrite Hneq. unfold try_except, lift. rewrite Hparse.
  assert ((n - 1 <? 0) || (n - 1 >=? Z.of_nat (length (detected m))) = false) as Hin.
  { apply orb_false_iff. split; [apply Z.ltb_ge; lia|].
    rewrite Z.geb_leb. apply Z.leb_gt. lia. }
  unfold mbind, M_bind, bind. rewrite Hin. reflexivity.
Qed.

(** The prompt on a stdin at its end: EOFError leaves the script, after the
    prompt and before any refusal or session. *)
Lemma main_eof session environ m :
  detected m <> [] ->
  interactive environ ->
  main_with session environ None m = (said prompt (listed m), Raise EOFError).
Proof.
  intros Hsome [Hdev Hdocker]. rewrite main_lists_first by exact Hsome.
  rewrite Hdev, Hdocker. unfold input.
  erewrite bind_raise; [reflexivity|].
  erewrite bind_raise; [reflexivity|].
  erewrite bind_return by reflexivity. reflexivity.
Qed.

End Selection.

(** X8.  With at least one camera listed, the environment selects the
    device without asking: a non-empty CAMERA_DEVICE is tested as it is
    (listed or not, whatever RUNNING_IN_DOCKER is and stdin holds), and
    otherwise a non-empty RUNNING_IN_DOCKER selects the first listed
    camera.  One line is printed after the list and the session starts. *)
Theorem environment_selects_device `{Platform}
    (environ : gmap string string) (stdin : option string) (m : Machine) :
  detected m <> [] ->
  (forall dev,
     getenv_truthy environ "CAMERA_DEVICE" = Some dev ->
     forall session,
       main_with session environ stdin m
       = session dev (said ("Using camera from environment variable: " +:+ dev) (listed m)))
  /\ (getenv_truthy environ "CAMERA_DEVICE" = None ->
      forall flag,
        getenv_truthy environ "RUNNING_IN_DOCKER" = Some flag ->
        exists first,
          head (detected m) = Some first
          /\ forall session,
               main_with session environ stdin m
               = session first
                   (said ("Running in Docker: Auto-selected " +:+ first) (listed m))).
Proof.
  intros Hsome. split.
  - intros dev Hdev session. by apply main_override.
  - intros Hdev flag Hdocker.
    destruct (detected m) as [|first rest] eqn:Hlist; [done|].
    exists first. split; [reflexivity|]. intros session.
    rewrite (main_docker session environ stdin m flag); [|by rewrite Hlist|done|done].
    by rewrite Hlist.
Qed.

(** X8 on the bench: a device that is not listed is tested all the same. *)
Lemma bench_override_is_not_checked :
  @detected (bench true true) power_on <> []
  /\ ("/dev/video9" ∉ @detected (bench true true) power_on)
  /\ (console (@main (bench true true) {["CAMERA_DEVICE" := "/dev/video9"]} None power_on).1)
     !! 4%nat
     = Some "Running Tests on Camera: /dev/video9".
Proof.
  assert (@detected (bench true true) power_on <> []) as Hsome
    by (vm_compute; discriminate).
  split; [exact Hsome|]. split.
  - vm_compute. intros Hin.
    repeat (apply elem_of_cons in Hin as [Hin|Hin]; [discriminate|]).
    by apply elem_of_nil in Hin.
  - destruct (@environment_selects_device (bench true true)
                {["CAMERA_DEVICE" := "/dev/video9"]} None power_on Hsome) as [Hdev _].
    unfold main. rewrite (Hdev "/dev/video9") by (vm_compute; reflexivity).
    vm_compute. reflexivity.
Defined.

Lemma for_each_app {A} (before after : list A) (body : A -> M unit) m m0 :
  for_each before body m = (m0, Return tt) ->
  for_each (before ++ after) body m = for_each after body m0.
Proof.
  revert m. induction before as [|x before IH]; intros m Hrun.
  - by injection Hrun as ->.
  - cbn [for_each app] in *.
    destruct (body x m) as [m1 [[]|e]] eqn:Hx.
    + erewrite bind_return in Hrun by exact Hx.
      erewrite bind_return by exact Hx. by apply IH.
    + erewrite bind_raise in Hrun by exact Hx. discriminate.
Qed.

(** X9.  Asked for a camera, an answer that reads [all] after trimming
    and lowering tests every listed camera in the order of the list and
    then leaves through [exit(0)]; a session that raises, after the
    sessions of the cameras before it returned, ends the script with its
    exception and the cameras after it are not tested. *)
Theorem all_tests_every_camera `{Platform}
    (environ : gmap string string) (typed : string) (m : Machine) :
  detected m <> [] ->
  interactive environ ->
  lower (py_strip typed) = "all" ->
  forall session,
    main_with session environ (Some typed) m
    = (for_each (detected m) session;; raise (SystemExit 0)) (said prompt (listed m))
    /\ ((forall cam m0, exists m1, session cam m0 = (m1, Return tt)) ->
        (main_with session environ (Some typed) m).2 = Raise (SystemExit 0))
    /\ (forall before cam rest m0 m1 e,
          detected m = before ++ cam :: rest ->
          for_each before session (said prompt (listed m)) = (m0, Return tt) ->
          session cam m0 = (m1, Raise e) ->
          main_with session environ (Some typed) m = (m1, Raise e)).
Proof.
  intros Hsome Hinter Hall session.
  pose proof (main_all session environ typed m Hsome Hinter Hall) as Hmain.
  split; [exact Hmain|]. split.
  - intros Hret. rewrite Hmain.
    assert (forall cams m0, exists m1, for_each cams session m0 = (m1, Return tt)) as Hloop.
    { induction cams as [|cam cams IH]; intros m0; [by eexists|].
      destruct (Hret cam m0) as [m1 H1]. destruct (IH m1) as [m2 H2].
      exists m2. cbn [for_each]. by erewrite bind_return by exact H1. }
    destruct (Hloop (detected m) (said prompt (listed m))) as [m1 H1].
    by erewrite bind_return by exact H1.
  - intros before cam rest m0 m1 e Hlist Hbefore Hraise. rewrite Hmain, Hlist.
    erewrite bind_raise; [reflexivity|].
    rewrite (for_each_app before (cam :: rest) session _ m0 Hbefore). cbn [for_each].
    by erewrite bind_raise by exact Hraise.
Qed.

(** X9 on the bench: both cameras are tested, then the script exits with 0. *)
Lemma bench_all_tests_both :
  @detected (bench true true) power_on <> []
  /\ @interactive ∅
  /\ lower (@py_strip (bench true true) " ALL ") = "all"
  /\ (@main (bench true true) ∅ (Some " ALL ") power_on).2 = Raise (SystemExit 0)
  /\ List.filter (fun line => startswith line "Running Tests on Camera")
       (console (@main (bench true true) ∅ (Some " ALL ") power_on).1)
     = ["Running Tests on Camera: /dev/video0"; "Running Tests on Camera: /dev/video1"].
Proof.
  assert (@detected (bench true true) power_on <> []) as Hsome
    by (vm_compute; discriminate).
  assert (@interactive ∅) as Hinter by (split; vm_compute; reflexivity).
  assert (lower (@py_strip (bench true true) " ALL ") = "all") as Hall
    by (vm_compute; reflexivity).
  split; [exact Hsome|]. split; [exact Hinter|]. split; [exact Hall|].
  destruct (@all_tests_every_camera (bench true true) ∅ " ALL " power_on Hsome Hinter Hall
              (@test_camera (bench true true))) as [Hmain _].
  unfold main. rewrite Hmain. split; vm_compute; reflexivity.
Defined.

(** X10.  Asked for a camera, a number between 1 and the length of the list
    selects the camera printed beside that number: the menu counts from 1
    and the index is the number less one. *)
Theorem number_selects_listed_camera `{Platform}
    (environ : gmap string string) (typed : string) (m : Machine) (n : Z) :
  detected m <> [] ->
  interactive environ ->
  lower (py_strip typed) <> "all" ->
  py_int (py_strip typed) = Return n ->
  1 <= n <= Z.of_nat (length (detected m)) ->
  exists cam,
    detected m !! Z.to_nat (n - 1) = Some cam
    /\ menu (detected m) !! Z.to_nat (n - 1)
       = Some (pretty (Z.to_nat n) +:+ ". " +:+ cam)
    /\ forall session,
         main_with session environ (Some typed) m = session cam (said prompt (listed m)).
Proof.
  intros Hsome Hinter Hall Hparse Hrange.
  destruct (detected m !! Z.to_nat (n - 1)) as [cam|] eqn:Hcam.
  2:{ apply lookup_ge_None in Hcam. lia. }
  exists cam. split; [reflexivity|]. split.
  - unfold menu. rewrite list_lookup_imap, Hcam. simpl.
    replace (Z.to_nat (n - 1) + 1)%nat with (Z.to_nat n) by lia. reflexivity.
  - intros session.
    rewrite (main_numbered session environ typed m n Hsome Hinter Hall Hparse Hrange).
    by rewrite Hcam.
Qed.

(** X10 on the bench: typing 2 selects the second camera. *)
Lemma bench_second_camera :
  @detected (bench true true) power_on <> []
  /\ @interactive ∅
  /\ lower (@py_strip (bench true true) "2") <> "all"
  /\ @py_int (bench true true) (@py_strip (bench true true) "2") = Return 2
  /\ 1 <= 2 <= Z.of_nat (length (@detected (bench true true) power_on))
  /\ exists cam,
       @menu (@detected (bench true true) power_on) !! 1%nat = Some ("2. " +:+ cam)
       /\ (console (@main (bench true true) ∅ (Some "2") power_on).1) !! 4%nat
          = Some ("Running Tests on Camera: " +:+ cam).
Proof.
  assert (@detected (bench true true) power_on <> []) as Hsome
    by (vm_compute; discriminate).
  assert (@interactive ∅) as Hinter by (split; vm_compute; reflexivity).
  assert (lower (@py_strip (bench true true) "2") <> "all") as Hall
    by (vm_compute; discriminate).
  assert (@py_int (bench true true) (@py_strip (bench true true) "2") = Return 2) as Hparse
    by (vm_compute; reflexivity).
  assert (1 <= 2 <= Z.of_nat (length (@detected (bench true true) power_on))) as Hrange
    by (vm_compute; split; discriminate).
  split; [exact Hsome|]. split; [exact Hinter|]. split; [exact Hall|].
  split; [exact Hparse|]. split; [exact Hrange|].
  destruct (@number_selects_listed_camera (bench true true) ∅ "2" power_on 2
              Hsome Hinter Hall Hparse Hrange) as (cam & Hcam & Hmenu & Hmain).
  exists cam. split; [exact Hmenu|].
  unfold main. rewrite Hmain.
  assert (cam = "/dev/video1") as -> by (vm_compute in Hcam; congruence).
  vm_compute. reflexivity.
Defined.

(** * The exit status *)

Section ExitStatus.
Context `{Platform}.
Implicit Types (m : Machine) (session : string -> M unit).

Lemma py_int_raises (s : string) e : py_int s = Raise e -> e = ValueError.
Proof.
  unfold py_int. destruct (_ && _).
  - destruct (int_signed _); [discriminate|by intros [= <-]].
  - destruct (int_other s); [discriminate|by intros [= <-]].
Qed.

(** A session on any device returns, whatever its checks find. *)
Lemma test_camera_returns (cam : string) m :
  prober_prints_ratios -> exists m', test_camera cam m = (m', Return tt).
Proof.
  intros Hfmt. unfold test_camera.
  destruct (CameraTests.init cam 30 5 "captures" "logs" m) as [m1 r] eqn:Hinit.
  pose proof Hinit as Hrun. injection Hinit as _ <-.
  erewrite bind_return by exact Hrun.
  match goal with |- exists _, CameraTests.run_tests ?s _ = _ => set (self := s) end.
  destruct (run_tests_emits self m1 (prober_contract_contains self Hfmt))
    as (m' & before & i1 & i2 & i3 & i4 & v1 & v2 & v3 & v4 & [Hr _] & _).
  by exists m'.
Qed.

Lemma main_none session environ stdin m :
  detected m = [] ->
  main_with session environ stdin m
  = (mkMachine (detection m).1 (console m ++ ["No cameras detected."]),
     Raise (SystemExit 1)).
Proof.
  intros Hnone. unfold main_with.
  erewrite bind_return by apply list_cameras_run. rewrite Hnone.
  erewrite bind_raise; [reflexivity|].
  rewrite bool_decide_eq_true_2 by reflexivity.
  erewrite bind_return by reflexivity. reflexivity.
Qed.

Lemma main_refused session environ typed m :
  startup_refused (detected m) environ typed ->
  (main_with session environ (Some typed) m).2 = Raise (SystemExit 1).
Proof.
  intros [Hnone|[[Hdev Hdocker] Hbad]]; [by rewrite main_none|].
  destruct (decide (detected m = [])) as [Hnone|Hsome]; [by rewrite main_none|].
  rewrite main_lists_first by exact Hsome. rewrite Hdev, Hdocker.
  erewrite bind_raise; [reflexivity|].
  apply (bad_choice_exits session (detected m) typed (listed m) Hbad).
Qed.

End ExitStatus.

(** X11.  The exit status of the script, for sessions that return (the
    tools run and the prober prints frame rates as ratios): it is 1 when
    startup is refused (no camera listed, or a bad answer to the prompt),
    1 when the prompt finds stdin at its end, where EOFError leaves the
    script after the prompt and without a refusal, and 0 in every other
    case, whatever the verdicts of the checks are. *)
Theorem exit_status_ignores_verdicts `{Platform}
    (environ : gmap string string) (stdin : option string) (m : Machine) :
  prober_prints_ratios ->
  (refused (detected m) environ stdin
   /\ (main environ stdin m).2 = Raise (SystemExit 1)
   /\ exit_status (main environ stdin m).2 = 1)
  \/ (prompt_at_eof (detected m) environ stdin
      /\ main environ stdin m = (said prompt (listed m), Raise EOFError)
      /\ exit_status (main environ stdin m).2 = 1)
  \/ (~ refused (detected m) environ stdin
      /\ ~ prompt_at_eof (detected m) environ stdin
      /\ exit_status (main environ stdin m).2 = 0).
Proof.
  intros Hfmt.
  assert (forall cam m0, exists m1, test_camera cam m0 = (m1, Return tt)) as Hret
    by (intros cam m0; by apply test_camera_returns).
  assert (forall cam m0, exit_status (test_camera cam m0).2 = 0) as Hzero
    by (intros cam m0; destruct (Hret cam m0) as [m1 ->]; reflexivity).
  destruct (decide (detected m = [])) as [Hnone|Hsome].
  { left. unfold main. rewrite (main_none _ _ _ _ Hnone).
    split; [|by split]. destruct stdin; [by left|exact Hnone]. }
  destruct (getenv_truthy environ "CAMERA_DEVICE") as [dev|] eqn:Hdev.
  { right. right. split; [|split].
    - destruct stdin; [|done]. intros [?|[[Hno _] _]]; [done|congruence].
    - intros (_ & [Hno _] & _). congruence.
    - unfold main. rewrite (main_override _ _ _ _ dev Hsome Hdev). apply Hzero. }
  destruct (getenv_truthy environ "RUNNING_IN_DOCKER") as [flag|] eqn:Hdocker.
  { right. right. split; [|split].
    - destruct stdin; [|done]. intros [?|[[_ Hno] _]]; [done|congruence].
    - intros (_ & [_ Hno] & _). congruence.
    - unfold main. rewrite (main_docker _ _ _ _ flag Hsome Hdev Hdocker). apply Hzero. }
  assert (interactive environ) as Hinter by by split.
  destruct stdin as [typed|].
  2:{ right. left. split; [by repeat split|].
      unfold main. rewrite (main_eof _ _ _ Hsome Hinter). by split. }
  assert (startup_refused (detected m) environ typed ->
          (main environ (Some typed) m).2 = Raise (SystemExit 1)
          /\ exit_status (main environ (Some typed) m).2 = 1) as Hone
    by (intros Hr; unfold main; by rewrite main_refused).
  assert (~ prompt_at_eof (detected m) environ (Some typed)) as Hanswered
    by (intros (_ & _ & Heof); discriminate).
  destruct (decide (lower (py_strip typed) = "all")) as [Hall|Hall].
  { right. right. split; [|split; [exact Hanswered|]].
    - intros [?|[_ [Hno _]]]; [done|by apply Hno].
    - unfold main. rewrite (main_all _ _ _ _ Hsome Hinter Hall).
      assert (forall cams m0, exists m1, for_each cams test_camera m0 = (m1, Return tt))
        as Hloop.
      { induction cams as [|cam cams IH]; intros m0; [by eexists|].
        destruct (Hret cam m0) as [m1 H1]. destruct (IH m1) as [m2 H2].
        exists m2. cbn [for_each]. by erewrite bind_return by exact H1. }
      destruct (Hloop (detected m) (said prompt (listed m))) as [m1 H1].
      by erewrite bind_return by exact H1. }
  destruct (py_int (py_strip typed)) as [n|e] eqn:Hparse.
  - destruct (decide (1 <= n <= Z.of_nat (length (detected m)))) as [Hin|Hout].
    + right. right. split; [|split; [exact Hanswered|]].
      * intros [?|[_ [_ Hbad]]]; [done|]. rewrite Hparse in Hbad. lia.
      * unfold main. rewrite (main_numbered _ _ _ _ n Hsome Hinter Hall Hparse Hin).
        apply Hzero.
    + assert (startup_refused (detected m) environ typed) as Hr.
      { right. split; [exact Hinter|]. split; [exact Hall|]. rewrite Hparse. lia. }
      left. split; [exact Hr|by apply Hone].
  - assert (startup_refused (detected m) environ typed) as Hr.
    { right. split; [exact Hinter|]. split; [exact Hall|]. rewrite Hparse.
      by rewrite (py_int_raises _ _ Hparse). }
    left. split; [exact Hr|by apply Hone].
Qed.

Section DeviceLines.
Context `{Platform}.

Lemma startswith_app (s p rest : string) :
  startswith s p = true -> startswith (s +:+ rest) p = true.
Proof.
  revert s. induction p as [|a p IH]; intros s; [reflexivity|].
  destruct s as [|b s]; [discriminate|].
  intros Hs. cbn [startswith] in Hs. apply andb_prop in Hs as [Hab Hp].
  rewrite append_cons. cbn [startswith]. by rewrite Hab, (IH s Hp).
Qed.

(** The first piece of a text is the text up to its first newline. *)
Lemma split_lines_head (s : string) :
  exists piece pieces tail, split_lines s = piece :: pieces /\ s = piece +:+ tail.
Proof.
  induction s as [|c s (piece & pieces & tail & Hsplit & Hs)].
  - by exists "", [], "".
  - simpl. destruct (Ascii.eqb c "010").
    + by exists "", (split_lines s), (String c s).
    + rewrite Hsplit. exists (String c piece), pieces, tail.
      split; [reflexivity|]. by rewrite append_cons, <- Hs.
Qed.

(** What a line holds, the text held. *)
Lemma contains_line (needle s line : string) :
  line ∈ split_lines s -> contains needle line = true -> contains needle s = true.
Proof.
  revert line. induction s as [|c s IH]; intros line.
  - cbn [split_lines]. intros Hin. apply elem_of_cons in Hin as [->|Hin]; [done|].
    by apply elem_of_nil in Hin.
  - cbn [split_lines]. destruct (Ascii.eqb c "010").
    + intros Hin Hline. apply elem_of_cons in Hin as [->|Hin].
      * cbn [contains] in Hline. rewrite orb_false_r in Hline.
        cbn [contains]. apply orb_true_iff. left.
        apply (startswith_app "" needle (String c s)). exact Hline.
      * cbn [contains]. apply orb_true_iff. right. by apply (IH line).
    + destruct (split_lines_head s) as (piece & pieces & tail & Hsplit & Hs).
      rewrite Hsplit. intros Hin Hline. apply elem_of_cons in Hin as [->|Hin].
      * cbn [contains] in Hline. apply orb_true_iff in Hline as [Hstart|Hrest].
        -- cbn [contains]. apply orb_true_iff. left. rewrite Hs.
           apply (startswith_app (String c piece) needle tail). exact Hstart.
        -- cbn [contains]. apply orb_true_iff. right. apply (IH piece); [|exact Hrest].
           rewrite Hsplit. by left.
      * cbn [contains]. apply orb_true_iff. right. apply (IH line); [|exact Hline].
        rewrite Hsplit. by right.
Qed.

End DeviceLines.

(** X12.  The list of cameras is read off the lines of v4l2-ctl's stdout
    that hold [/dev/video]: when the output holds that text nowhere (the
    tool printed nothing, or only to stderr), no camera is listed and the
    script prints "No cameras detected." and exits with 1, also when
    CAMERA_DEVICE names a device. *)
Theorem no_video_path_no_session `{Platform}
    (environ : gmap string string) (stdin : option string) (m : Machine) :
  contains "/dev/video" (stdout (detection m).2) = false ->
  detected m = []
  /\ forall session,
       main_with session environ stdin m
       = (mkMachine (detection m).1 (console m ++ ["No cameras detected."]),
          Raise (SystemExit 1)).
Proof.
  intros Hnone.
  assert (detected m = []) as Hdetected.
  { unfold detected.
    destruct (filter _ (split_lines (stdout (detection m).2))) as [|line lines] eqn:Hf;
      [reflexivity|].
    assert (line ∈ filter (fun line => contains "/dev/video" line = true)
              (split_lines (stdout (detection m).2))) as Hin by (rewrite Hf; by left).
    apply list_elem_of_filter in Hin as [Hline Hin].
    rewrite (contains_line _ _ _ Hin Hline) in Hnone. discriminate. }
  split; [exact Hdetected|]. intros session. by apply main_none.
Qed.

(** X11 on the bench: the first camera is chosen, two video checks fail,
    and the status is 0; with nothing to read at the prompt it is 1. *)
Lemma bench_failures_exit_zero :
  @prober_prints_ratios bench_rate_only
  /\ "FAIL: Video is a valid file"
     ∈ console (@main bench_rate_only ∅ (Some "1") power_on).1
  /\ exit_status (@main bench_rate_only ∅ (Some "1") power_on).2 = 0
  /\ exit_status (@main bench_rate_only ∅ None power_on).2 = 1.
Proof.
  assert (@prober_prints_ratios bench_rate_only) as Hfmt.
  { intros command content src Hrate. destruct content; vm_compute in Hrate.
    - injection Hrate as <-. exists (30, 1). reflexivity.
    - discriminate. }
  split; [exact Hfmt|]. split; [|split].
  - apply list_elem_of_lookup. exists 16%nat. vm_compute. reflexivity.
  - destruct (@exit_status_ignores_verdicts bench_rate_only ∅ (Some "1") power_on Hfmt)
      as [(_ & Hone & _)|[((_ & _ & Heof) & _)|(_ & _ & Hzero)]];
      [|discriminate|exact Hzero].
    vm_compute in Hone. discriminate.
  - destruct (@exit_status_ignores_verdicts bench_rate_only ∅ None power_on Hfmt)
      as [(Hnone & _)|[(_ & _ & Hone)|(_ & Hasked & _)]]; [|exact Hone|].
    + vm_compute in Hnone. discriminate.
    + exfalso. apply Hasked. split; [vm_compute; discriminate|].
      split; [split; vm_compute; reflexivity|reflexivity].
Defined.

(** X12 on the bench: no device path on stdout, and CAMERA_DEVICE set. *)
Lemma bench_no_devices_exits :
  contains "/dev/video" (stdout (@detection bench_no_devices power_on).2) = false
  /\ @main bench_no_devices {["CAMERA_DEVICE" := "/dev/video0"]} None power_on
     = (mkMachine (world power_on) ["No cameras detected."], Raise (SystemExit 1)).
Proof.
  assert (contains "/dev/video" (stdout (@detection bench_no_devices power_on).2) = false)
    as Hnone by (vm_compute; reflexivity).
  split; [exact Hnone|].
  destruct (@no_video_path_no_session bench_no_devices
              {["CAMERA_DEVICE" := "/dev/video0"]} None power_on Hnone) as [_ Hmain].
  unfold main. rewrite Hmain. reflexivity.
Defined.

(** * The video phase *)

Section VideoPhase.
Context `{Platform}.
Implicit Types (self : CameraTests.t) (m : Machine).

(** Recording and the four video checks, from the bytes the transcoder
    left; the phase leaves them in place. *)
Lemma run_video_tests_by_bytes self m :
  as_constructed self ->
  fps_probe_contained self ->
  let after :=
    transcoded (CameraTests.camera self) (CameraTests.duration self) (video_file self)
      (world (CameraTests.log self (start_line self) m).1) in
  let bytes := files after.1 !! CameraTests.video_path self in
  exists m',
    emits (CameraTests.run_video_tests self) m
      (video_phase self (bool_decide (is_Some bytes)) (video_validity_verdict self bytes)
         (video_fps_verdict self bytes) (video_audio_verdict self bytes)) tt m'
    /\ files (world m') !! CameraTests.video_path self = bytes.
Proof.
  intros Hself Hc after bytes.
  destruct (constructed_paths_distinct self Hself) as [Hne _].
  destruct (record_video_result_run self m) as [Heq _].
  rewrite log_run in Heq. fold after in Heq.
  pose proof (record_video_emits self m) as [m0' E0].
  assert (m0' = (CameraTests.record_video self m).1) as Hm0
    by (destruct E0 as [-> _]; reflexivity).
  rewrite Heq in Hm0. cbn [fst] in Hm0. subst m0'.
  set (m0 := mkMachine _ _) in E0.
  assert (files (world m0) !! CameraTests.video_path self = bytes) as B0
    by (unfold m0; cbn [world]; by rewrite log_world_other).
  pose proof (emits_log self "Running Video Tests..." m0) as E1.
  set (m1 := mkMachine _ _) in E1.
  assert (files (world m1) !! CameraTests.video_path self = bytes) as B1
    by (unfold m1; cbn [world]; by rewrite log_world_other).
  assert (emits (CameraTests.test_video_exists self) m1 [] (bool_decide (is_Some bytes)) m1)
    as T1.
  { split; [|by rewrite app_nil_r]. rewrite test_video_exists_run.
    unfold path_exists. by rewrite B1. }
  pose proof (emits_assert_test self (bool_decide (is_Some bytes)) "Video file exists" m1)
    as A1.
  set (m2 := mkMachine _ _) in A1.
  assert (files (world m2) !! CameraTests.video_path self = bytes) as B2
    by (unfold m2; cbn [world]; by rewrite log_world_other).
  assert (emits (CameraTests.test_video_validity self) m2 []
            (video_validity_verdict self bytes) m2) as T2.
  { split; [|by rewrite app_nil_r].
    unfold CameraTests.test_video_validity, video_validity_verdict,
      mbind, M_bind, bind, get_world. cbn [fst snd]. by rewrite B2. }
  pose proof (emits_assert_test self (video_validity_verdict self bytes)
                "Video is a valid file" m2) as A2.
  set (m3 := mkMachine _ _) in A2.
  assert (files (world m3) !! CameraTests.video_path self = bytes) as B3
    by (unfold m3; cbn [world]; by rewrite log_world_other).
  assert (emits (CameraTests.test_video_fps self) m3 [] (video_fps_verdict self bytes) m3)
    as T3.
  { split; [|by rewrite app_nil_r]. rewrite test_video_fps_unfold.
    unfold rate_report, video_fps_verdict. rewrite B3.
    destruct (CameraTests.fps_verdict _ _) as [b|e] eqn:Hv; [reflexivity|].
    by rewrite (Hc _ _ Hv). }
  pose proof (emits_assert_test self (video_fps_verdict self bytes)
                "Video FPS is correct" m3) as A3.
  set (m4 := mkMachine _ _) in A3.
  assert (files (world m4) !! CameraTests.video_path self = bytes) as B4
    by (unfold m4; cbn [world]; by rewrite log_world_other).
  assert (emits (CameraTests.test_video_audio self) m4 []
            (video_audio_verdict self bytes) m4) as T4.
  { split; [|by rewrite app_nil_r].
    unfold CameraTests.test_video_audio, video_audio_verdict,
      mbind, M_bind, bind, get_world. cbn [fst snd]. by rewrite B4. }
  pose proof (emits_assert_test self (video_audio_verdict self bytes)
                "Audio track detected in video" m4) as A4.
  set (m5 := mkMachine _ _) in A4.
  assert (emits (CameraTests.run_video_tests self) m
            (video_phase self (bool_decide (is_Some bytes))
               (video_validity_verdict self bytes) (video_fps_verdict self bytes)
               (video_audio_verdict self bytes)) tt m5) as [Hrun Hout].
  { unfold CameraTests.run_video_tests. eapply emits_lines.
    - eapply emits_bind; [exact E0|]. eapply emits_bind; [exact E1|].
      eapply emits_bind; [exact T1|]. eapply emits_bind; [exact A1|].
      eapply emits_bind; [exact T2|]. eapply emits_bind; [exact A2|].
      eapply emits_bind; [exact T3|]. eapply emits_bind; [exact A3|].
      eapply emits_bind; [exact T4|]. exact A4.
    - reflexivity. }
  exists m5. split; [by split|].
  unfold m5; cbn [world]. by rewrite log_world_other.
Qed.


End VideoPhase.

(** X13.  For a session as the constructor builds it, the four video
    verdicts of a run are functions of what the transcoder left at the
    video path: whether a file is there, and what the prober reports for its
    bytes.  The log entries written in between change none of them. *)
Theorem video_phase_verdicts_by_bytes `{Platform} (self : CameraTests.t) (m : Machine) :
  as_constructed self ->
  fps_probe_contained self ->
  let after :=
    transcoded (CameraTests.camera self) (CameraTests.duration self) (video_file self)
      (world (CameraTests.log self (start_line self) m).1) in
  let bytes := files after.1 !! CameraTests.video_path self in
  exists m',
    CameraTests.run_video_tests self m = (m', Return tt)
    /\ console m'
       = console m
         ++ video_phase self (bool_decide (is_Some bytes)) (video_validity_verdict self bytes)
              (video_fps_verdict self bytes) (video_audio_verdict self bytes).
Proof.
  intros Hself Hc after bytes.
  destruct (run_video_tests_by_bytes self m Hself Hc) as (m' & [Hrun Hout] & _).
  by exists m'.
Qed.

(** X13 on the bench: the clip the recorder wrote passes all four. *)
Lemma bench_video_phase :
  as_constructed bench_session
  /\ @fps_probe_contained (bench true true) bench_session
  /\ console (@CameraTests.run_video_tests (bench true true) bench_session power_on).1
     = video_phase bench_session true true true true.
Proof.
  assert (as_constructed bench_session) as Hself by (by repeat split).
  assert (@fps_probe_contained (bench true true) bench_session) as Hc by bench_contained.
  split; [exact Hself|]. split; [exact Hc|].
  destruct (@video_phase_verdicts_by_bytes (bench true true) bench_session power_on Hself Hc)
    as (m' & Hrun & Hout).
  rewrite Hrun. cbn [fst]. rewrite Hout. vm_compute. reflexivity.
Defined.

(** * The tolerance in whole numbers *)

Lemma within_one_of_ratio (n d target : Z) :
  0 < d ->
  Qle_bool (Qabs (Qminus (Qdiv (inject_Z n) (inject_Z d)) (inject_Z target))) 1
  = ((target - 1) * d <=? n) && (n <=? (target + 1) * d).
Proof.
  intros Hd. apply eq_true_iff_eq.
  rewrite Qle_bool_iff, andb_true_iff, !Z.leb_le.
  destruct d as [|p|p]; try lia.
  unfold Qle, Qabs, Qminus, Qplus, Qopp, Qdiv, Qmult, Qinv, inject_Z.
  cbn [Qnum Qden]. rewrite ?Pos.mul_1_l, ?Pos.mul_1_r, ?Z.mul_1_l, ?Z.mul_1_r.
  lia.
Qed.

(** X14.  For a frame rate reported as [n/d] with a positive denominator
    the frame-rate check answers by whole-number arithmetic: it passes
    exactly when (fps - 1) * d <= n <= (fps + 1) * d, both ends of the
    band included. *)
Theorem fps_band_in_whole_numbers `{Platform}
    (self : CameraTests.t) (m : Machine) (src : string) (n d : Z) :
  CameraTests.rate_text (rate_report self m) = Return (JString src) ->
  ratio_literal src = Some (n, d) ->
  0 < d ->
  CameraTests.test_video_fps self m
  = (m, Return (((CameraTests.fps self - 1) * d <=? n)
                && (n <=? (CameraTests.fps self + 1) * d))).
Proof.
  intros Hrate Hlit Hd.
  rewrite test_video_fps_unfold, (fps_verdict_ratio _ _ _ _ _ Hrate Hlit).
  assert ((d =? 0) = false) as -> by (apply Z.eqb_neq; lia).
  by rewrite within_one_of_ratio.
Qed.

(** X14 on the bench: the clip at 30/1 against the target 30. *)
Lemma bench_fps_band :
  @CameraTests.rate_text (bench true true) (@rate_report (bench true true) bench_session clipped)
  = Return (JString "30/1")
  /\ ratio_literal "30/1" = Some (30, 1)
  /\ 0 < 1
  /\ @CameraTests.test_video_fps (bench true true) bench_session clipped
     = (clipped, Return true).
Proof.
  assert (@CameraTests.rate_text (bench true true)
            (@rate_report (bench true true) bench_session clipped)
          = Return (JString "30/1")) as Hrate by (vm_compute; reflexivity).
  assert (ratio_literal "30/1" = Some (30, 1)) as Hlit by (vm_compute; reflexivity).
  assert (0 < 1) as Hd by lia.
  split; [exact Hrate|]. split; [exact Hlit|]. split; [exact Hd|].
  rewrite (@fps_band_in_whole_numbers (bench true true) bench_session clipped "30/1" 30 1
             Hrate Hlit Hd).
  reflexivity.
Defined.

(** * The device list *)

Section DeviceText.
Context `{Platform}.

Lemma contains_unfold (needle hay : string) :
  contains needle hay
  = startswith hay needle
    || match hay with EmptyString => false | String _ rest => contains needle rest end.
Proof. by destruct hay. Qed.

Lemma startswith_refl (s : string) : startswith s s = true.
Proof. induction s as [|c s IH]; [reflexivity|]. cbn [startswith]. by rewrite Ascii.eqb_refl. Qed.

Lemma startswith_elim (s p : string) :
  startswith s p = true -> exists rest, s = p +:+ rest.
Proof.
  revert s. induction p as [|a p IH]; intros s; [by exists s|].
  destruct s as [|b s]; [discriminate|].
  cbn [startswith]. intros Hs. apply andb_prop in Hs as [Hab Hp].
  apply Ascii.eqb_eq in Hab as ->. destruct (IH s Hp) as [rest ->]. by exists rest.
Qed.

Lemma contains_intro (needle before after : string) :
  contains needle (before +:+ needle +:+ after) = true.
Proof.
  induction before as [|c before IH].
  - change ("" +:+ needle +:+ after) with (needle +:+ after).
    rewrite contains_unfold. apply orb_true_iff. left.
    apply startswith_app, startswith_refl.
  - rewrite append_cons, contains_unfold. apply orb_true_iff. by right.
Qed.

Lemma contains_elim (needle hay : string) :
  contains needle hay = true -> exists before after, hay = before +:+ needle +:+ after.
Proof.
  induction hay as [|c hay IH]; rewrite contains_unfold; intros Hc;
    apply orb_true_iff in Hc as [Hs|Hc]; try discriminate.
  - destruct (startswith_elim _ _ Hs) as [after ->]. by exists "", after.
  - destruct (startswith_elim _ _ Hs) as [after ->]. by exists "", after.
  - destruct (IH Hc) as (before & after & ->). by exists (String c before), after.
Qed.

Lemma rev_app_append (a b : string) : String.rev_app a b = String.rev a +:+ b.
Proof.
  revert b. induction a as [|c a IH]; intros b; [reflexivity|].
  unfold String.rev. cbn [String.rev_app].
  by rewrite (IH (String c b)), (IH (String c "")), append_assoc.
Qed.

Lemma rev_cons (c : ascii) (a : string) : String.rev (String c a) = String.rev a +:+ String c "".
Proof. unfold String.rev at 1. cbn [String.rev_app]. apply rev_app_append. Qed.

Lemma rev_append (a b : string) : String.rev (a +:+ b) = String.rev b +:+ String.rev a.
Proof.
  induction a as [|c a IH].
  - change ("" +:+ b) with b. by rewrite append_nil_r.
  - by rewrite append_cons, !rev_cons, IH, append_assoc.
Qed.

Lemma rev_involutive (a : string) : String.rev (String.rev a) = a.
Proof. induction a as [|c a IH]; [reflexivity|]. by rewrite rev_cons, rev_append, IH. Qed.

Lemma contains_rev (needle hay : string) :
  contains needle hay = true -> contains (String.rev needle) (String.rev hay) = true.
Proof.
  intros Hc. destruct (contains_elim _ _ Hc) as (before & after & ->).
  rewrite !rev_append, append_assoc. apply contains_intro.
Qed.

(** Trimming on the left keeps a text that does not start with a blank. *)
Lemma lstrip_contains (a : ascii) (p hay : string) :
  is_space a = false ->
  contains (String a p) hay = true -> contains (String a p) (lstrip hay) = true.
Proof.
  intros Ha. induction hay as [|c hay IH]; [done|].
  cbn [lstrip]. destruct (is_space c) eqn:Hc; [|done].
  rewrite contains_unfold. cbn [startswith].
  destruct (Ascii.eqb a c) eqn:Hac; [apply Ascii.eqb_eq in Hac; congruence|].
  cbn [andb orb]. exact IH.
Qed.

Lemma strip_contains (a a' : ascii) (p p' s : string) :
  is_space a = false -> is_space a' = false ->
  String.rev (String a p) = String a' p' ->
  contains (String a p) s = true -> contains (String a p) (ascii_strip s) = true.
Proof.
  intros Ha Ha' Hrev Hc. unfold ascii_strip.
  apply (lstrip_contains a p s Ha), contains_rev in Hc. rewrite Hrev in Hc.
  apply (lstrip_contains a' p' _ Ha'), contains_rev in Hc.
  by rewrite <- Hrev, rev_involutive in Hc.
Qed.

(** What follows the first piece of a text is nothing or starts a new line. *)
Lemma split_lines_tail (s : string) :
  exists piece pieces tail,
    split_lines s = piece :: pieces /\ s = piece +:+ tail
    /\ (tail = "" \/ exists t, tail = String "010" t).
Proof.
  induction s as [|c s (piece & pieces & tail & Hsplit & Hs & Htail)].
  - exists "", [], "". split; [reflexivity|]. split; [reflexivity|]. by left.
  - cbn [split_lines]. destruct (Ascii.eqb c "010") eqn:Hc.
    + apply Ascii.eqb_eq in Hc as ->. exists "", (split_lines s), (String "010" s).
      split; [reflexivity|]. split; [reflexivity|]. right. by exists s.
    + rewrite Hsplit. exists (String c piece), pieces, tail.
      split; [reflexivity|]. split; [by rewrite append_cons, <- Hs|exact Htail].
Qed.

Lemma startswith_single_line (piece t p : string) :
  single_line p = true ->
  startswith (piece +:+ String "010" t) p = true -> startswith piece p = true.
Proof.
  revert piece. induction p as [|a p IH]; intros piece Hp; [reflexivity|].
  cbn [single_line] in Hp. apply andb_prop in Hp as [Ha Hp].
  destruct piece as [|b piece].
  - change ("" +:+ String "010" t) with (String "010" t). cbn [startswith].
    destruct (Ascii.eqb a "010"); [discriminate|done].
  - rewrite append_cons. cbn [startswith]. intros Hs. apply andb_prop in Hs as [Hab Hs].
    by rewrite Hab, (IH piece Hp Hs).
Qed.

(** A text without a newline that the output holds is held by one line. *)
Lemma line_contains (a : ascii) (p s : string) :
  single_line (String a p) = true ->
  contains (String a p) s = true ->
  exists line, line ∈ split_lines s /\ contains (String a p) line = true.
Proof.
  intros Hn. induction s as [|c s IH]; [discriminate|].
  rewrite contains_unfold. intros Hc. cbn [split_lines].
  destruct (Ascii.eqb c "010") eqn:Hnl.
  - apply Ascii.eqb_eq in Hnl as ->.
    assert (contains (String a p) s = true) as Hs.
    { apply orb_true_iff in Hc as [Hc|Hc]; [|exact Hc].
      cbn [single_line] in Hn. apply andb_prop in Hn as [Ha _].
      cbn [startswith] in Hc. apply andb_prop in Hc as [Hc _].
      rewrite Hc in Ha. discriminate. }
    destruct (IH Hs) as (line & Hin & Hline). exists line. split; [by right|exact Hline].
  - destruct (split_lines_tail s) as (piece & pieces & tail & Hsplit & Hs & Htail).
    rewrite Hsplit. apply orb_true_iff in Hc as [Hc|Hc].
    + exists (String c piece). split; [by left|].
      rewrite contains_unfold. apply orb_true_iff. left.
      destruct Htail as [->|[t ->]].
      * by rewrite append_nil_r in Hs; subst.
      * apply (startswith_single_line (String c piece) t _ Hn).
        by rewrite append_cons, <- Hs.
    + destruct (IH Hc) as (line & Hin & Hline). rewrite Hsplit in Hin.
      apply elem_of_cons in Hin as [->|Hin].
      * exists (String c piece). split; [by left|].
        rewrite contains_unfold. apply orb_true_iff. by right.
      * exists line. split; [by right|exact Hline].
Qed.

Lemma is_ascii_line (s line : string) :
  is_ascii s = true -> line ∈ split_lines s -> is_ascii line = true.
Proof.
  revert line. induction s as [|c s IH]; intros line.
  - intros _ Hin. apply elem_of_cons in Hin as [->|Hin]; [done|].
    by apply elem_of_nil in Hin.
  - cbn [is_ascii split_lines]. intros Hs. apply andb_prop in Hs as [Hc Hs].
    destruct (Ascii.eqb c "010").
    + intros Hin. apply elem_of_cons in Hin as [->|Hin]; [done|]. by apply IH.
    + destruct (split_lines_head s) as (piece & pieces & tail & Hsplit & _).
      rewrite Hsplit. intros Hin. apply elem_of_cons in Hin as [->|Hin].
      * cbn [is_ascii]. rewrite Hc. apply (IH piece Hs). rewrite Hsplit. by left.
      * apply (IH line Hs). rewrite Hsplit. by right.
Qed.

End DeviceText.

(** X15.  [list_cameras] keeps whole lines, trimmed: a camera is listed
    exactly when v4l2-ctl's stdout holds [/dev/video] somewhere, there is
    one entry for each line holding it, in the order of the output, and
    each entry is its trimmed line and still holds [/dev/video]; nothing
    cuts the device path out of the line.  The output is taken to be
    ASCII. *)
Theorem cameras_are_trimmed_lines `{Platform} (m : Machine) :
  is_ascii (stdout (detection m).2) = true ->
  (detected m = [] <-> contains "/dev/video" (stdout (detection m).2) = false)
  /\ detected m
     = map ascii_strip (filter (fun line => contains "/dev/video" line = true)
                          (split_lines (stdout (detection m).2)))
  /\ (forall cam, cam ∈ detected m -> contains "/dev/video" cam = true).
Proof.
  intros Hascii.
  assert (detected m
          = map ascii_strip (filter (fun line => contains "/dev/video" line = true)
                               (split_lines (stdout (detection m).2)))) as Hlist.
  { unfold detected. apply map_ext_in. intros line Hin.
    apply list_elem_of_In, list_elem_of_filter in Hin as [_ Hin].
    unfold py_strip. by rewrite (is_ascii_line _ _ Hascii Hin). }
  split; [|split; [exact Hlist|]].
  - split.
    + intros Hnone. destruct (contains _ _) eqn:Hc; [|reflexivity].
      destruct (line_contains "/" "dev/video" _ eq_refl Hc) as (line & Hin & Hline).
      assert (py_strip line ∈ detected m) as Hcam.
      { unfold detected. apply list_elem_of_In, in_map, list_elem_of_In.
        by apply list_elem_of_filter. }
      rewrite Hnone in Hcam. by apply elem_of_nil in Hcam.
    + intros Hnone. unfold detected.
      destruct (filter _ (split_lines (stdout (detection m).2))) as [|line lines] eqn:Hf;
        [reflexivity|].
      assert (line ∈ filter (fun line => contains "/dev/video" line = true)
                (split_lines (stdout (detection m).2))) as Hin by (rewrite Hf; by left).
      apply list_elem_of_filter in Hin as [Hline Hin].
      rewrite (contains_line _ _ _ Hin Hline) in Hnone. discriminate.
  - intros cam Hcam. rewrite Hlist in Hcam.
    apply list_elem_of_In, in_map_iff in Hcam as (line & <- & Hin).
    apply list_elem_of_In, list_elem_of_filter in Hin as [Hline _].
    by apply (strip_contains "/" "o" "dev/video" "ediv/ved/").
Qed.

(** X15 on the bench: the header line of the tool holds no device path and
    is dropped, the two indented lines are listed without their tab. *)
Lemma bench_cameras_listed :
  is_ascii (stdout (@detection (bench true true) power_on).2) = true
  /\ @detected (bench true true) power_on = ["/dev/video0"; "/dev/video1"]
  /\ (forall cam, cam ∈ @detected (bench true true) power_on ->
        contains "/dev/video" cam = true).
Proof.
  assert (is_ascii (stdout (@detection (bench true true) power_on).2) = true) as Hascii
    by (vm_compute; reflexivity).
  split; [exact Hascii|].
  destruct (@cameras_are_trimmed_lines (bench true true) power_on Hascii)
    as (_ & Hlist & Hall).
  split; [|exact Hall]. rewrite Hlist. vm_compute. reflexivity.
Defined.

(** * A whole session *)

(** X16.  A session as the entry point runs it, constructor and then
    [run_tests], leaves a log that reads: the header line, the rule, and
    one stamped entry for each line the session printed, in the order of
    the console.  The tools are taken to leave the log of the session
    alone. *)
Theorem session_log_is_header_then_console `{Platform}
    (cam : string) (m m0 : Machine) (self : CameraTests.t) :
  CameraTests.init cam 30 5 "captures" "logs" m = (m0, Return self) ->
  tools_spare_log self ->
  exists stamps lines,
    length stamps = length lines
    /\ console (test_camera cam m).1 = console m ++ lines
    /\ log_text self (world (test_camera cam m).1)
       = CameraTests.header_line (CameraTests.timestamp self) cam +:+ nl
         +:+ CameraTests.header_rule +:+ nl +:+ log_entries stamps lines.
Proof.
  intros Hinit Htools.
  destruct (in_step_run_tests self Htools m0) as (stamps & lines & Hlen & Hconsole & Hlog).
  exists stamps, lines. split; [exact Hlen|].
  unfold test_camera. erewrite bind_return by exact Hinit.
  rewrite Hconsole, Hlog. injection Hinit as <- <-.
  split; [reflexivity|].
  unfold log_text at 1.
  cbn [CameraTests.log_path CameraTests.timestamp world files].
  rewrite lookup_insert_eq. cbn [default id]. by rewrite !append_assoc.
Qed.

(** X16 on the bench: the session of the first camera. *)
Lemma bench_session_log :
  @CameraTests.init (bench true true) "/dev/video0" 30 5 "captures" "logs" power_on
  = ((@CameraTests.init (bench true true) "/dev/video0" 30 5 "captures" "logs" power_on).1,
     Return bench_session)
  /\ @tools_spare_log (bench true true) bench_session
  /\ exists stamps lines,
       length stamps = length lines
       /\ console (@test_camera (bench true true) "/dev/video0" power_on).1 = lines
       /\ @log_text bench_session
            (world (@test_camera (bench true true) "/dev/video0" power_on).1)
          = CameraTests.header_line (CameraTests.timestamp bench_session) "/dev/video0" +:+ nl
            +:+ CameraTests.header_rule +:+ nl
            +:+ @log_entries (bench true true) stamps lines.
Proof.
  assert (@CameraTests.init (bench true true) "/dev/video0" 30 5 "captures" "logs" power_on
          = ((@CameraTests.init (bench true true) "/dev/video0" 30 5 "captures" "logs"
                power_on).1, Return bench_session)) as Hinit by (vm_compute; reflexivity).
  assert (@tools_spare_log (bench true true) bench_session) as Htools.
  { split; [|split]; intros w.
    - reflexivity.
    - simpl. apply lookup_insert_ne. discriminate.
    - unfold transcoded. simpl. unfold bench_popen. simpl.
      apply lookup_insert_ne. vm_compute. discriminate. }
  split; [exact Hinit|]. split; [exact Htools|].
  destruct (@session_log_is_header_then_console (bench true true) "/dev/video0" power_on _
              bench_session Hinit Htools) as (stamps & lines & Hlen & Hconsole & Hlog).
  exists stamps, lines. split; [exact Hlen|]. split; [exact Hconsole|exact Hlog].
Defined.

(** * The session runs to completion *)

Section Completion.
Context `{Platform}.
Implicit Types (self : CameraTests.t) (m : Machine).

Lemma poll_lines_run self attempts m :
  exists m',
    emits (CameraTests.poll self attempts) m (poll_lines self attempts (world m))
      (negb (never_ready self attempts (world m))) m'.
Proof.
  revert m. induction attempts as [|attempt rest IH]; intros m.
  - eexists. cbn [CameraTests.poll poll_lines never_ready negb]. eapply emits_lines.
    + eapply emits_bind; [apply emits_log|apply emits_ret].
    + reflexivity.
  - unfold emits. rewrite poll_step. cbv zeta. cbn [poll_lines never_ready world console].
    destruct (CameraTests.image_ready self (time_sleep 1 (world m))) eqn:Hready.
    + eexists. split; reflexivity.
    + cbn [negb andb].
      destruct (IH (mkMachine (log_world self (retry_line attempt) (time_sleep 1 (world m)))
                      (console m ++ [retry_line attempt]))) as [m' [Hrun Hout]].
      exists m'. split; [exact Hrun|]. rewrite Hout. cbn [console world].
      by rewrite <- app_assoc.
Qed.

Lemma poll_lines_silent self attempts w : silent (poll_lines self attempts w).
Proof.
  revert w. induction attempts as [|attempt rest IH]; intros w; [reflexivity|].
  cbn [poll_lines]. destruct (CameraTests.image_ready self _); [reflexivity|].
  apply (silent_app [retry_line attempt]); [|apply IH].
  unfold silent. cbn [List.filter]. by rewrite retry_line_silent.
Qed.

Lemma poll_lines_never self attempts w :
  never_ready self attempts w = true ->
  poll_lines self attempts w
  = map retry_line attempts ++ ["Image capture failed after retries."].
Proof.
  revert w. induction attempts as [|attempt rest IH]; intros w; [reflexivity|].
  cbn [never_ready poll_lines map]. intros Hnever.
  apply andb_prop in Hnever as [Hready Hrest]. apply negb_true_iff in Hready.
  by rewrite Hready, (IH _ Hrest).
Qed.

(** The capture phase, line by line. *)
Lemma capture_image_lines self m :
  let m2 := (CameraController.capture_image (CameraTests.camera self) (image_file self)
               (CameraTests.log self
                  ("Capturing an image on " +:+ CameraTests.camera_device self +:+ "...")
                  m).1).1 in
  exists m',
    emits (CameraTests.capture_image self) m
      (("Capturing an image on " +:+ CameraTests.camera_device self +:+ "...")
       :: poll_lines self (seq 0 3) (world m2))
      (negb (never_ready self (seq 0 3) (world m2))) m'.
Proof.
  intros m2. unfold emits. rewrite capture_image_run. fold m2.
  destruct (poll_lines_run self (seq 0 3) m2) as [m' [Hrun Hout]].
  exists m'. split; [exact Hrun|]. rewrite Hout. unfold m2.
  destruct (controller_capture_image_emits (CameraTests.camera self) (image_file self)
              (CameraTests.log self
                 ("Capturing an image on " +:+ CameraTests.camera_device self +:+ "...")
                 m).1) as [r [_ Hconsole]].
  rewrite Hconsole, app_nil_r, log_run. cbn [fst console]. by rewrite <- app_assoc.
Qed.

Lemma test_image_resolution_lines self m :
  let image := files (world m) !! CameraTests.image_path self in
  exists m',
    emits (CameraTests.test_image_resolution self 1280 720) m
      (if decodes image then []
       else ["Skipping resolution test: Image cannot be loaded."])
      (resolution_verdict image) m'
    /\ (CameraTests.log_path self <> CameraTests.image_path self ->
        files (world m') !! CameraTests.image_path self = image).
Proof.
  cbv zeta.
  unfold emits, CameraTests.test_image_resolution, resolution_verdict, decodes,
    mbind, M_bind, bind, get_world; simpl.
  destruct (imread IMREAD_COLOR _).
  - exists m. rewrite app_nil_r. by repeat split.
  - eexists. split; [by split|]. intros Hne. simpl. by apply lookup_insert_ne.
Qed.

Lemma test_image_brightness_lines self m :
  let image := files (world m) !! CameraTests.image_path self in
  exists m',
    emits (CameraTests.test_image_brightness self) m
      (if gray_decodes image then []
       else ["Skipping brightness test: Image cannot be loaded."])
      (brightness_verdict image) m'.
Proof.
  cbv zeta.
  unfold emits, CameraTests.test_image_brightness, brightness_verdict, gray_decodes,
    mbind, M_bind, bind, get_world; simpl.
  destruct (imread IMREAD_GRAYSCALE _).
  - exists m. rewrite app_nil_r. by split.
  - eexists. by split.
Qed.

(** The image phase, line by line, from the bytes it starts with. *)
Lemma run_image_tests_lines self m :
  CameraTests.log_path self <> CameraTests.image_path self ->
  let image := files (world m) !! CameraTests.image_path self in
  exists m',
    emits (CameraTests.run_image_tests self) m
      (image_phase (CameraTests.image_ready self (world m)) image) tt m'.
Proof.
  intros Hne image.
  pose proof (emits_log self "Running Image Tests..." m) as E0.
  set (m0 := mkMachine _ _) in E0.
  pose proof (test_image_exists_emits self m0) as E1.
  assert (CameraTests.image_ready self (world m0) = CameraTests.image_ready self (world m))
    as R0 by (unfold m0; cbn [world]; by apply image_ready_log_world).
  rewrite R0 in E1.
  pose proof (emits_assert_test self (CameraTests.image_ready self (world m))
                "Image exists" m0) as A1.
  set (m1 := mkMachine _ _) in A1.
  assert (files (world m1) !! CameraTests.image_path self = image) as B1
    by (unfold m1, m0; cbn [world]; by rewrite !log_world_other).
  assert (emits (CameraTests.test_image_validity self) m1 [] (decodes image) m1) as E2.
  { split; [by rewrite test_image_validity_run, B1|by rewrite app_nil_r]. }
  pose proof (emits_assert_test self (decodes image) "Image is a valid JPEG file" m1) as A2.
  set (m2 := mkMachine _ _) in A2.
  assert (files (world m2) !! CameraTests.image_path self = image) as B2
    by (unfold m2; cbn [world]; by rewrite log_world_other).
  destruct (test_image_resolution_lines self m2) as (m3 & E3 & B3).
  rewrite B2 in E3, B3. specialize (B3 Hne).
  pose proof (emits_assert_test self (resolution_verdict image)
                "Image resolution is correct" m3) as A3.
  set (m3' := mkMachine _ _) in A3.
  assert (files (world m3') !! CameraTests.image_path self = image) as B3'
    by (unfold m3'; cbn [world]; by rewrite log_world_other).
  destruct (test_image_brightness_lines self m3') as (m4 & E4).
  rewrite B3' in E4.
  pose proof (emits_assert_test self (brightness_verdict image)
                "Image brightness is acceptable" m4) as A4.
  set (m4' := mkMachine _ _) in A4.
  exists m4'. unfold CameraTests.run_image_tests, image_phase. eapply emits_lines.
  - eapply emits_bind; [exact E0|].
    eapply emits_bind; [exact E1|]. eapply emits_bind; [exact A1|].
    eapply emits_bind; [exact E2|]. eapply emits_bind; [exact A2|].
    eapply emits_bind; [exact E3|]. eapply emits_bind; [exact A3|].
    eapply emits_bind; [exact E4|]. exact A4.
  - reflexivity.
Qed.

Lemma image_phase_verdicts (ready : bool) (image : option string) :
  List.filter is_verdict (image_phase ready image)
  = image_verdicts ready (decodes image) (resolution_verdict image)
      (brightness_verdict image).
Proof.
  unfold image_phase, image_verdicts.
  rewrite !List.filter_app. cbn [List.filter]. rewrite !is_verdict_verdict_line.
  by destruct (decodes image), (gray_decodes image).
Qed.

Lemma video_phase_verdicts self (v1 v2 v3 v4 : bool) :
  List.filter is_verdict (video_phase self v1 v2 v3 v4)
  = [CameraTests.verdict_line v1 "Video file exists";
     CameraTests.verdict_line v2 "Video is a valid file";
     CameraTests.verdict_line v3 "Video FPS is correct";
     CameraTests.verdict_line v4 "Audio track detected in video"].
Proof.
  unfold video_phase. cbn [List.filter].
  assert (is_verdict (start_line self) = false) as -> by reflexivity.
  by rewrite !is_verdict_verdict_line.
Qed.

(** A whole run, phase by phase. *)
Lemma run_tests_lines self m :
  as_constructed self ->
  fps_probe_contained self ->
  let image := files (world (after_capture self m)) !! CameraTests.image_path self in
  let video := files (recording self m).1 !! CameraTests.video_path self in
  exists m',
    emits (CameraTests.run_tests self) m
      (["Running Tests on Camera: " +:+ CameraTests.camera_device self]
       ++ capture_phase self m
       ++ (if captured self m then image_phase true image
           else ["Skipping image tests due to failed capture."])
       ++ video_phase self (bool_decide (is_Some video)) (video_validity_verdict self video)
            (video_fps_verdict self video) (video_audio_verdict self video)
       ++ ["Test session completed."]) tt m'
    /\ files (world m') !! CameraTests.video_path self = video
    /\ exists earlier,
         files (world m') !! CameraTests.log_path self
         = Some (earlier +:+ completion_entry (world m')).
Proof.
  intros Hself Hc image video.
  destruct (constructed_paths_distinct self Hself) as [Hvideo Himage].
  pose proof (emits_log self
    ("Running Tests on Camera: " +:+ CameraTests.camera_device self) m) as E0.
  set (m0 := mkMachine _ _) in E0.
  destruct (capture_image_lines self m0) as (m1 & E1).
  change (CameraController.capture_image _ _ _).1 with (triggered self m) in E1.
  fold (capture_phase self m) in E1. fold (captured self m) in E1.
  assert (m1 = after_capture self m) as Hm1.
  { destruct E1 as [Hrun _]. unfold after_capture. rewrite log_run. cbn [fst].
    fold m0. by rewrite Hrun. }
  assert (captured self m = true -> CameraTests.image_ready self (world m1) = true)
    as Hready.
  { intros Hcap. destruct E1 as [Hrun _]. rewrite Hcap in Hrun.
    assert (m1 = (CameraTests.capture_image self m0).1) as -> by by rewrite Hrun.
    rewrite capture_image_run. apply poll_true_ready; [exact Himage|].
    rewrite <- capture_image_run. by rewrite Hrun. }
  subst m1.
  assert (exists m2,
    emits (if negb (captured self m)
           then CameraTests.log self "Skipping image tests due to failed capture."
           else CameraTests.run_image_tests self) (after_capture self m)
      (if captured self m then image_phase true image
       else ["Skipping image tests due to failed capture."]) tt m2) as [m2 E2].
  { destruct (captured self m) eqn:Hcap; cbn [negb].
    - destruct (run_image_tests_lines self (after_capture self m) Himage) as [m2 E].
      rewrite (Hready eq_refl) in E. by exists m2.
    - eexists. apply emits_log. }
  assert (m2 = after_images self m) as Hm2.
  { destruct E2 as [Hrun _]. unfold after_images.
    destruct (captured self m); cbn [negb] in Hrun; by rewrite Hrun. }
  destruct (run_video_tests_by_bytes self m2 Hself Hc) as (m3 & E3 & B3).
  rewrite Hm2 in E3, B3. fold (recording self m) in E3, B3. fold video in E3, B3.
  rewrite <- Hm2 in E3.
  pose proof (emits_log self "Test session completed." m3) as E4.
  set (m4 := mkMachine _ _) in E4.
  exists m4. split; [|split].
  - unfold CameraTests.run_tests.
    eapply emits_bind; [exact E0|]. eapply emits_bind; [exact E1|].
    eapply emits_bind; [exact E2|]. eapply emits_bind; [exact E3|]. exact E4.
  - unfold m4; cbn [world]. by rewrite log_world_other.
  - eexists. unfold m4, completion_entry; simpl. apply lookup_insert_eq.
Qed.

End Completion.

(** C1.  Once [run_tests] starts, a failing check is recorded and never
    raised.  [assert_test] with a false condition is one [log] of the FAIL
    line.  The run returns normally, and what it printed is, line by line:
    the start line, the capture phase, the image phase or the line that it
    is skipped, the video phase and "Test session completed.", which is
    also the last entry of the log file.  Every verdict is the answer of
    its check: after a capture that a poll confirmed, PASS for the image's
    existence and the validity, resolution and brightness verdicts of the
    bytes of the image; then the four video verdicts of the bytes the
    transcoder left, which the run leaves in place.  When the tools leave
    the log alone, every line printed is an entry of the log.  The session
    is as the constructor builds it, and the prober is taken to print
    frame rates that Python evaluates without leaving [Exception]. *)
Theorem run_tests_always_completes `{Platform} (self : CameraTests.t) (m : Machine) :
  as_constructed self ->
  fps_probe_contained self ->
  let image := files (world (after_capture self m)) !! CameraTests.image_path self in
  let video := files (recording self m).1 !! CameraTests.video_path self in
  (forall message m0,
     CameraTests.assert_test self false message m0
     = CameraTests.log self ("FAIL: " +:+ message) m0)
  /\ exists m',
       CameraTests.run_tests self m = (m', Return tt)
       /\ console m'
          = console m
            ++ ["Running Tests on Camera: " +:+ CameraTests.camera_device self]
            ++ capture_phase self m
            ++ (if captured self m then image_phase true image
                else ["Skipping image tests due to failed capture."])
            ++ video_phase self (bool_decide (is_Some video))
                 (video_validity_verdict self video) (video_fps_verdict self video)
                 (video_audio_verdict self video)
            ++ ["Test session completed."]
       /\ List.filter is_verdict (drop (length (console m)) (console m'))
          = (if captured self m
             then image_verdicts true (decodes image) (resolution_verdict image)
                    (brightness_verdict image)
             else [])
            ++ [CameraTests.verdict_line (bool_decide (is_Some video)) "Video file exists";
                CameraTests.verdict_line (video_validity_verdict self video)
                  "Video is a valid file";
                CameraTests.verdict_line (video_fps_verdict self video)
                  "Video FPS is correct";
                CameraTests.verdict_line (video_audio_verdict self video)
                  "Audio track detected in video"]
       /\ files (world m') !! CameraTests.video_path self = video
       /\ (exists earlier,
             files (world m') !! CameraTests.log_path self
             = Some (earlier +:+ completion_entry (world m')))
       /\ (tools_spare_log self -> mirrored self m m').
Proof.
  intros Hself Hc image video. split.
  - intros message m0. apply assert_test_run.
  - destruct (run_tests_lines self m Hself Hc) as (m' & [Hrun Hout] & Hvideo & Hlog).
    fold image video in Hout, Hvideo.
    exists m'. split; [exact Hrun|]. split; [exact Hout|].
    split; [|split; [exact Hvideo|split; [exact Hlog|]]].
    + rewrite Hout, drop_app_length.
      rewrite !List.filter_app, video_phase_verdicts.
      assert (List.filter is_verdict (capture_phase self m) = []) as ->.
      { unfold capture_phase. cbn [List.filter].
        assert (is_verdict ("Capturing an image on " +:+ CameraTests.camera_device self
                            +:+ "...") = false) as -> by reflexivity.
        apply poll_lines_silent. }
      destruct (captured self m); [by rewrite image_phase_verdicts|reflexivity].
    + intros Htools. pose proof (in_step_run_tests self Htools m) as Hstep.
      by rewrite Hrun in Hstep.
Qed.

(** C4.  When each of the three polls, one second apart, finds the image
    file missing or empty, the run prints no image verdict: after the
    three retry lines and the two failure lines it records the video and
    prints the four video verdicts and the completion line.  The video
    phase is carried out: the transcoder runs in the world the skipped
    image phase left, the file it leaves is the file the run ends with,
    and the four verdicts are the answers of the four checks on the bytes
    of that file. *)
Theorem failed_capture_skips_image_checks `{Platform} (self : CameraTests.t) (m : Machine) :
  as_constructed self ->
  fps_probe_contained self ->
  never_ready self (seq 0 3) (world (triggered self m)) = true ->
  let skipped :=
    (CameraTests.log self "Skipping image tests due to failed capture."
       (after_capture self m)).1 in
  let after :=
    transcoded (CameraTests.camera self) (CameraTests.duration self) (video_file self)
      (world (CameraTests.log self (start_line self) skipped).1) in
  let video := files after.1 !! CameraTests.video_path self in
  exists m' lines,
    CameraTests.run_tests self m = (m', Return tt)
    /\ console m' = console m ++ lines
    /\ lines
       = ["Running Tests on Camera: " +:+ CameraTests.camera_device self;
          "Capturing an image on " +:+ CameraTests.camera_device self +:+ "...";
          retry_line 0; retry_line 1; retry_line 2;
          "Image capture failed after retries.";
          "Skipping image tests due to failed capture."]
         ++ video_phase self (bool_decide (is_Some video))
              (video_validity_verdict self video) (video_fps_verdict self video)
              (video_audio_verdict self video)
         ++ ["Test session completed."]
    /\ List.filter is_verdict lines
       = [CameraTests.verdict_line (bool_decide (is_Some video)) "Video file exists";
          CameraTests.verdict_line (video_validity_verdict self video)
            "Video is a valid file";
          CameraTests.verdict_line (video_fps_verdict self video) "Video FPS is correct";
          CameraTests.verdict_line (video_audio_verdict self video)
            "Audio track detected in video"]
    /\ files (world m') !! CameraTests.video_path self = video.
Proof.
  intros Hself Hc Hnever skipped after video.
  destruct (run_tests_lines self m Hself Hc) as (m' & [Hrun Hout] & Hvideo & _).
  assert (captured self m = false) as Hcap by (unfold captured; by rewrite Hnever).
  assert (recording self m = after) as Hafter
    by (unfold recording, after_images; by rewrite Hcap).
  rewrite Hafter in Hout, Hvideo. fold video in Hout, Hvideo.
  rewrite Hcap in Hout. unfold capture_phase in Hout.
  rewrite (poll_lines_never _ _ _ Hnever) in Hout.
  eexists m', _. split; [exact Hrun|]. split; [exact Hout|].
  split; [reflexivity|]. split; [|exact Hvideo].
  rewrite !List.filter_app, video_phase_verdicts. reflexivity.
Qed.

(** C1 on the bench: the camera works, the recorder produces nothing, and
    the run still ends with the completion line, the four image checks
    passed and the four video checks failed. *)
Lemma run_tests_completes_on_bench :
  as_constructed bench_session
  /\ @fps_probe_contained (bench true false) bench_session
  /\ exists m',
       @CameraTests.run_tests (bench true false) bench_session power_on = (m', Return tt)
       /\ last (console m') = Some "Test session completed."
       /\ List.filter is_verdict (console m')
          = image_verdicts true true true true
            ++ ["FAIL: Video file exists"; "FAIL: Video is a valid file";
                "FAIL: Video FPS is correct"; "FAIL: Audio track detected in video"].
Proof.
  assert (as_constructed bench_session) as Hself by (by repeat split).
  assert (@fps_probe_contained (bench true false) bench_session) as Hc by bench_contained.
  split; [exact Hself|]. split; [exact Hc|].
  destruct (@run_tests_always_completes (bench true false) bench_session power_on Hself Hc)
    as [_ (m' & Hrun & Hout & Hverdicts & _)].
  exists m'. split; [exact Hrun|]. split.
  - rewrite Hout, !app_assoc. apply last_snoc.
  - change (drop (length (console power_on)) (console m')) with (console m') in Hverdicts.
    rewrite Hverdicts.
    vm_compute. reflexivity.
Defined.

(** C4 on the bench: a camera that produces nothing. *)
Lemma failed_capture_on_bench :
  as_constructed bench_session
  /\ @fps_probe_contained (bench false true) bench_session
  /\ @never_ready (bench false true) bench_session (seq 0 3)
       (world (@triggered (bench false true) bench_session power_on)) = true
  /\ exists m',
       @CameraTests.run_tests (bench false true) bench_session power_on = (m', Return tt)
       /\ List.filter is_verdict (console m')
          = ["PASS: Video file exists"; "PASS: Video is a valid file";
             "PASS: Video FPS is correct"; "PASS: Audio track detected in video"]
       /\ files (world m') !! CameraTests.video_path bench_session = Some bench_clip.
Proof.
  assert (as_constructed bench_session) as Hself by (by repeat split).
  assert (@fps_probe_contained (bench false true) bench_session) as Hc by bench_contained.
  assert (@never_ready (bench false true) bench_session (seq 0 3)
            (world (@triggered (bench false true) bench_session power_on)) = true) as Hnever
    by (vm_compute; reflexivity).
  split; [exact Hself|]. split; [exact Hc|]. split; [exact Hnever|].
  destruct (@failed_capture_skips_image_checks (bench false true) bench_session power_on
              Hself Hc Hnever) as (m' & lines & Hrun & Hout & _ & Hfilter & Hvideo).
  exists m'. split; [exact Hrun|]. split.
  - rewrite Hout. cbn [power_on console app]. rewrite Hfilter. vm_compute. reflexivity.
  - rewrite Hvideo. vm_compute. reflexivity.
Defined.
